(** * Attention modules of InsideLLM-Transformers

    A shallow embedding of the three PyTorch modules of the repository,
    [MultiHeadAttention] (MultiHeadAttention.ipynb), [GroupedQueryAttention]
    and [CausalSelfAttention] (the notebooks bundled in README.md), together
    with the part of the tensor library they call.

    Tensors are dense row-major arrays: a shape and the flat list of the
    elements, as a contiguous torch tensor stores them.  Scalars are real
    numbers: the arithmetic is the exact one that float32 approximates, so
    statements that depend on rounding or underflow are outside the model.
    Python exceptions are values of [Py.exn]; every operation that can raise
    returns a [Py.result].  The global random generator that dropout draws
    from is threaded explicitly through [forward]. *)

From Stdlib Require Import String Bool Arith ZArith Reals Lra Lia List.
Import ListNotations.

Set Implicit Arguments.

(* ================================================================= *)
(** ** Python values: exceptions, integer division                    *)
(* ================================================================= *)

Module Py.

Inductive exn : Type :=
| AssertionError (msg : string)
| ZeroDivisionError
| ValueError (msg : string)
| IndexError (msg : string)
| RuntimeError (msg : string).

Definition result (A : Type) : Type := (exn + A)%type.

Definition ret {A : Type} (a : A) : result A := inr a.

Definition raise {A : Type} (e : exn) : result A := inl e.

Definition bind {A B : Type} (m : result A) (k : A -> result B) : result B :=
  match m with
  | inl e => inl e
  | inr a => k a
  end.

(** [a % b]: floored remainder, the sign follows the divisor. *)
Definition mod_ (a b : Z) : result Z :=
  if (b =? 0)%Z then raise ZeroDivisionError else ret (a mod b)%Z.

(** [a // b]: floored quotient. *)
Definition floordiv (a b : Z) : result Z :=
  if (b =? 0)%Z then raise ZeroDivisionError else ret (a / b)%Z.

(** [assert c, msg] *)
Definition assert_ (c : bool) (msg : string) : result unit :=
  if c then ret tt else raise (AssertionError msg).

(** [math.sqrt(n)] on an integer argument.  The result is the exact square
    root, of which the float the program holds is the rounding; an argument
    too large for a float, on which Python raises [OverflowError], is outside
    this model, and the statements about [CausalSelfAttention.__init__] that
    depend on it carry the bound [float_int_bound]. *)
Definition math_sqrt (n : Z) : result R :=
  if (n <? 0)%Z then raise (ValueError "math domain error")
  else ret (sqrt (IZR n)).

End Py.

Declare Scope py_scope.
Delimit Scope py_scope with py.
Notation "x <- e ;; k" := (Py.bind e (fun x => k))
  (at level 61, e at next level, right associativity) : py_scope.
Open Scope py_scope.

(* ================================================================= *)
(** ** Dense tensors                                                  *)
(* ================================================================= *)

(** The value read at an index outside the storage. *)
Class Dflt (A : Type) : Type := dflt : A.

#[export] Instance Dflt_R : Dflt R := 0%R.
#[export] Instance Dflt_bool : Dflt bool := false.
#[export] Instance Dflt_nat : Dflt nat := 0.
#[export] Instance Dflt_Z : Dflt Z := 0%Z.

Record tensor (A : Type) : Type := mk_tensor {
  shape : list nat;
  data : list A
}.

(** Number of elements of a shape. *)
Definition numel (s : list nat) : nat := fold_right Nat.mul 1 s.

(** Row-major offset of a multi-index, and its inverse. *)
Fixpoint ravel (s idx : list nat) : nat :=
  match s, idx with
  | _ :: s', i :: idx' => i * numel s' + ravel s' idx'
  | _, _ => 0
  end.

Fixpoint unravel (s : list nat) (n : nat) : list nat :=
  match s with
  | [] => []
  | _ :: s' => n / numel s' :: unravel s' (n mod numel s')
  end.

Definition get {A : Type} `{Dflt A} (t : tensor A) (idx : list nat) : A :=
  nth (ravel (shape t) idx) (data t) dflt.

(** The tensor of shape [s] whose element at [idx] is [f idx]. *)
Definition tabulate {A : Type} (s : list nat) (f : list nat -> A) : tensor A :=
  mk_tensor s (map (fun n => f (unravel s n)) (seq 0 (numel s))).

Definition tmap {A B : Type} (f : A -> B) (t : tensor A) : tensor B :=
  mk_tensor (shape t) (map f (data t)).

(** A multi-index of the right rank with every component in range. *)
Definition in_bounds (s idx : list nat) : Prop := Forall2 lt idx s.

(** The storage holds exactly the elements of the shape. *)
Definition wf {A : Type} (t : tensor A) : Prop :=
  length (data t) = numel (shape t).

(** [t.size(k)] *)
Definition size {A : Type} (t : tensor A) (k : nat) : Py.result nat :=
  match nth_error (shape t) k with
  | Some d => Py.ret d
  | None => Py.raise (Py.IndexError "Dimension out of range")
  end.

(** Shape inference of [view]: sizes as Python integers, [-1] for the one
    dimension to be inferred from the number of elements. *)
Definition infer_size (n : nat) (dims : list Z) : Py.result (list nat) :=
  if existsb (fun d => (d <? -1)%Z) dims
  then Py.raise (Py.RuntimeError "invalid shape dimension")
  else
    let newsize := numel (map Z.to_nat (filter (fun d => negb (d =? -1)%Z) dims)) in
    match count_occ Z.eq_dec dims (-1)%Z with
    | 0 =>
        if n =? newsize then Py.ret (map Z.to_nat dims)
        else Py.raise (Py.RuntimeError "shape is invalid for input size")
    | 1 =>
        if newsize =? 0 then
          if n =? 0
          then Py.raise (Py.RuntimeError
                 "cannot reshape tensor of 0 elements: the unspecified dimension size -1 is ambiguous")
          else Py.raise (Py.RuntimeError "shape is invalid for input size")
        else if n mod newsize =? 0
        then Py.ret (map (fun d => if (d =? -1)%Z then n / newsize else Z.to_nat d) dims)
        else Py.raise (Py.RuntimeError "shape is invalid for input size")
    | _ => Py.raise (Py.RuntimeError "only one dimension can be inferred")
    end.

(** [t.view(dims)] on a contiguous tensor: the storage is reinterpreted. *)
Definition view {A : Type} (t : tensor A) (dims : list Z) : Py.result (tensor A) :=
  s <- infer_size (numel (shape t)) dims ;;
  Py.ret (mk_tensor s (data t)).

(** Position of [a] in [l] ([length l] when absent). *)
Fixpoint index_of (a : nat) (l : list nat) : nat :=
  match l with
  | [] => 0
  | b :: l' => if a =? b then 0 else S (index_of a l')
  end.

(** [t.permute(perm)], materialised ([.contiguous()] is then the identity):
    axis [k] of the result is axis [perm[k]] of [t]. *)
Definition permute {A : Type} `{Dflt A} (perm : list nat) (t : tensor A)
  : Py.result (tensor A) :=
  if negb (length perm =? length (shape t))
  then Py.raise (Py.RuntimeError "permute: number of dims does not match")
  else Py.ret (tabulate (map (fun a => nth a (shape t) 0) perm)
                 (fun idx' => get t (map (fun a => nth (index_of a perm) idx' 0)
                                       (seq 0 (length perm))))).

(** The axis order with axes [d0] and [d1] exchanged. *)
Definition swap_axes (rank d0 d1 : nat) : list nat :=
  map (fun a => if a =? d0 then d1 else if a =? d1 then d0 else a) (seq 0 rank).

(** A possibly negative axis number, counted from the end when negative. *)
Definition norm_dim (rank : nat) (d : Z) : Py.result nat :=
  if ((- Z.of_nat rank <=? d) && (d <? Z.of_nat rank))%Z
  then Py.ret (Z.to_nat (if (d <? 0)%Z then d + Z.of_nat rank else d))
  else Py.raise (Py.IndexError "Dimension out of range").

(** [t.transpose(d0, d1)] *)
Definition transpose {A : Type} `{Dflt A} (d0 d1 : Z) (t : tensor A)
  : Py.result (tensor A) :=
  let rank := length (shape t) in
  a0 <- norm_dim rank d0 ;;
  a1 <- norm_dim rank d1 ;;
  permute (swap_axes rank a0 a1) t.

(** [t.contiguous()] *)
Definition contiguous {A : Type} (t : tensor A) : tensor A := t.

(** [n] consecutive blocks of [size] elements. *)
Fixpoint chunks {A : Type} (size n : nat) (l : list A) : list (list A) :=
  match n with
  | 0 => []
  | S n' => firstn size l :: chunks size n' (skipn size l)
  end.

(** [torch.repeat_interleave(t, repeats, dim)]: every slice along [dim] is
    written [repeats] times in a row. *)
Definition repeat_interleave {A : Type} (t : tensor A) (repeats : Z) (dim : nat)
  : Py.result (tensor A) :=
  if (repeats <? 0)%Z
  then Py.raise (Py.RuntimeError "repeats can not be negative")
  else
    match nth_error (shape t) dim with
    | None => Py.raise (Py.IndexError "Dimension out of range")
    | Some d =>
        let r := Z.to_nat repeats in
        let outer := numel (firstn (S dim) (shape t)) in
        let inner := numel (skipn (S dim) (shape t)) in
        Py.ret (mk_tensor
                  (firstn dim (shape t) ++ (d * r) :: skipn (S dim) (shape t))
                  (concat (flat_map (fun blk => repeat blk r)
                             (chunks inner outer (data t)))))
    end.

(** Broadcasting of two shapes, aligned on their last axes. *)
Fixpoint broadcast_rev (r1 r2 : list nat) : Py.result (list nat) :=
  match r1, r2 with
  | [], r => Py.ret r
  | r, [] => Py.ret r
  | d1 :: r1', d2 :: r2' =>
      rest <- broadcast_rev r1' r2' ;;
      if d1 =? d2 then Py.ret (d1 :: rest)
      else if d1 =? 1 then Py.ret (d2 :: rest)
      else if d2 =? 1 then Py.ret (d1 :: rest)
      else Py.raise (Py.RuntimeError
             "The size of tensor a must match the size of tensor b")
  end.

Definition broadcast_shapes (s1 s2 : list nat) : Py.result (list nat) :=
  r <- broadcast_rev (rev s1) (rev s2) ;;
  Py.ret (rev r).

(** Reading a tensor through broadcasting: [idx] indexes the broadcast
    shape; leading axes the tensor lacks are dropped and axes of size one
    are read at 0. *)
Definition bget {A : Type} `{Dflt A} (t : tensor A) (idx : list nat) : A :=
  get t (map (fun di => if fst di =? 1 then 0 else snd di)
           (combine (shape t) (skipn (length idx - length (shape t)) idx))).

(* ================================================================= *)
(** ** Numeric primitives                                             *)
(* ================================================================= *)

Open Scope R_scope.

(** [f 0 + ... + f (n-1)] *)
Definition sum_n (n : nat) (f : nat -> R) : R :=
  fold_right Rplus 0 (map f (seq 0 n)).

(** The multi-index [idx] with its last component replaced by [j]. *)
Definition set_last (idx : list nat) (j : nat) : list nat :=
  removelast idx ++ [j].

(** [torch.ones(s)] *)
Definition ones (s : list nat) : tensor R := tabulate s (fun _ => 1).

(** [torch.tril(t)] on a matrix: the entries above the diagonal become 0. *)
Definition tril (t : tensor R) : tensor R :=
  tabulate (shape t)
    (fun idx => if (nth 1 idx 0%nat <=? nth 0 idx 0%nat)%nat then get t idx else 0).

(** [t == c] *)
Definition eq_scalar (t : tensor R) (c : R) : tensor bool :=
  tmap (fun x => if Req_dec_T x c then true else false) t.

(** [t / c].  The quotient is that of the reals, which agrees with the
    program's for [c <> 0]; for [c = 0] the program yields NaN or an
    infinity, which the reals do not have, so the statements about values
    that go through this division assume a non-zero divisor. *)
Definition div_scalar (t : tensor R) (c : R) : tensor R :=
  tmap (fun x => x / c) t.

(** [t.masked_fill(cond, v)]: both operands are broadcast to their common
    shape. *)
Definition masked_fill (t : tensor R) (cond : tensor bool) (v : R)
  : Py.result (tensor R) :=
  s <- broadcast_shapes (shape t) (shape cond) ;;
  Py.ret (tabulate s (fun idx => if bget cond idx then v else bget t idx)).

(** [F.softmax(t, dim=-1)], in exact arithmetic: the exponential neither
    underflows nor overflows.  The program rounds a weight below the least
    float to 0 and returns NaN rows for scores that are not finite; the
    statements about the weights therefore claim [0 <= w], not [0 < w], and
    assume scores within the range of the float type ([in_float_range]). *)
Definition softmax (t : tensor R) : tensor R :=
  let n := last (shape t) 1%nat in
  tabulate (shape t)
    (fun idx => exp (get t idx) / sum_n n (fun j => exp (get t (set_last idx j)))).

(** [torch.matmul(a, b)] for operands of rank at least two: a batch of
    matrix products, the batch axes being broadcast. *)
Definition matmul (a b : tensor R) : Py.result (tensor R) :=
  match rev (shape a), rev (shape b) with
  | k :: n :: ba, m :: k' :: bb =>
      if negb (k =? k')%nat
      then Py.raise (Py.RuntimeError "mat1 and mat2 shapes cannot be multiplied")
      else
        batch <- broadcast_rev ba bb ;;
        let nb := length batch in
        Py.ret (tabulate (rev batch ++ [n; m])
                  (fun idx =>
                     let bi := firstn nb idx in
                     let i := nth nb idx 0%nat in
                     let j := nth (S nb) idx 0%nat in
                     sum_n k (fun c => bget a (bi ++ [i; c]) * bget b (bi ++ [c; j]))))
  | _, _ => Py.raise (Py.RuntimeError "matmul: operand of rank below two")
  end.

(** [torch.bmm(a, b)]: both operands of rank three, same batch size. *)
Definition bmm (a b : tensor R) : Py.result (tensor R) :=
  match shape a, shape b with
  | [ba; n; k], [bb; k'; m] =>
      if (ba =? bb)%nat && (k =? k')%nat
      then Py.ret (tabulate [ba; n; m]
                     (fun idx =>
                        let bi := nth 0 idx 0%nat in
                        let i := nth 1 idx 0%nat in
                        let j := nth 2 idx 0%nat in
                        sum_n k (fun c => get a [bi; i; c] * get b [bi; c; j])))
      else Py.raise (Py.RuntimeError "bmm: batch or inner sizes do not match")
  | _, _ => Py.raise (Py.RuntimeError "bmm: batch tensors must be 3D")
  end.

(** *** [nn.Linear] *)

Record Linear : Type := mk_Linear {
  in_features : nat;
  out_features : nat;
  weight : tensor R;   (* shape [out_features; in_features] *)
  bias : tensor R      (* shape [out_features] *)
}.

(** The values the initialiser writes into a fresh layer. *)
Record LinearInit : Type := mk_LinearInit {
  weight0 : nat -> nat -> R;
  bias0 : nat -> R
}.

(** [nn.Linear(in_features, out_features)] *)
Definition Linear_init (inf outf : Z) (w : LinearInit) : Py.result Linear :=
  if ((inf <? 0) || (outf <? 0))%Z
  then Py.raise (Py.RuntimeError "Trying to create tensor with negative dimension")
  else
    let i := Z.to_nat inf in
    let o := Z.to_nat outf in
    Py.ret (mk_Linear i o
              (tabulate [o; i] (fun idx => weight0 w (nth 0 idx 0%nat) (nth 1 idx 0%nat)))
              (tabulate [o] (fun idx => bias0 w (nth 0 idx 0%nat)))).

(** [layer(x)]: [x @ weight.T + bias] on the last axis. *)
Definition linear (l : Linear) (x : tensor R) : Py.result (tensor R) :=
  match rev (shape x) with
  | d :: pre =>
      if (d =? in_features l)%nat
      then Py.ret (tabulate (rev pre ++ [out_features l])
                     (fun idx =>
                        let o := last idx 0%nat in
                        sum_n (in_features l)
                          (fun i => get x (set_last idx i) * get (weight l) [o; i])
                        + get (bias l) [o]))
      else Py.raise (Py.RuntimeError "mat1 and mat2 shapes cannot be multiplied")
  | [] => Py.raise (Py.RuntimeError "linear: input of rank zero")
  end.

(** *** [nn.Dropout] and the random generator *)

(** The default generator: a stream of uniform samples of [0, 1) and the
    position of the next one. *)
Record Generator : Type := mk_Generator {
  sample : nat -> R;
  cursor : nat
}.

(** [nn.Dropout(p)] checks its probability. *)
Definition Dropout_init (p : R) : Py.result R :=
  if Rlt_dec p 0 then
    Py.raise (Py.ValueError "dropout probability has to be between 0 and 1")
  else if Rlt_dec 1 p then
    Py.raise (Py.ValueError "dropout probability has to be between 0 and 1")
  else Py.ret p.

(** [F.dropout(t, p, training)]: in training mode every element is kept
    with probability [1 - p] and rescaled by [1 / (1 - p)], else zeroed.  The
    source of randomness is made explicit as a sequence of samples read at a
    cursor, one per element in storage order: that order is a choice of this
    model, not a fact of the program. *)
Definition dropout (p : R) (training : bool) (t : tensor R) (g : Generator)
  : tensor R * Generator :=
  if Req_dec_T p 0 then (t, g)
  else if negb training then (t, g)
  else if (numel (shape t) =? 0)%nat then (t, g)
  else if Req_dec_T p 1 then (tmap (fun x => x * 0) t, g)
  else
    (mk_tensor (shape t)
       (map (fun xn =>
               let noise := if Rlt_dec (sample g (cursor g + snd xn)) (1 - p)
                            then 1 else 0 in
               fst xn * (noise / (1 - p)))
          (combine (data t) (seq 0 (length (data t))))),
     mk_Generator (sample g) (cursor g + numel (shape t))).

(** The constant that fills the disallowed scores. *)
Definition neg_fill : R := -1000000000.

(** The masking step shared by the modules that take a mask:
    [if mask is not None: scores = scores.masked_fill(mask == 0, -1e9)].
    A boolean mask is a tensor of 0 ([False]) and 1 ([True]). *)
Definition fill_mask (mask : option (tensor R)) (scores : tensor R)
  : Py.result (tensor R) :=
  match mask with
  | Some m => masked_fill scores (eq_scalar m 0) neg_fill
  | None => Py.ret scores
  end.

(* ================================================================= *)
(** ** MultiHeadAttention (MultiHeadAttention.ipynb)                  *)
(* ================================================================= *)

Module MultiHeadAttention.

Record t : Type := mk {
  d_model : Z;
  num_heads : Z;
  d_k : Z;
  query_proj : Linear;
  key_proj : Linear;
  value_proj : Linear;
  output_proj : Linear;
  dropout_p : R;
  training : bool
}.

(** The initial parameter values of the four layers. *)
Record InitValues : Type := mk_init {
  query_init : LinearInit;
  key_init : LinearInit;
  value_init : LinearInit;
  output_init : LinearInit
}.

Definition __init__ (d_model num_heads : Z) (dropout : R) (w : InitValues)
  : Py.result t :=
  r <- Py.mod_ d_model num_heads ;;
  _ <- Py.assert_ (r =? 0)%Z "d_model must be divisible by num_heads" ;;
  d_k <- Py.floordiv d_model num_heads ;;
  qp <- Linear_init d_model d_model (query_init w) ;;
  kp <- Linear_init d_model d_model (key_init w) ;;
  vp <- Linear_init d_model d_model (value_init w) ;;
  op <- Linear_init d_model d_model (output_init w) ;;
  p <- Dropout_init dropout ;;
  Py.ret (mk d_model num_heads d_k qp kp vp op p true).

(** [module.eval()], inherited from [nn.Module]: leaves training mode. *)
Definition eval (self : t) : t :=
  mk (d_model self) (num_heads self) (d_k self) (query_proj self) (key_proj self)
     (value_proj self) (output_proj self) (dropout_p self) false.

Definition split_heads (self : t) (x : tensor R) (batch_size : nat)
  : Py.result (tensor R) :=
  x <- view x [Z.of_nat batch_size; -1; num_heads self; d_k self]%Z ;;
  permute [0; 2; 1; 3]%nat x.

(** The head-recombination step of [forward]. *)
Definition merge_heads (self : t) (context : tensor R) (batch_size : nat)
  : Py.result (tensor R) :=
  context <- permute [0; 2; 1; 3]%nat context ;;
  let context := contiguous context in
  view context [Z.of_nat batch_size; -1; d_model self]%Z.

(** [torch.matmul(Q, K.transpose(-2, -1)) / np.sqrt(self.d_k)] *)
Definition raw_scores (self : t) (Q K : tensor R) : Py.result (tensor R) :=
  Kt <- transpose (-2) (-1) K ;;
  qk <- matmul Q Kt ;;
  Py.ret (div_scalar qk (sqrt (IZR (d_k self)))).

Definition forward (self : t) (query key value : tensor R)
  (mask : option (tensor R)) (g : Generator)
  : Py.result (tensor R * tensor R * Generator) :=
  batch_size <- size query 0 ;;
  q <- linear (query_proj self) query ;;
  Q <- split_heads self q batch_size ;;
  k <- linear (key_proj self) key ;;
  K <- split_heads self k batch_size ;;
  v <- linear (value_proj self) value ;;
  V <- split_heads self v batch_size ;;
  scores <- raw_scores self Q K ;;
  scores <- fill_mask mask scores ;;
  let attention_weights := softmax scores in
  let (attention_weights, g') :=
    dropout (dropout_p self) (training self) attention_weights g in
  context <- matmul attention_weights V ;;
  context <- merge_heads self context batch_size ;;
  output <- linear (output_proj self) context ;;
  Py.ret (output, attention_weights, g').

(** The value of [scores] in [forward] before the mask is applied. *)
Definition pre_mask_scores (self : t) (query key : tensor R)
  : Py.result (tensor R) :=
  batch_size <- size query 0 ;;
  q <- linear (query_proj self) query ;;
  Q <- split_heads self q batch_size ;;
  k <- linear (key_proj self) key ;;
  K <- split_heads self k batch_size ;;
  raw_scores self Q K.

End MultiHeadAttention.

(* ================================================================= *)
(** ** GroupedQueryAttention                                          *)
(* ================================================================= *)

Module GroupedQueryAttention.

Record t : Type := mk {
  d_model : Z;
  num_query_heads : Z;
  num_kv_heads : Z;
  kv_groups : Z;
  d_qk : Z;
  d_v : Z;
  query_proj : Linear;
  key_proj : Linear;
  value_proj : Linear;
  output_proj : Linear;
  dropout_p : R;
  training : bool
}.

Record InitValues : Type := mk_init {
  query_init : LinearInit;
  key_init : LinearInit;
  value_init : LinearInit;
  output_init : LinearInit
}.

Definition __init__ (d_model num_query_heads num_kv_heads : Z) (dropout : R)
  (w : InitValues) : Py.result t :=
  r1 <- Py.mod_ d_model num_query_heads ;;
  _ <- Py.assert_ (r1 =? 0)%Z "d_model must be divisible by num_query_heads" ;;
  r2 <- Py.mod_ d_model num_kv_heads ;;
  _ <- Py.assert_ (r2 =? 0)%Z "d_model must be divisible by num_kv_heads" ;;
  r3 <- Py.mod_ num_query_heads num_kv_heads ;;
  _ <- Py.assert_ (r3 =? 0)%Z "num_query_heads must be a multiple of num_kv_heads" ;;
  kv_groups <- Py.floordiv num_query_heads num_kv_heads ;;
  d_qk <- Py.floordiv d_model num_query_heads ;;
  d_v <- Py.floordiv d_model num_kv_heads ;;
  qp <- Linear_init d_model d_model (query_init w) ;;
  kv_width <- Py.floordiv d_model num_query_heads ;;
  kp <- Linear_init d_model (kv_width * num_kv_heads) (key_init w) ;;
  vp <- Linear_init d_model (kv_width * num_kv_heads) (value_init w) ;;
  op <- Linear_init d_model d_model (output_init w) ;;
  p <- Dropout_init dropout ;;
  Py.ret (mk d_model num_query_heads num_kv_heads kv_groups d_qk d_v
            qp kp vp op p true).

Definition eval (self : t) : t :=
  mk (d_model self) (num_query_heads self) (num_kv_heads self) (kv_groups self)
     (d_qk self) (d_v self) (query_proj self) (key_proj self) (value_proj self)
     (output_proj self) (dropout_p self) false.

(** The expansion of the key or value heads in [forward]. *)
Definition expand_kv (self : t) (kv : tensor R) : Py.result (tensor R) :=
  repeat_interleave kv (kv_groups self) 1.

(** [torch.matmul(q, k.transpose(-2, -1)) / math.sqrt(self.d_qk)] *)
Definition raw_scores (self : t) (q k : tensor R) : Py.result (tensor R) :=
  kt <- transpose (-2) (-1) k ;;
  qk <- matmul q kt ;;
  scale <- Py.math_sqrt (d_qk self) ;;
  Py.ret (div_scalar qk scale).

Definition forward (self : t) (query key value : tensor R)
  (mask : option (tensor R)) (g : Generator)
  : Py.result (tensor R * tensor R * Generator) :=
  batch_size <- size query 0 ;;
  seq_len_q <- size query 1 ;;
  seq_len_k <- size key 1 ;;
  q <- linear (query_proj self) query ;;
  k <- linear (key_proj self) key ;;
  v <- linear (value_proj self) value ;;
  q <- view q [Z.of_nat batch_size; Z.of_nat seq_len_q; num_query_heads self; d_qk self] ;;
  q <- transpose 1 2 q ;;
  k <- view k [Z.of_nat batch_size; Z.of_nat seq_len_k; num_kv_heads self; d_qk self] ;;
  k <- transpose 1 2 k ;;
  v <- view v [Z.of_nat batch_size; Z.of_nat seq_len_k; num_kv_heads self; d_qk self] ;;
  v <- transpose 1 2 v ;;
  k <- expand_kv self k ;;
  v <- expand_kv self v ;;
  scores <- raw_scores self q k ;;
  scores <- fill_mask mask scores ;;
  let attention_weights := softmax scores in
  let (attention_weights, g') :=
    dropout (dropout_p self) (training self) attention_weights g in
  context <- matmul attention_weights v ;;
  context <- transpose 1 2 context ;;
  let context := contiguous context in
  context <- view context [Z.of_nat batch_size; Z.of_nat seq_len_q; d_model self] ;;
  output <- linear (output_proj self) context ;;
  Py.ret (output, attention_weights, g').

(** The value of [scores] in [forward] before the mask is applied. *)
Definition pre_mask_scores (self : t) (query key : tensor R)
  : Py.result (tensor R) :=
  batch_size <- size query 0 ;;
  seq_len_q <- size query 1 ;;
  seq_len_k <- size key 1 ;;
  q <- linear (query_proj self) query ;;
  k <- linear (key_proj self) key ;;
  q <- view q [Z.of_nat batch_size; Z.of_nat seq_len_q; num_query_heads self; d_qk self] ;;
  q <- transpose 1 2 q ;;
  k <- view k [Z.of_nat batch_size; Z.of_nat seq_len_k; num_kv_heads self; d_qk self] ;;
  k <- transpose 1 2 k ;;
  k <- expand_kv self k ;;
  raw_scores self q k.

End GroupedQueryAttention.

(* ================================================================= *)
(** ** CausalSelfAttention                                            *)
(* ================================================================= *)

Module CausalSelfAttention.

Record t : Type := mk {
  embedding_dim : Z;
  scale : R;
  query : Linear;
  key : Linear;
  value : Linear;
  dropout_p : R;
  training : bool
}.

Record InitValues : Type := mk_init {
  query_init : LinearInit;
  key_init : LinearInit;
  value_init : LinearInit
}.

Definition __init__ (embedding_dim : Z) (dropout : R) (w : InitValues)
  : Py.result t :=
  scale <- Py.math_sqrt embedding_dim ;;
  qp <- Linear_init embedding_dim embedding_dim (query_init w) ;;
  kp <- Linear_init embedding_dim embedding_dim (key_init w) ;;
  vp <- Linear_init embedding_dim embedding_dim (value_init w) ;;
  p <- Dropout_init dropout ;;
  Py.ret (mk embedding_dim scale qp kp vp p true).

Definition eval (self : t) : t :=
  mk (embedding_dim self) (scale self) (query self) (key self) (value self)
     (dropout_p self) false.

(** The mask built inside [forward]. *)
Definition causal_mask (seq_len : nat) : tensor R :=
  tril (ones [seq_len; seq_len]).

(** [torch.bmm(q, k.transpose(1, 2)) / self.scale] *)
Definition raw_scores (self : t) (q k : tensor R) : Py.result (tensor R) :=
  kt <- transpose 1 2 k ;;
  qk <- bmm q kt ;;
  Py.ret (div_scalar qk (scale self)).

Definition forward (self : t) (x : tensor R) (g : Generator)
  : Py.result (tensor R * tensor R * Generator) :=
  match shape x with
  | [batch_size; seq_len; _] =>
      q <- linear (query self) x ;;
      k <- linear (key self) x ;;
      v <- linear (value self) x ;;
      scores <- raw_scores self q k ;;
      scores <- masked_fill scores (eq_scalar (causal_mask seq_len) 0) neg_fill ;;
      let attention := softmax scores in
      let (attention, g') :=
        dropout (dropout_p self) (training self) attention g in
      output <- bmm attention v ;;
      Py.ret (output, attention, g')
  | _ => Py.raise (Py.ValueError "wrong number of values to unpack")
  end.

(** The value of [scores] in [forward] before the causal mask is applied. *)
Definition pre_mask_scores (self : t) (x : tensor R) : Py.result (tensor R) :=
  q <- linear (query self) x ;;
  k <- linear (key self) x ;;
  raw_scores self q k.

End CausalSelfAttention.

(* ================================================================= *)
(** ** Vocabulary of the properties                                   *)
(* ================================================================= *)

(** The call raised the configuration error of the constructors: a failed
    divisibility assertion. *)
Definition config_error {A : Type} (r : Py.result A) : Prop :=
  exists msg, r = Py.raise (Py.AssertionError msg).

(** The call returned normally. *)
Definition succeeds {A : Type} (r : Py.result A) : Prop :=
  exists a, r = Py.ret a.

(** Initial parameter values used in the worked examples. *)
Definition const_init (wv bv : R) : LinearInit :=
  mk_LinearInit (fun _ _ => wv) (fun _ => bv).

Definition mha_init0 : MultiHeadAttention.InitValues :=
  MultiHeadAttention.mk_init (const_init 0 0) (const_init 0 0)
    (const_init 0 0) (const_init 0 0).

Definition gqa_init0 : GroupedQueryAttention.InitValues :=
  GroupedQueryAttention.mk_init (const_init 0 0) (const_init 0 0)
    (const_init 0 0) (const_init 0 0).

Definition causal_init0 : CausalSelfAttention.InitValues :=
  CausalSelfAttention.mk_init (const_init 0 0) (const_init 0 0) (const_init 0 0).

(** The sizes a module works with: width [D], [H] heads of width [dk]. *)
Definition MultiHeadAttention_dims (self : MultiHeadAttention.t) (D H dk : nat)
  : Prop :=
  MultiHeadAttention.d_model self = Z.of_nat D
  /\ MultiHeadAttention.num_heads self = Z.of_nat H
  /\ MultiHeadAttention.d_k self = Z.of_nat dk
  /\ D = (H * dk)%nat
  /\ in_features (MultiHeadAttention.query_proj self) = D
  /\ out_features (MultiHeadAttention.query_proj self) = D
  /\ in_features (MultiHeadAttention.key_proj self) = D
  /\ out_features (MultiHeadAttention.key_proj self) = D
  /\ in_features (MultiHeadAttention.value_proj self) = D
  /\ out_features (MultiHeadAttention.value_proj self) = D
  /\ in_features (MultiHeadAttention.output_proj self) = D
  /\ out_features (MultiHeadAttention.output_proj self) = D.

(** Width [D], [Hq] query heads and [Hkv] key/value heads of width [dk],
    [G] query heads per key/value head. *)
Definition GroupedQueryAttention_dims (self : GroupedQueryAttention.t)
  (D Hq Hkv G dk : nat) : Prop :=
  GroupedQueryAttention.d_model self = Z.of_nat D
  /\ GroupedQueryAttention.num_query_heads self = Z.of_nat Hq
  /\ GroupedQueryAttention.num_kv_heads self = Z.of_nat Hkv
  /\ GroupedQueryAttention.kv_groups self = Z.of_nat G
  /\ GroupedQueryAttention.d_qk self = Z.of_nat dk
  /\ D = (Hq * dk)%nat /\ Hq = (Hkv * G)%nat /\ (0 < G)%nat
  /\ in_features (GroupedQueryAttention.query_proj self) = D
  /\ out_features (GroupedQueryAttention.query_proj self) = D
  /\ in_features (GroupedQueryAttention.key_proj self) = D
  /\ out_features (GroupedQueryAttention.key_proj self) = (dk * Hkv)%nat
  /\ in_features (GroupedQueryAttention.value_proj self) = D
  /\ out_features (GroupedQueryAttention.value_proj self) = (dk * Hkv)%nat
  /\ in_features (GroupedQueryAttention.output_proj self) = D
  /\ out_features (GroupedQueryAttention.output_proj self) = D.

Definition CausalSelfAttention_dims (self : CausalSelfAttention.t) (D : nat)
  : Prop :=
  in_features (CausalSelfAttention.query self) = D
  /\ out_features (CausalSelfAttention.query self) = D
  /\ in_features (CausalSelfAttention.key self) = D
  /\ out_features (CausalSelfAttention.key self) = D
  /\ in_features (CausalSelfAttention.value self) = D
  /\ out_features (CausalSelfAttention.value self) = D.

(** A caller-supplied mask that broadcasts to the shape [s] of the scores. *)
Definition mask_fits (s : list nat) (mask : option (tensor R)) : Prop :=
  match mask with
  | Some m => wf m /\ broadcast_shapes s (shape m) = Py.ret s
  | None => True
  end.

(** Whether the mask disallows the position [idx] of the scores. *)
Definition masked_at (mask : option (tensor R)) (idx : list nat) : bool :=
  match mask with
  | Some m => if Req_dec_T (bget m idx) 0 then true else false
  | None => false
  end.

(** Dropout leaves the weights alone: probability 0 or evaluation mode. *)
Definition dropout_off (p : R) (training : bool) : Prop :=
  p = 0 \/ training = false.

(** A batch of one sequence with one position of width two. *)
Definition x_example : tensor R := mk_tensor [1; 1; 2]%nat [1; 2].

(** A generator whose samples are all 0: every dropout draw keeps. *)
Definition gen_keep : Generator := mk_Generator (fun _ => 0) 0.






(** A generator whose first sample keeps and whose later samples drop, for
    any dropout probability between 1/20 and 19/20. *)
Definition gen_keep_then_drop : Generator :=
  mk_Generator (fun n => if (n =? 0)%nat then 0 else 19 / 20) 0.

(** A batch of one sequence with one position of width one. *)
Definition x_single : tensor R := mk_tensor [1; 1; 1]%nat [1].

(** Parameter values and an input on which the scores of the allowed
    positions fall below the fill constant: query weight 1/2, key weight
    -1/2, no bias, and two positions of value 10^6, so that every raw score
    is -2.5 * 10^11. *)
Definition causal_init_large : CausalSelfAttention.InitValues :=
  CausalSelfAttention.mk_init (const_init (1 / 2) 0) (const_init (- (1 / 2)) 0)
    (const_init 0 0).

Definition x_large : tensor R := mk_tensor [1; 2; 1]%nat [1000000; 1000000].

(** The inputs of the notebook's test of [MultiHeadAttention]: tensors of
    shape (2, 10, 64) (their values play no role in the shapes) and the
    lower-triangular mask of shape (1, 1, 10, 10). *)
Definition notebook_input : tensor R := tabulate [2; 10; 64]%nat (fun _ => 0).

Definition notebook_mask : tensor R :=
  tabulate [1; 1; 10; 10]%nat
    (fun idx => if (nth 3 idx 0%nat <=? nth 2 idx 0%nat)%nat then 1 else 0).

(* ================================================================= *)
(** ** Further vocabulary and worked inputs                           *)
(* ================================================================= *)

(** What [MultiHeadAttention.forward] does once the scores [S] and the
    value heads [V] are computed. *)
Definition MultiHeadAttention_finish (self : MultiHeadAttention.t)
  (batch_size : nat) (S V : tensor R) (mask : option (tensor R)) (g : Generator)
  : Py.result (tensor R * tensor R * Generator) :=
  scores <- fill_mask mask S ;;
  let attention_weights := softmax scores in
  let (attention_weights, g') :=
    dropout (MultiHeadAttention.dropout_p self) (MultiHeadAttention.training self)
      attention_weights g in
  context <- matmul attention_weights V ;;
  context <- MultiHeadAttention.merge_heads self context batch_size ;;
  output <- linear (MultiHeadAttention.output_proj self) context ;;
  Py.ret (output, attention_weights, g').

(** Two positions of width four, to be split into two heads. *)
Definition x_two_heads : tensor R := mk_tensor [1; 2; 4]%nat [0; 1; 2; 3; 4; 5; 6; 7].

(** A value tensor with two positions where [x_example] has one. *)
Definition v_two_positions : tensor R := mk_tensor [1; 2; 2]%nat [1; 2; 3; 4].

(** A mask whose last axis (3) does not match a key of length 2. *)
Definition mask_wrong_length : tensor R := mk_tensor [1; 1; 1; 3]%nat [1; 1; 1].

(** An empty batch of sequences of length 5 and width 2. *)
Definition x_empty_batch : tensor R := mk_tensor [0; 5; 2]%nat [].

(** One position of width three. *)
Definition x_width_three : tensor R := mk_tensor [1; 1; 3]%nat [1; 2; 3].

(** What [GroupedQueryAttention.forward] does once the scores [S] and the
    expanded value heads [V] are computed. *)
Definition GroupedQueryAttention_finish (self : GroupedQueryAttention.t)
  (batch_size seq_len_q : nat) (S V : tensor R) (mask : option (tensor R))
  (g : Generator) : Py.result (tensor R * tensor R * Generator) :=
  scores <- fill_mask mask S ;;
  let attention_weights := softmax scores in
  let (attention_weights, g') :=
    dropout (GroupedQueryAttention.dropout_p self) (GroupedQueryAttention.training self)
      attention_weights g in
  context <- matmul attention_weights V ;;
  context <- transpose 1 2 context ;;
  let context := contiguous context in
  context <- view context [Z.of_nat batch_size; Z.of_nat seq_len_q;
                           GroupedQueryAttention.d_model self] ;;
  output <- linear (GroupedQueryAttention.output_proj self) context ;;
  Py.ret (output, attention_weights, g').

(** Initial values of a [GroupedQueryAttention] taken from those of a
    [MultiHeadAttention]. *)
Definition gqa_init_of (w : MultiHeadAttention.InitValues)
  : GroupedQueryAttention.InitValues :=
  GroupedQueryAttention.mk_init
    (MultiHeadAttention.query_init w) (MultiHeadAttention.key_init w)
    (MultiHeadAttention.value_init w) (MultiHeadAttention.output_init w).

(** Two query heads on one key/value head, one feature each. *)
Definition x_two_features : tensor R := mk_tensor [1; 2; 2]%nat [1; 2; 3; 4].

(** Two batches of one position of width one that agree on batch element 0
    and differ on batch element 1. *)
Definition x_two_batches : tensor R := mk_tensor [2; 1; 1]%nat [1; 2].
Definition x_two_batches_other : tensor R := mk_tensor [2; 1; 1]%nat [1; 5].

(** A mask of shape (1, 1, 3, 2): three query rows over two key positions. *)
Definition mask_three_rows : tensor R :=
  mk_tensor [1; 1; 3; 2]%nat [1; 0; 1; 1; 0; 1].

(* ================================================================= *)
(** ** The tests of the notebooks                                     *)
(* ================================================================= *)

(** [torch.randn(batch_size, seq_len, d_model)]: a tensor of that shape
    filled with the values drawn from the random source. *)
Definition randn (s : list nat) (draw : list nat -> R) : tensor R := tabulate s draw.

(** [torch.triu(t, diagonal=k)] on a matrix: the entries (i, j) with
    [j - i < k] become 0. *)
Definition triu (t : tensor R) (diagonal : Z) : tensor R :=
  tabulate (shape t)
    (fun idx =>
       if (diagonal <=? Z.of_nat (nth 1 idx 0%nat) - Z.of_nat (nth 0 idx 0%nat))%Z
       then get t idx else 0).

(** [t.unsqueeze(0)] *)
Definition unsqueeze0 {A : Type} (t : tensor A) : tensor A :=
  mk_tensor (1%nat :: shape t) (data t).

(** [c - t] *)
Definition rsub_scalar (c : R) (t : tensor R) : tensor R :=
  tmap (fun x => c - x) t.

(** [t.bool()]: [False] (0) where the entry is zero, [True] (1) elsewhere. *)
Definition to_bool (t : tensor R) : tensor R :=
  tmap (fun x => if Req_dec_T x 0 then 0 else 1) t.

(** The mask both tests build:
    [torch.triu(torch.ones((seq_len, seq_len)), diagonal=1).unsqueeze(0).unsqueeze(0)]
    then [(1.0 - mask).bool()]. *)
Definition test_mask (seq_len : nat) : tensor R :=
  let mask := unsqueeze0 (unsqueeze0 (triu (ones [seq_len; seq_len]) 1)) in
  to_bool (rsub_scalar 1 mask).

(** [a.shape == b.shape] *)
Definition shape_eqb (s1 s2 : list nat) : bool :=
  if list_eq_dec Nat.eq_dec s1 s2 then true else false.

(** [test_multi_head_attention()]; the random draws of the inputs, of the
    initial parameters and of dropout are arguments. *)
Definition test_multi_head_attention
  (draw_query draw_key draw_value : list nat -> R)
  (w : MultiHeadAttention.InitValues) (g : Generator)
  : Py.result (tensor R * tensor R) :=
  let batch_size := 2%nat in
  let seq_len := 10%nat in
  let d_model := 64%Z in
  let num_heads := 8%Z in
  let query := randn [batch_size; seq_len; Z.to_nat d_model] draw_query in
  let key := randn [batch_size; seq_len; Z.to_nat d_model] draw_key in
  let value := randn [batch_size; seq_len; Z.to_nat d_model] draw_value in
  let mask := test_mask seq_len in
  mha <- MultiHeadAttention.__init__ d_model num_heads (1 / 10) w ;;
  r <- MultiHeadAttention.forward mha query key value (Some mask) g ;;
  let '(output, attention, _) := r in
  Py.ret (output, attention).

(** [test_grouped_query_attention()] *)
Definition test_grouped_query_attention
  (draw_query draw_key draw_value : list nat -> R)
  (w : GroupedQueryAttention.InitValues) (g : Generator)
  : Py.result (tensor R * tensor R) :=
  let batch_size := 2%nat in
  let seq_len := 10%nat in
  let d_model := 512%Z in
  let num_query_heads := 8%Z in
  let num_kv_heads := 2%Z in
  let query := randn [batch_size; seq_len; Z.to_nat d_model] draw_query in
  let key := randn [batch_size; seq_len; Z.to_nat d_model] draw_key in
  let value := randn [batch_size; seq_len; Z.to_nat d_model] draw_value in
  let mask := test_mask seq_len in
  gqa <- GroupedQueryAttention.__init__ d_model num_query_heads num_kv_heads (1 / 10) w ;;
  r <- GroupedQueryAttention.forward gqa query key value (Some mask) g ;;
  let '(output, attention, _) := r in
  _ <- Py.assert_ (shape_eqb (shape output) (shape query))
         "Output shape should match input shape" ;;
  Py.ret (output, attention).

(** [test_causal_attention()] *)
Definition test_causal_attention
  (draw_x : list nat -> R) (w : CausalSelfAttention.InitValues) (g : Generator)
  : Py.result (tensor R * tensor R) :=
  let batch_size := 1%nat in
  let seq_len := 4%nat in
  let embedding_dim := 8%Z in
  let x := randn [batch_size; seq_len; Z.to_nat embedding_dim] draw_x in
  causal_attn <- CausalSelfAttention.__init__ embedding_dim (1 / 10) w ;;
  r <- CausalSelfAttention.forward causal_attn x g ;;
  let '(output, attention, _) := r in
  Py.ret (output, attention).

(* ================================================================= *)
(** ** The range of the float type                                    *)
(* ================================================================= *)



(** The integers Python converts to a float: from [2^1024 - 2^970] on the
    conversion rounds to [2^1024] and [math.sqrt] raises [OverflowError]. *)
Definition float_int_bound : Z := (2 ^ 1024 - 2 ^ 970)%Z.




(* ================================================================= *)
(** ** Worked inputs with several heads, positions and distinct values *)
(* ================================================================= *)

(** Initial values that differ from entry to entry: weight (o, i) is
    [1 + o + 2 i], bias [o] is [o]. *)
Definition varied_init : LinearInit :=
  mk_LinearInit (fun o i => IZR (Z.of_nat (1 + o + 2 * i)))
                (fun o => IZR (Z.of_nat o)).

Definition mha_init_varied : MultiHeadAttention.InitValues :=
  MultiHeadAttention.mk_init varied_init varied_init varied_init varied_init.

Definition gqa_init_varied : GroupedQueryAttention.InitValues :=
  GroupedQueryAttention.mk_init varied_init varied_init varied_init varied_init.

Definition causal_init_varied : CausalSelfAttention.InitValues :=
  CausalSelfAttention.mk_init varied_init varied_init varied_init.

(** Key heads of shape (1, 2, 2, 2): two key/value heads, two positions,
    two features, all values distinct. *)
Definition kv_two_heads : tensor R :=
  mk_tensor [1; 2; 2; 2]%nat [1; 2; 3; 4; 5; 6; 7; 8].

(** What contiguous duplication makes of [kv_two_heads] for groups of two:
    heads 0 and 1 are key head 0, heads 2 and 3 are key head 1. *)
Definition kv_two_heads_expanded : tensor R :=
  mk_tensor [1; 4; 2; 2]%nat
    [1; 2; 3; 4; 1; 2; 3; 4; 5; 6; 7; 8; 5; 6; 7; 8].

(** Two batch elements of two positions of width four, all values distinct. *)
Definition x_two_by_two : tensor R :=
  mk_tensor [2; 2; 4]%nat [1; 2; 3; 4; 5; 6; 7; 8; 9; 10; 11; 12; 13; 14; 15; 16].

Definition x_triple : tensor R := mk_tensor [1; 3; 2]%nat [1; 2; 3; 4; 5; 6].

(** One batch element of two positions of width four. *)
Definition x_wide_pair : tensor R := mk_tensor [1; 2; 4]%nat [1; 2; 3; 4; 5; 6; 7; 8].

(** The lower-triangular mask for two positions, as floats. *)
Definition mask_lower_two : tensor R := mk_tensor [1; 1; 2; 2]%nat [1; 0; 1; 1].

(** The same zero pattern with other non-zero values, of rank two and
    broadcast over batch and heads. *)
Definition mask_lower_two_other : tensor R := mk_tensor [2; 2]%nat [5; 0; 2; 7].

(** A mask for two query rows over three key positions: the first row
    allows no key position, the second allows the first two. *)
Definition mask_first_row_closed : tensor R :=
  mk_tensor [1; 1; 2; 3]%nat [0; 0; 0; 1; 1; 0].


(** One batch element of three positions of width four, and one of two
    positions of width eight. *)
Definition x_wide_triple : tensor R :=
  mk_tensor [1; 3; 4]%nat [1; 2; 3; 4; 5; 6; 7; 8; 9; 10; 11; 12].
Definition x_eight : tensor R :=
  mk_tensor [1; 2; 8]%nat [1; 2; 3; 4; 5; 6; 7; 8; 9; 10; 11; 12; 13; 14; 15; 16].

(** What [split_heads] makes of [x_two_by_two] for two heads: within each
    batch element the rows of head 0 (features 0 and 1 of both positions)
    come before those of head 1. *)
Definition x_two_by_two_heads : tensor R :=
  mk_tensor [2; 2; 2; 2]%nat [1; 2; 5; 6; 3; 4; 7; 8; 9; 10; 13; 14; 11; 12; 15; 16].
(* ================================================================= *)
(** ** Row-major indexing                                             *)
(* ================================================================= *)

Section Indexing.

Lemma in_bounds_length (s idx : list nat) :
  in_bounds s idx -> length idx = length s.
Proof. unfold in_bounds. apply Forall2_length. Qed.

Lemma ravel_lt (s idx : list nat) :
  in_bounds s idx -> (ravel s idx < numel s)%nat.
Proof.
  unfold in_bounds. intros Hb. induction Hb as [|i d idx s Hid Hb IH]; simpl.
  - lia.
  - nia.
Qed.

Lemma unravel_ravel (s idx : list nat) :
  in_bounds s idx -> unravel s (ravel s idx) = idx.
Proof.
  unfold in_bounds. intros Hb. induction Hb as [|i d idx s Hid Hb IH]; simpl.
  - reflexivity.
  - pose proof (ravel_lt Hb) as Hlt.
    assert (Hn : numel s <> 0%nat) by lia.
    rewrite Nat.div_add_l by exact Hn.
    rewrite (Nat.div_small _ _ Hlt), Nat.add_0_r.
    rewrite Nat.add_comm, Nat.Div0.mod_add, (Nat.mod_small _ _ Hlt).
    now rewrite IH.
Qed.

Lemma unravel_in_bounds (s : list nat) :
  forall n, (n < numel s)%nat -> in_bounds s (unravel s n).
Proof.
  unfold in_bounds. induction s as [|d s IH]; simpl; intros n Hn.
  - constructor.
  - assert (Hs : numel s <> 0%nat) by (intros E; rewrite E in Hn; lia).
    constructor.
    + apply Nat.Div0.div_lt_upper_bound. lia.
    + apply IH. now apply Nat.mod_upper_bound.
Qed.

Lemma ravel_unravel (s : list nat) :
  forall n, (n < numel s)%nat -> ravel s (unravel s n) = n.
Proof.
  induction s as [|d s IH]; simpl; intros n Hn.
  - lia.
  - assert (Hs : numel s <> 0%nat) by (intros E; rewrite E in Hn; lia).
    rewrite IH by now apply Nat.mod_upper_bound.
    pose proof (Nat.div_mod_eq n (numel s)). lia.
Qed.

Lemma shape_tabulate (A : Type) (s : list nat) (f : list nat -> A) :
  shape (tabulate s f) = s.
Proof. reflexivity. Qed.

Lemma wf_tabulate (A : Type) (s : list nat) (f : list nat -> A) :
  wf (tabulate s f).
Proof. unfold wf, tabulate; simpl. now rewrite length_map, length_seq. Qed.

Lemma get_tabulate (A : Type) `{Dflt A} (s idx : list nat) (f : list nat -> A) :
  in_bounds s idx -> get (tabulate s f) idx = f idx.
Proof.
  intros Hb. unfold get, tabulate; simpl.
  pose proof (ravel_lt Hb) as Hlt.
  rewrite (nth_indep _ dflt (f (unravel s 0))) by now rewrite length_map, length_seq.
  rewrite (map_nth (fun n => f (unravel s n)) (seq 0 (numel s)) 0%nat).
  rewrite seq_nth by exact Hlt. simpl.
  now rewrite unravel_ravel.
Qed.

End Indexing.

(* ================================================================= *)
(** ** The tensor operations on small integer tensors                 *)
(* ================================================================= *)

Section OperationExamples.

(** [x.view(1, -1, 2, 2).permute(0, 2, 1, 3)] on two positions of width 4. *)
Example view_permute_example :
  (x <- view (mk_tensor [1; 2; 4]%nat [0; 1; 2; 3; 4; 5; 6; 7]%nat) [1; -1; 2; 2]%Z ;;
   permute [0; 2; 1; 3]%nat x)
  = Py.ret (mk_tensor [1; 2; 2; 2]%nat [0; 1; 4; 5; 2; 3; 6; 7]%nat).
Proof. reflexivity. Qed.

(** Two heads of width 2, each repeated twice along the head axis. *)
Example repeat_interleave_example :
  repeat_interleave (mk_tensor [1; 2; 1; 2]%nat [10; 11; 20; 21]%nat) 2 1
  = Py.ret (mk_tensor [1; 4; 1; 2]%nat [10; 11; 10; 11; 20; 21; 20; 21]%nat).
Proof. reflexivity. Qed.

Example transpose_last_example :
  transpose (-2) (-1) (mk_tensor [1; 1; 2; 3]%nat [1; 2; 3; 4; 5; 6]%nat)
  = Py.ret (mk_tensor [1; 1; 3; 2]%nat [1; 4; 2; 5; 3; 6]%nat).
Proof. reflexivity. Qed.

(** [view] cannot infer [-1] on an empty batch, and can on an empty
    sequence. *)
Example view_empty_batch_example :
  exists msg,
    view (mk_tensor [0; 5; 4]%nat (@nil nat)) [0; -1; 2; 2]%Z
    = Py.raise (Py.RuntimeError msg).
Proof. eexists. reflexivity. Qed.

Example view_empty_sequence_example :
  view (mk_tensor [2; 0; 4]%nat (@nil nat)) [2; -1; 2; 2]%Z
  = Py.ret (mk_tensor [2; 0; 2; 2]%nat (@nil nat)).
Proof. reflexivity. Qed.

Example broadcast_example :
  broadcast_shapes [2; 8; 10; 10]%nat [1; 1; 10; 10]%nat = Py.ret [2; 8; 10; 10]%nat
  /\ broadcast_shapes [2; 8; 10; 10]%nat [10; 10]%nat = Py.ret [2; 8; 10; 10]%nat
  /\ bget (mk_tensor [2; 1]%nat [7; 9]%nat) [5; 1; 3]%nat = 9%nat.
Proof. repeat split. Qed.

End OperationExamples.

(* ================================================================= *)
(** ** Construction                                                   *)
(* ================================================================= *)

Section Construction.

Lemma Linear_init_ok (i o : Z) (w : LinearInit) :
  (0 <= i)%Z -> (0 <= o)%Z ->
  exists l, Linear_init i o w = Py.ret l
            /\ in_features l = Z.to_nat i /\ out_features l = Z.to_nat o.
Proof.
  intros Hi Ho. unfold Linear_init.
  destruct (Z.ltb_spec i 0); [lia|]. destruct (Z.ltb_spec o 0); [lia|].
  simpl. eexists; split; [reflexivity|]. split; reflexivity.
Qed.

Lemma Dropout_init_ok (p : R) :
  0 <= p <= 1 -> Dropout_init p = Py.ret p.
Proof.
  intros [H0 H1]. unfold Dropout_init.
  destruct (Rlt_dec p 0); [lra|]. destruct (Rlt_dec 1 p); [lra|]. reflexivity.
Qed.

(** C4. Constructing [MultiHeadAttention] raises the divisibility
    assertion exactly when [d_model % num_heads] is not zero (for a non-zero
    head count, on which [%] is defined); [d_model = 64], [num_heads = 7] is
    such a case; with divisible parameters, a non-negative width and a
    dropout probability in [0, 1] the construction returns a module. *)
Theorem MultiHeadAttention_init_divisibility
  (d_model num_heads : Z) (dropout : R) (w : MultiHeadAttention.InitValues) :
  num_heads <> 0%Z ->
  (config_error (MultiHeadAttention.__init__ d_model num_heads dropout w)
     <-> (d_model mod num_heads)%Z <> 0%Z)
  /\ MultiHeadAttention.__init__ 64 7 dropout w
     = Py.raise (Py.AssertionError "d_model must be divisible by num_heads")
  /\ ((d_model mod num_heads)%Z = 0%Z -> (0 <= d_model)%Z -> 0 <= dropout <= 1 ->
      succeeds (MultiHeadAttention.__init__ d_model num_heads dropout w)).
Proof.
  intros Hh. unfold MultiHeadAttention.__init__, Py.mod_, Py.floordiv.
  destruct (Z.eqb_spec num_heads 0) as [E|_]; [contradiction|].
  cbn [Py.bind Py.ret Py.raise].
  split; [|split].
  - destruct (Z.eqb_spec (d_model mod num_heads) 0) as [E|E]; cbn.
    + split; [|intros C; contradiction].
      intros [msg C]. exfalso. revert C.
      unfold Linear_init, Dropout_init, Py.raise, Py.ret, Py.bind.
      repeat match goal with
             | |- context [if ?c then _ else _] => destruct c
             end; congruence.
    + split; [intros _; exact E|]. intros _. eexists. reflexivity.
  - reflexivity.
  - intros E Hd Hp. rewrite E. cbn.
    destruct (Linear_init_ok (MultiHeadAttention.query_init w) Hd Hd) as (l1 & -> & _).
    destruct (Linear_init_ok (MultiHeadAttention.key_init w) Hd Hd) as (l2 & -> & _).
    destruct (Linear_init_ok (MultiHeadAttention.value_init w) Hd Hd) as (l3 & -> & _).
    destruct (Linear_init_ok (MultiHeadAttention.output_init w) Hd Hd) as (l4 & -> & _).
    cbn. rewrite (Dropout_init_ok Hp). cbn. eexists. reflexivity.
Qed.

Lemma MultiHeadAttention_init_divisibility_witness :
  (8 <> 0)%Z
  /\ ((config_error (MultiHeadAttention.__init__ 64 8 (1 / 10) mha_init0)
        <-> (64 mod 8)%Z <> 0%Z)
      /\ MultiHeadAttention.__init__ 64 7 (1 / 10) mha_init0
         = Py.raise (Py.AssertionError "d_model must be divisible by num_heads")
      /\ ((64 mod 8)%Z = 0%Z -> (0 <= 64)%Z -> 0 <= 1 / 10 <= 1 ->
          succeeds (MultiHeadAttention.__init__ 64 8 (1 / 10) mha_init0))).
Proof.
  split; [lia|].
  apply (@MultiHeadAttention_init_divisibility 64 8 (1 / 10) mha_init0). lia.
Defined.

(** C5. Constructing [GroupedQueryAttention] raises a divisibility assertion
    exactly when one of [d_model % num_query_heads], [d_model % num_kv_heads],
    [num_query_heads % num_kv_heads] is not zero (for non-zero head counts);
    with 8 query heads and 3 key/value heads it raises whatever the width. *)
Theorem GroupedQueryAttention_init_divisibility
  (d_model num_query_heads num_kv_heads : Z) (dropout : R)
  (w : GroupedQueryAttention.InitValues) :
  num_query_heads <> 0%Z -> num_kv_heads <> 0%Z ->
  (config_error
     (GroupedQueryAttention.__init__ d_model num_query_heads num_kv_heads dropout w)
   <-> ((d_model mod num_query_heads)%Z <> 0%Z
        \/ (d_model mod num_kv_heads)%Z <> 0%Z
        \/ (num_query_heads mod num_kv_heads)%Z <> 0%Z))
  /\ config_error (GroupedQueryAttention.__init__ d_model 8 3 dropout w).
Proof.
  intros Hq Hk. unfold GroupedQueryAttention.__init__, Py.mod_, Py.floordiv.
  destruct (Z.eqb_spec num_query_heads 0) as [E|_]; [contradiction|].
  destruct (Z.eqb_spec num_kv_heads 0) as [E|_]; [contradiction|].
  split.
  - cbn [Py.bind Py.ret Py.raise].
    destruct (Z.eqb_spec (d_model mod num_query_heads) 0) as [E1|E1]; cbn;
      [|split; [tauto|intros _; eexists; reflexivity]].
    destruct (Z.eqb_spec (d_model mod num_kv_heads) 0) as [E2|E2]; cbn;
      [|split; [tauto|intros _; eexists; reflexivity]].
    destruct (Z.eqb_spec (num_query_heads mod num_kv_heads) 0) as [E3|E3]; cbn;
      [|split; [tauto|intros _; eexists; reflexivity]].
    split; [|tauto].
    intros [msg C]. exfalso. revert C.
    unfold Linear_init, Dropout_init, Py.raise, Py.ret, Py.bind.
    repeat match goal with
           | |- context [if ?c then _ else _] => destruct c
           end; congruence.
  - cbn.
    destruct (Z.eqb_spec (d_model mod 8) 0) as [E1|E1]; cbn;
      [|eexists; reflexivity].
    destruct (Z.eqb_spec (d_model mod 3) 0) as [E2|E2]; cbn;
      [|eexists; reflexivity].
    eexists; reflexivity.
Qed.

Lemma GroupedQueryAttention_init_divisibility_witness :
  (8 <> 0)%Z /\ (2 <> 0)%Z
  /\ ((config_error (GroupedQueryAttention.__init__ 512 8 2 (1 / 10) gqa_init0)
        <-> ((512 mod 8)%Z <> 0%Z \/ (512 mod 2)%Z <> 0%Z \/ (8 mod 2)%Z <> 0%Z))
      /\ config_error (GroupedQueryAttention.__init__ 512 8 3 (1 / 10) gqa_init0)).
Proof.
  split; [lia|]. split; [lia|].
  apply (@GroupedQueryAttention_init_divisibility 512 8 2 (1 / 10) gqa_init0); lia.
Defined.

End Construction.

(* ================================================================= *)
(** ** Blocks of a flat storage                                       *)
(* ================================================================= *)

Section Blocks.

Context {A : Type}.

Lemma length_chunks (k n : nat) (l : list A) : length (chunks k n l) = n.
Proof. revert l; induction n as [|n IH]; intros l; simpl; [reflexivity|]. now rewrite IH. Qed.

Lemma nth_chunks (k n : nat) :
  forall (l : list A) q, (q < n)%nat ->
    nth q (chunks k n l) [] = firstn k (skipn (q * k) l).
Proof.
  induction n as [|n IH]; intros l q Hq; [lia|].
  destruct q as [|q]; simpl.
  - reflexivity.
  - rewrite IH by lia. now rewrite skipn_skipn, (Nat.add_comm (q * k)).
Qed.

Lemma In_chunks_length (k n : nat) :
  forall (l : list A), (n * k <= length l)%nat ->
    forall blk, In blk (chunks k n l) -> length blk = k.
Proof.
  induction n as [|n IH]; intros l Hl blk Hin; simpl in *; [contradiction|].
  destruct Hin as [<-|Hin].
  - rewrite length_firstn. lia.
  - apply (IH (skipn k l)); [rewrite length_skipn; lia|exact Hin].
Qed.

Lemma nth_concat_uniform (k : nat) (d : A) :
  forall (ls : list (list A)) q o,
    (forall x, In x ls -> length x = k) ->
    (q < length ls)%nat -> (o < k)%nat ->
    nth (q * k + o) (concat ls) d = nth o (nth q ls []) d.
Proof.
  induction ls as [|x ls IH]; intros q o Hk Hq Ho; simpl in *; [lia|].
  assert (Hx : length x = k) by (apply Hk; now left).
  destruct q as [|q]; simpl.
  - apply app_nth1. lia.
  - rewrite app_nth2 by lia.
    replace (k + q * k + o - length x)%nat with (q * k + o)%nat by lia.
    apply IH; [intros y Hy; apply Hk; now right|lia|exact Ho].
Qed.

Lemma nth_flat_map_repeat (B : Type) (r : nat) (d : B) :
  forall (ls : list B) q, (q < length ls * r)%nat ->
    nth q (flat_map (fun x => repeat x r) ls) d = nth (q / r) ls d.
Proof.
  induction ls as [|x ls IH]; intros q Hq; simpl in *; [lia|].
  assert (Hr : r <> 0%nat) by (intros ->; lia).
  destruct (Nat.lt_ge_cases q r) as [Hlt|Hge].
  - rewrite app_nth1 by now rewrite repeat_length.
    rewrite Nat.div_small by exact Hlt.
    apply nth_repeat_lt. exact Hlt.
  - rewrite app_nth2 by now rewrite repeat_length.
    rewrite repeat_length, IH by lia.
    replace q with ((q - r) + 1 * r)%nat at 2 by lia.
    rewrite Nat.div_add by exact Hr.
    now rewrite Nat.add_1_r.
Qed.

Lemma In_flat_map_repeat (B : Type) (r : nat) (ls : list B) (y : B) :
  In y (flat_map (fun x => repeat x r) ls) -> In y ls.
Proof.
  rewrite in_flat_map. intros (x & Hx & Hy).
  apply repeat_spec in Hy. now subst.
Qed.

Lemma length_flat_map_repeat (B : Type) (r : nat) (ls : list B) :
  length (flat_map (fun x => repeat x r) ls) = (length ls * r)%nat.
Proof.
  induction ls as [|x ls IH]; simpl; [reflexivity|].
  now rewrite length_app, repeat_length, IH.
Qed.

(** Element [o] of block [q] of the interleaved storage is element [o] of
    block [q / r] of the original one. *)
Lemma nth_repeat_interleave (inner outer r : nat) (d : A) (l : list A) (q o : nat) :
  length l = (outer * inner)%nat -> (q < outer * r)%nat -> (o < inner)%nat ->
  nth (q * inner + o)
      (concat (flat_map (fun blk => repeat blk r) (chunks inner outer l))) d
  = nth (q / r * inner + o) l d.
Proof.
  intros Hl Hq Ho.
  assert (Hr : r <> 0%nat) by (intros ->; lia).
  assert (Hqr : (q / r < outer)%nat) by (apply Nat.Div0.div_lt_upper_bound; lia).
  rewrite nth_concat_uniform.
  - rewrite nth_flat_map_repeat by now rewrite length_chunks.
    rewrite nth_chunks by exact Hqr.
    rewrite nth_firstn.
    destruct (Nat.ltb_spec o inner); [|lia].
    now rewrite nth_skipn.
  - intros x Hx. apply In_flat_map_repeat in Hx.
    apply (In_chunks_length inner outer l); [lia|exact Hx].
  - now rewrite length_flat_map_repeat, length_chunks.
  - exact Ho.
Qed.

End Blocks.

(* ================================================================= *)
(** ** Key/value head expansion of grouped-query attention            *)
(* ================================================================= *)

Section Expansion.

Local Ltac stuck := let E := fresh in intros E; cbn in E; discriminate E.

Lemma repeat_interleave_dim1 (A : Type) `{Dflt A} (kv : tensor A)
  (B Hkv T dq G : nat) :
  wf kv -> shape kv = [B; Hkv; T; dq] -> (0 < G)%nat ->
  exists e, repeat_interleave kv (Z.of_nat G) 1 = Py.ret e
    /\ shape e = [B; (Hkv * G)%nat; T; dq]
    /\ forall b i t c, (b < B)%nat -> (i < Hkv * G)%nat -> (t < T)%nat -> (c < dq)%nat ->
         get e [b; i; t; c] = get kv [b; (i / G)%nat; t; c].
Proof.
  intros Hwf Hs HG. unfold repeat_interleave.
  destruct (Z.ltb_spec (Z.of_nat G) 0); [lia|].
  rewrite Hs, Nat2Z.id. cbn [nth_error firstn skipn app].
  eexists. split; [reflexivity|]. split; [reflexivity|].
  intros b i t c Hb Hi Ht Hc.
  unfold get. cbn [shape data]. rewrite Hs. cbn [ravel numel fold_right].
  set (K := (T * (dq * 1))%nat).
  set (o := (t * (dq * 1) + (c * 1 + 0))%nat).
  assert (Ho : (o < K)%nat) by (unfold o, K; nia).
  replace (b * (Hkv * G * K) + (i * K + o))%nat
    with ((b * (Hkv * G) + i) * K + o)%nat by ring.
  rewrite nth_repeat_interleave.
  - f_equal.
    replace (b * (Hkv * G) + i)%nat with (b * Hkv * G + i)%nat by ring.
    rewrite Nat.div_add_l by lia. ring.
  - unfold wf in Hwf. rewrite Hwf, Hs. cbn [numel fold_right]. fold K. ring.
  - nia.
  - exact Ho.
Qed.

Lemma GroupedQueryAttention_init_fields
  (d nq nkv : Z) (p : R) (w : GroupedQueryAttention.InitValues)
  (self : GroupedQueryAttention.t) :
  GroupedQueryAttention.__init__ d nq nkv p w = Py.ret self ->
  nq <> 0%Z /\ nkv <> 0%Z
  /\ (d mod nq = 0)%Z /\ (d mod nkv = 0)%Z /\ (nq mod nkv = 0)%Z
  /\ (0 <= d)%Z /\ (0 <= d / nq * nkv)%Z /\ 0 <= p <= 1
  /\ GroupedQueryAttention.d_model self = d
  /\ GroupedQueryAttention.num_query_heads self = nq
  /\ GroupedQueryAttention.num_kv_heads self = nkv
  /\ GroupedQueryAttention.kv_groups self = (nq / nkv)%Z
  /\ GroupedQueryAttention.d_qk self = (d / nq)%Z
  /\ in_features (GroupedQueryAttention.query_proj self) = Z.to_nat d
  /\ out_features (GroupedQueryAttention.query_proj self) = Z.to_nat d
  /\ in_features (GroupedQueryAttention.key_proj self) = Z.to_nat d
  /\ out_features (GroupedQueryAttention.key_proj self) = Z.to_nat (d / nq * nkv)
  /\ in_features (GroupedQueryAttention.value_proj self) = Z.to_nat d
  /\ out_features (GroupedQueryAttention.value_proj self) = Z.to_nat (d / nq * nkv)
  /\ in_features (GroupedQueryAttention.output_proj self) = Z.to_nat d
  /\ out_features (GroupedQueryAttention.output_proj self) = Z.to_nat d
  /\ GroupedQueryAttention.dropout_p self = p
  /\ GroupedQueryAttention.training self = true.
Proof.
  unfold GroupedQueryAttention.__init__, Py.mod_, Py.floordiv, Py.assert_,
    Linear_init, Dropout_init, Py.bind, Py.ret, Py.raise.
  destruct (Z.eqb_spec nq 0) as [|Hq]; [stuck|].
  destruct (Z.eqb_spec (d mod nq) 0) as [E1|]; [|stuck].
  destruct (Z.eqb_spec nkv 0) as [|Hk]; [stuck|].
  destruct (Z.eqb_spec (d mod nkv) 0) as [E2|]; [|stuck].
  destruct (Z.eqb_spec (nq mod nkv) 0) as [E3|]; [|stuck].
  destruct (Z.ltb_spec d 0) as [|Hd]; [stuck|].
  cbn [orb].
  destruct (Z.ltb_spec (d / nq * nkv) 0) as [|Hkv]; [stuck|].
  destruct (Rlt_dec p 0) as [|Hp0]; [stuck|].
  destruct (Rlt_dec 1 p) as [|Hp1]; [stuck|].
  intros E. cbn in E. injection E as <-. cbn.
  repeat split; try assumption; try reflexivity; lra.
Qed.

(** C2. In [GroupedQueryAttention.forward] the key (or value) tensor of
    shape (B, num_kv_heads, T, d) is expanded to num_query_heads heads, and
    head [i] of the expansion is, element by element, head [i / G] of the
    original, [G = num_query_heads / num_kv_heads], for every
    [i < num_query_heads]. *)
Theorem GroupedQueryAttention_expand_kv_head
  (d nq nkv : Z) (p : R) (w : GroupedQueryAttention.InitValues)
  (self : GroupedQueryAttention.t) (kv : tensor R) (B T dq : nat) :
  GroupedQueryAttention.__init__ d nq nkv p w = Py.ret self ->
  (0 < nq)%Z -> (0 < nkv)%Z ->
  wf kv -> shape kv = [B; Z.to_nat nkv; T; dq] ->
  exists e, GroupedQueryAttention.expand_kv self kv = Py.ret e
    /\ shape e = [B; Z.to_nat nq; T; dq]
    /\ forall b i t c,
         (b < B)%nat -> (i < Z.to_nat nq)%nat -> (t < T)%nat -> (c < dq)%nat ->
         get e [b; i; t; c] = get kv [b; (i / Z.to_nat (nq / nkv))%nat; t; c].
Proof.
  intros Hinit Hq Hk Hwf Hs.
  destruct (GroupedQueryAttention_init_fields _ _ _ _ _ Hinit)
    as (_ & _ & _ & _ & E3 & _ & _ & _ & _ & _ & _ & HG & _).
  assert (Hnq : nq = (nkv * (nq / nkv))%Z)
    by (pose proof (Z.div_mod nq nkv); lia).
  assert (HGpos : (0 < nq / nkv)%Z) by nia.
  assert (Hmul : (Z.to_nat nkv * Z.to_nat (nq / nkv))%nat = Z.to_nat nq)
    by (rewrite <- Z2Nat.inj_mul by lia; now rewrite <- Hnq).
  unfold GroupedQueryAttention.expand_kv. rewrite HG.
  destruct (@repeat_interleave_dim1 R _ kv B (Z.to_nat nkv) T dq (Z.to_nat (nq / nkv)))
    as (e & He & Hse & Hget); [exact Hwf|exact Hs|lia|].
  rewrite Z2Nat.id in He by lia.
  exists e. split; [exact He|]. split.
  - now rewrite Hse, Hmul.
  - intros b i t c Hb Hi Ht Hc. apply Hget; try assumption. now rewrite Hmul.
Qed.

End Expansion.

Section ConstructedModules.

Local Ltac stuck := let E := fresh in intros E; cbn in E; discriminate E.

Lemma GroupedQueryAttention_init_succeeds
  (d nq nkv : Z) (p : R) (w : GroupedQueryAttention.InitValues) :
  (0 < nq)%Z -> (0 < nkv)%Z -> (0 <= d)%Z ->
  (d mod nq = 0)%Z -> (d mod nkv = 0)%Z -> (nq mod nkv = 0)%Z -> 0 <= p <= 1 ->
  succeeds (GroupedQueryAttention.__init__ d nq nkv p w).
Proof.
  intros Hq Hk Hd E1 E2 E3 Hp.
  assert (0 <= d / nq)%Z by (apply Z.div_pos; lia).
  unfold GroupedQueryAttention.__init__, Py.mod_, Py.floordiv, Py.assert_,
    Linear_init, Dropout_init, Py.bind, Py.ret, Py.raise.
  destruct (Z.eqb_spec nq 0); [lia|].
  destruct (Z.eqb_spec nkv 0); [lia|].
  rewrite E1, E2, E3. cbn.
  destruct (Z.ltb_spec d 0); [lia|]. cbn.
  destruct (Z.ltb_spec (d / nq * nkv) 0); [nia|].
  destruct (Rlt_dec p 0); [lra|]. destruct (Rlt_dec 1 p); [lra|].
  eexists. reflexivity.
Qed.

Lemma GroupedQueryAttention_expand_kv_head_witness :
  exists self,
    GroupedQueryAttention.__init__ 8 4 2 0 gqa_init_varied = Py.ret self
    /\ (exists e, GroupedQueryAttention.expand_kv self kv_two_heads = Py.ret e
          /\ shape e = [1; Z.to_nat 4; 2; 2]%nat
          /\ forall b i t c,
               (b < 1)%nat -> (i < Z.to_nat 4)%nat -> (t < 2)%nat -> (c < 2)%nat ->
               get e [b; i; t; c]
               = get kv_two_heads [b; (i / Z.to_nat (4 / 2))%nat; t; c])
    /\ GroupedQueryAttention.expand_kv self kv_two_heads = Py.ret kv_two_heads_expanded.
Proof.
  destruct (@GroupedQueryAttention_init_succeeds 8 4 2 0 gqa_init_varied)
    as [self Hself]; try lia; try reflexivity; try lra.
  exists self. split; [exact Hself|]. split.
  - apply (@GroupedQueryAttention_expand_kv_head 8 4 2 0 gqa_init_varied self
             kv_two_heads 1 2 2);
      [exact Hself|lia|lia|reflexivity|reflexivity].
  - destruct (GroupedQueryAttention_init_fields _ _ _ _ _ Hself)
      as (_ & _ & _ & _ & _ & _ & _ & _ & _ & _ & _ & HG & _).
    unfold GroupedQueryAttention.expand_kv. rewrite HG. reflexivity.
Defined.

Lemma MultiHeadAttention_init_fields
  (d h : Z) (p : R) (w : MultiHeadAttention.InitValues) (self : MultiHeadAttention.t) :
  MultiHeadAttention.__init__ d h p w = Py.ret self ->
  h <> 0%Z /\ (d mod h = 0)%Z /\ (0 <= d)%Z /\ 0 <= p <= 1
  /\ MultiHeadAttention.d_model self = d
  /\ MultiHeadAttention.num_heads self = h
  /\ MultiHeadAttention.d_k self = (d / h)%Z
  /\ in_features (MultiHeadAttention.query_proj self) = Z.to_nat d
  /\ out_features (MultiHeadAttention.query_proj self) = Z.to_nat d
  /\ in_features (MultiHeadAttention.key_proj self) = Z.to_nat d
  /\ out_features (MultiHeadAttention.key_proj self) = Z.to_nat d
  /\ in_features (MultiHeadAttention.value_proj self) = Z.to_nat d
  /\ out_features (MultiHeadAttention.value_proj self) = Z.to_nat d
  /\ in_features (MultiHeadAttention.output_proj self) = Z.to_nat d
  /\ out_features (MultiHeadAttention.output_proj self) = Z.to_nat d
  /\ MultiHeadAttention.dropout_p self = p
  /\ MultiHeadAttention.training self = true.
Proof.
  unfold MultiHeadAttention.__init__, Py.mod_, Py.floordiv, Py.assert_,
    Linear_init, Dropout_init, Py.bind, Py.ret, Py.raise.
  destruct (Z.eqb_spec h 0) as [|Hh]; [stuck|].
  destruct (Z.eqb_spec (d mod h) 0) as [E1|]; [|stuck].
  destruct (Z.ltb_spec d 0) as [|Hd]; [stuck|].
  cbn [orb].
  destruct (Rlt_dec p 0) as [|Hp0]; [stuck|].
  destruct (Rlt_dec 1 p) as [|Hp1]; [stuck|].
  intros E. cbn in E. injection E as <-. cbn.
  repeat split; try assumption; try reflexivity; lra.
Qed.

Lemma MultiHeadAttention_init_succeeds
  (d h : Z) (p : R) (w : MultiHeadAttention.InitValues) :
  h <> 0%Z -> (0 <= d)%Z -> (d mod h = 0)%Z -> 0 <= p <= 1 ->
  succeeds (MultiHeadAttention.__init__ d h p w).
Proof.
  intros Hh Hd E Hp.
  unfold MultiHeadAttention.__init__, Py.mod_, Py.floordiv, Py.assert_,
    Linear_init, Dropout_init, Py.bind, Py.ret, Py.raise.
  destruct (Z.eqb_spec h 0); [lia|].
  rewrite E. cbn.
  destruct (Z.ltb_spec d 0); [lia|]. cbn.
  destruct (Rlt_dec p 0); [lra|]. destruct (Rlt_dec 1 p); [lra|].
  eexists. reflexivity.
Qed.

Lemma CausalSelfAttention_init_fields
  (d : Z) (p : R) (w : CausalSelfAttention.InitValues) (self : CausalSelfAttention.t) :
  CausalSelfAttention.__init__ d p w = Py.ret self ->
  (0 <= d)%Z /\ 0 <= p <= 1
  /\ CausalSelfAttention.embedding_dim self = d
  /\ CausalSelfAttention.scale self = sqrt (IZR d)
  /\ in_features (CausalSelfAttention.query self) = Z.to_nat d
  /\ out_features (CausalSelfAttention.query self) = Z.to_nat d
  /\ in_features (CausalSelfAttention.key self) = Z.to_nat d
  /\ out_features (CausalSelfAttention.key self) = Z.to_nat d
  /\ in_features (CausalSelfAttention.value self) = Z.to_nat d
  /\ out_features (CausalSelfAttention.value self) = Z.to_nat d
  /\ CausalSelfAttention.dropout_p self = p
  /\ CausalSelfAttention.training self = true.
Proof.
  unfold CausalSelfAttention.__init__, Py.math_sqrt,
    Linear_init, Dropout_init, Py.bind, Py.ret, Py.raise.
  destruct (Z.ltb_spec d 0) as [|Hd]; [stuck|].
  cbn [orb].
  destruct (Rlt_dec p 0) as [|Hp0]; [stuck|].
  destruct (Rlt_dec 1 p) as [|Hp1]; [stuck|].
  intros E. cbn in E. injection E as <-. cbn.
  repeat split; try assumption; try reflexivity; lra.
Qed.

Lemma CausalSelfAttention_init_succeeds
  (d : Z) (p : R) (w : CausalSelfAttention.InitValues) :
  (0 <= d)%Z -> 0 <= p <= 1 ->
  succeeds (CausalSelfAttention.__init__ d p w).
Proof.
  intros Hd Hp.
  unfold CausalSelfAttention.__init__, Py.math_sqrt,
    Linear_init, Dropout_init, Py.bind, Py.ret, Py.raise.
  destruct (Z.ltb_spec d 0); [lia|]. cbn.
  destruct (Rlt_dec p 0); [lra|]. destruct (Rlt_dec 1 p); [lra|].
  eexists. reflexivity.
Qed.

End ConstructedModules.

(* ================================================================= *)
(** ** Broadcasting                                                   *)
(* ================================================================= *)

Section Broadcasting.

Lemma Forall2_rev (A B : Type) (P : A -> B -> Prop) (l : list A) (m : list B) :
  Forall2 P l m -> Forall2 P (rev l) (rev m).
Proof.
  induction 1 as [|x y l m Hxy Hlm IH]; simpl; [constructor|].
  apply Forall2_app; [exact IH|]. constructor; [exact Hxy|constructor].
Qed.

Lemma combine_app_same (A B : Type) (l1 l2 : list A) :
  forall (m1 m2 : list B), length l1 = length m1 ->
    combine (l1 ++ l2) (m1 ++ m2) = combine l1 m1 ++ combine l2 m2.
Proof.
  induction l1 as [|x l1 IH]; intros [|y m1] m2 Hlen; simpl in *; try discriminate;
    [reflexivity|].
  injection Hlen as Hlen. now rewrite IH.
Qed.

Lemma combine_rev (A B : Type) (l : list A) :
  forall (m : list B), length l = length m ->
    combine (rev l) (rev m) = rev (combine l m).
Proof.
  induction l as [|x l IH]; intros [|y m] Hlen; simpl in *; try discriminate; [reflexivity|].
  injection Hlen as Hlen.
  rewrite <- IH by exact Hlen.
  rewrite combine_app_same by now rewrite !length_rev.
  reflexivity.
Qed.

(** The index at which a broadcast operand is read. *)
Lemma broadcast_rev_bounds :
  forall (rm rs ri : list nat),
    Forall2 lt ri rs -> broadcast_rev rs rm = Py.ret rs ->
    (length rm <= length rs)%nat
    /\ Forall2 lt (map (fun di => if fst di =? 1 then 0%nat else snd di)
                     (combine rm (firstn (length rm) ri))) rm.
Proof.
  induction rm as [|dm rm IH]; intros rs ri Hb Hr.
  - simpl. split; [lia|constructor].
  - destruct Hb as [|i d ri rs Hid Hb].
    + simpl in Hr. discriminate Hr.
    + simpl in Hr.
      destruct (broadcast_rev rs rm) as [e|rest] eqn:Hrest; [discriminate Hr|].
      cbn [Py.bind] in Hr.
      assert (Hhead : rest = rs /\ (dm = d \/ dm = 1%nat)).
      { destruct (Nat.eqb_spec d dm) as [->|Hne].
        - injection Hr as ->. auto.
        - destruct (Nat.eqb_spec d 1) as [->|_].
          + injection Hr as E _. congruence.
          + destruct (Nat.eqb_spec dm 1) as [->|_]; [|discriminate Hr].
            injection Hr as ->. auto. }
      destruct Hhead as [-> Hdm].
      destruct (IH rs ri Hb Hrest) as [Hlen Hall].
      split; [simpl; lia|].
      simpl. constructor; [|exact Hall].
      destruct (Nat.eqb_spec dm 1) as [->|Hne]; [lia|].
      destruct Hdm; [subst; exact Hid|contradiction].
Qed.

Lemma broadcast_index_in_bounds (s sm idx : list nat) :
  in_bounds s idx -> broadcast_shapes s sm = Py.ret s ->
  in_bounds sm (map (fun di => if fst di =? 1 then 0%nat else snd di)
                  (combine sm (skipn (length idx - length sm) idx))).
Proof.
  intros Hb Hbs. unfold broadcast_shapes in Hbs.
  destruct (broadcast_rev (rev s) (rev sm)) as [e|r] eqn:Hr; [discriminate Hbs|].
  cbn in Hbs. injection Hbs as Hbs.
  assert (r = rev s) by (rewrite <- Hbs; now rewrite rev_involutive). subst r.
  destruct (@broadcast_rev_bounds (rev sm) (rev s) (rev idx)
              (Forall2_rev Hb) Hr) as [Hlen Hall].
  rewrite !length_rev in *.
  pose proof (in_bounds_length Hb) as Hil.
  set (tail := skipn (length idx - length sm) idx) in *.
  assert (Htl : length tail = length sm)
    by (unfold tail; rewrite length_skipn; lia).
  rewrite firstn_rev in Hall. fold tail in Hall.
  rewrite combine_rev in Hall by now rewrite Htl.
  rewrite map_rev in Hall.
  apply Forall2_rev in Hall. rewrite !rev_involutive in Hall.
  exact Hall.
Qed.

(** Read through broadcasting at its own shape, a tensor is read as is. *)
Lemma bget_same_shape (A : Type) `{Dflt A} (t : tensor A) (idx : list nat) :
  in_bounds (shape t) idx -> bget t idx = get t idx.
Proof.
  intros Hb. unfold bget. rewrite (in_bounds_length Hb), Nat.sub_diag. simpl skipn.
  f_equal. unfold in_bounds in Hb.
  induction Hb as [|i d idx s Hid Hb IH]; simpl; [reflexivity|].
  rewrite IH. destruct (Nat.eqb_spec d 1); [f_equal; lia|reflexivity].
Qed.

Lemma nth_map_in_range (A B : Type) (f : A -> B) (l : list A) (n : nat) (da : A) (db : B) :
  (n < length l)%nat -> nth n (map f l) db = f (nth n l da).
Proof.
  intros Hn. rewrite (nth_indep _ db (f da)) by now rewrite length_map.
  apply map_nth.
Qed.

Lemma get_tmap (A B : Type) `{Dflt A} `{Dflt B} (f : A -> B) (t : tensor A)
  (idx : list nat) :
  wf t -> in_bounds (shape t) idx -> get (tmap f t) idx = f (get t idx).
Proof.
  intros Hwf Hb. unfold get, tmap; simpl.
  apply nth_map_in_range. rewrite Hwf. now apply ravel_lt.
Qed.

Lemma bget_tmap (A B : Type) `{Dflt A} `{Dflt B} (f : A -> B) (t : tensor A)
  (s idx : list nat) :
  wf t -> in_bounds s idx -> broadcast_shapes s (shape t) = Py.ret s ->
  bget (tmap f t) idx = f (bget t idx).
Proof.
  intros Hwf Hb Hbs. unfold bget. cbn [tmap shape].
  apply get_tmap; [exact Hwf|].
  exact (@broadcast_index_in_bounds s (shape t) idx Hb Hbs).
Qed.

Lemma broadcast_shapes_refl (s : list nat) : broadcast_shapes s s = Py.ret s.
Proof.
  unfold broadcast_shapes.
  assert (Hr : forall r, broadcast_rev r r = Py.ret r).
  { induction r as [|d r IH]; simpl; [reflexivity|].
    rewrite IH. cbn. now rewrite Nat.eqb_refl. }
  rewrite Hr. cbn. now rewrite rev_involutive.
Qed.

End Broadcasting.

(* ================================================================= *)
(** ** The tensor operations on well-shaped operands                  *)
(* ================================================================= *)

Section Operations.

Local Ltac zcases :=
  repeat match goal with
         | |- context [Z.ltb ?a ?b] => destruct (Z.ltb_spec a b); try lia
         | |- context [Z.eqb ?a ?b] => destruct (Z.eqb_spec a b); try lia
         | |- context [Z.eq_dec ?a ?b] => destruct (Z.eq_dec a b); try lia
         end.

Lemma linear_ok (l : Linear) (x : tensor R) (pre : list nat) :
  shape x = pre ++ [in_features l] ->
  exists y, linear l x = Py.ret y
            /\ shape y = pre ++ [out_features l] /\ wf y.
Proof.
  intros Hs. unfold linear. rewrite Hs, rev_app_distr. simpl.
  rewrite Nat.eqb_refl, rev_involutive.
  eexists. split; [reflexivity|]. split; [reflexivity|apply wf_tabulate].
Qed.

Lemma view_split_ok (A : Type) (x : tensor A) (B T H K : nat) :
  numel (shape x) = (B * (T * (H * K)))%nat -> (0 < B)%nat -> (0 < H * K)%nat ->
  view x [Z.of_nat B; (-1)%Z; Z.of_nat H; Z.of_nat K]
  = Py.ret (mk_tensor [B; T; H; K] (data x)).
Proof.
  intros Hn HB HHK. unfold view, infer_size. rewrite Hn.
  cbn [existsb filter count_occ map]. zcases.
  cbn [orb negb map numel fold_right Py.bind Py.ret].
  rewrite !Nat2Z.id.
  assert (Hnew : (B * (H * (K * 1)) = B * (H * K))%nat) by lia.
  rewrite Hnew.
  destruct (Nat.eqb_spec (B * (H * K)) 0) as [E|Hnz]; [nia|].
  replace (B * (T * (H * K)))%nat with (T * (B * (H * K)))%nat by lia.
  rewrite Nat.Div0.mod_mul, Nat.div_mul by exact Hnz.
  reflexivity.
Qed.

Lemma view_merge_ok (A : Type) (x : tensor A) (B T D : nat) :
  numel (shape x) = (B * (T * D))%nat -> (0 < B)%nat -> (0 < D)%nat ->
  view x [Z.of_nat B; (-1)%Z; Z.of_nat D]
  = Py.ret (mk_tensor [B; T; D] (data x)).
Proof.
  intros Hn HB HD. unfold view, infer_size. rewrite Hn.
  cbn [existsb filter count_occ map]. zcases.
  cbn [orb negb map numel fold_right Py.bind Py.ret].
  rewrite !Nat2Z.id.
  assert (Hnew : (B * (D * 1) = B * D)%nat) by lia.
  rewrite Hnew.
  destruct (Nat.eqb_spec (B * D) 0) as [E|Hnz]; [nia|].
  replace (B * (T * D))%nat with (T * (B * D))%nat by lia.
  rewrite Nat.Div0.mod_mul, Nat.div_mul by exact Hnz.
  reflexivity.
Qed.

Lemma view_exact4_ok (A : Type) (x : tensor A) (B T H K : nat) :
  numel (shape x) = (B * (T * (H * K)))%nat ->
  view x [Z.of_nat B; Z.of_nat T; Z.of_nat H; Z.of_nat K]
  = Py.ret (mk_tensor [B; T; H; K] (data x)).
Proof.
  intros Hn. unfold view, infer_size. rewrite Hn.
  cbn [existsb filter count_occ map]. zcases.
  cbn [orb negb map numel fold_right Py.bind Py.ret].
  rewrite !Nat2Z.id.
  replace (B * (T * (H * (K * 1))))%nat with (B * (T * (H * K)))%nat by lia.
  now rewrite Nat.eqb_refl.
Qed.

Lemma view_exact3_ok (A : Type) (x : tensor A) (B T D : nat) :
  numel (shape x) = (B * (T * D))%nat ->
  view x [Z.of_nat B; Z.of_nat T; Z.of_nat D]
  = Py.ret (mk_tensor [B; T; D] (data x)).
Proof.
  intros Hn. unfold view, infer_size. rewrite Hn.
  cbn [existsb filter count_occ map]. zcases.
  cbn [orb negb map numel fold_right Py.bind Py.ret].
  rewrite !Nat2Z.id.
  replace (B * (T * (D * 1)))%nat with (B * (T * D))%nat by lia.
  now rewrite Nat.eqb_refl.
Qed.

Lemma permute_0213_ok (A : Type) `{Dflt A} (t : tensor A) (a b c d : nat) :
  shape t = [a; b; c; d] ->
  exists y, permute [0; 2; 1; 3]%nat t = Py.ret y
    /\ shape y = [a; c; b; d] /\ wf y
    /\ forall i j k l, (i < a)%nat -> (j < c)%nat -> (k < b)%nat -> (l < d)%nat ->
         get y [i; j; k; l] = get t [i; k; j; l].
Proof.
  intros Hs. unfold permute. rewrite Hs. cbn [length Nat.eqb negb map nth].
  eexists. split; [reflexivity|]. split; [reflexivity|]. split; [apply wf_tabulate|].
  intros i j k l Hi Hj Hk Hl.
  rewrite get_tabulate by (unfold in_bounds; repeat constructor; assumption).
  reflexivity.
Qed.

Lemma transpose_12_rank4_ok (A : Type) `{Dflt A} (t : tensor A) (a b c d : nat) :
  shape t = [a; b; c; d] ->
  exists y, transpose 1 2 t = Py.ret y
    /\ shape y = [a; c; b; d] /\ wf y
    /\ forall i j k l, (i < a)%nat -> (j < c)%nat -> (k < b)%nat -> (l < d)%nat ->
         get y [i; j; k; l] = get t [i; k; j; l].
Proof.
  intros Hs. unfold transpose. rewrite Hs.
  change (permute (swap_axes 4 1 2) t) with (permute [0; 2; 1; 3]%nat t).
  now apply permute_0213_ok.
Qed.

Lemma transpose_last2_rank4_ok (A : Type) `{Dflt A} (t : tensor A) (a b c d : nat) :
  shape t = [a; b; c; d] ->
  exists y, transpose (-2) (-1) t = Py.ret y
    /\ shape y = [a; b; d; c] /\ wf y
    /\ forall i j k l, (i < a)%nat -> (j < b)%nat -> (k < d)%nat -> (l < c)%nat ->
         get y [i; j; k; l] = get t [i; j; l; k].
Proof.
  intros Hs. unfold transpose. rewrite Hs.
  change (permute (swap_axes 4 2 3) t) with (permute [0; 1; 3; 2]%nat t).
  unfold permute. rewrite Hs. cbn [length Nat.eqb negb map nth].
  eexists. split; [reflexivity|]. split; [reflexivity|]. split; [apply wf_tabulate|].
  intros i j k l Hi Hj Hk Hl.
  rewrite get_tabulate by (unfold in_bounds; repeat constructor; assumption).
  reflexivity.
Qed.

Lemma transpose_12_rank3_ok (A : Type) `{Dflt A} (t : tensor A) (a b c : nat) :
  shape t = [a; b; c] ->
  exists y, transpose 1 2 t = Py.ret y
    /\ shape y = [a; c; b] /\ wf y
    /\ forall i j k, (i < a)%nat -> (j < c)%nat -> (k < b)%nat ->
         get y [i; j; k] = get t [i; k; j].
Proof.
  intros Hs. unfold transpose. rewrite Hs.
  change (permute (swap_axes 3 1 2) t) with (permute [0; 2; 1]%nat t).
  unfold permute. rewrite Hs. cbn [length Nat.eqb negb map nth].
  eexists. split; [reflexivity|]. split; [reflexivity|]. split; [apply wf_tabulate|].
  intros i j k Hi Hj Hk.
  rewrite get_tabulate by (unfold in_bounds; repeat constructor; assumption).
  reflexivity.
Qed.

Lemma sum_n_ext (n : nat) (f g : nat -> R) :
  (forall c, (c < n)%nat -> f c = g c) -> sum_n n f = sum_n n g.
Proof.
  intros Hfg. unfold sum_n. f_equal. apply map_ext_in.
  intros c Hc. apply in_seq in Hc. apply Hfg. lia.
Qed.

Lemma matmul_rank4_ok (a b : tensor R) (B H n k m : nat) :
  shape a = [B; H; n; k] -> shape b = [B; H; k; m] ->
  exists y, matmul a b = Py.ret y
    /\ shape y = [B; H; n; m] /\ wf y
    /\ forall b0 h i j, (b0 < B)%nat -> (h < H)%nat -> (i < n)%nat -> (j < m)%nat ->
         get y [b0; h; i; j]
         = sum_n k (fun c => get a [b0; h; i; c] * get b [b0; h; c; j]).
Proof.
  intros Ha Hb. unfold matmul. rewrite Ha, Hb. cbn [rev app].
  rewrite Nat.eqb_refl. cbn [negb broadcast_rev].
  rewrite !Nat.eqb_refl. cbn [Py.bind Py.ret rev app length].
  eexists. split; [reflexivity|]. split; [reflexivity|]. split; [apply wf_tabulate|].
  intros b0 h i j Hb0 Hh Hi Hj.
  rewrite get_tabulate by (unfold in_bounds; repeat constructor; assumption).
  cbn [firstn nth app]. apply sum_n_ext. intros c Hc.
  rewrite !bget_same_shape; [reflexivity| |].
  - rewrite Hb. unfold in_bounds; repeat constructor; assumption.
  - rewrite Ha. unfold in_bounds; repeat constructor; assumption.
Qed.

Lemma bmm_ok (a b : tensor R) (B n k m : nat) :
  shape a = [B; n; k] -> shape b = [B; k; m] ->
  exists y, bmm a b = Py.ret y
    /\ shape y = [B; n; m] /\ wf y
    /\ forall b0 i j, (b0 < B)%nat -> (i < n)%nat -> (j < m)%nat ->
         get y [b0; i; j] = sum_n k (fun c => get a [b0; i; c] * get b [b0; c; j]).
Proof.
  intros Ha Hb. unfold bmm. rewrite Ha, Hb, !Nat.eqb_refl. cbn [andb].
  eexists. split; [reflexivity|]. split; [reflexivity|]. split; [apply wf_tabulate|].
  intros b0 i j Hb0 Hi Hj.
  rewrite get_tabulate by (unfold in_bounds; repeat constructor; assumption).
  reflexivity.
Qed.

Lemma masked_fill_ok (t : tensor R) (cond : tensor bool) (v : R) :
  broadcast_shapes (shape t) (shape cond) = Py.ret (shape t) ->
  exists y, masked_fill t cond v = Py.ret y
    /\ shape y = shape t /\ wf y
    /\ forall idx, in_bounds (shape t) idx ->
         get y idx = if bget cond idx then v else get t idx.
Proof.
  intros Hbs. unfold masked_fill. rewrite Hbs. cbn [Py.bind Py.ret].
  eexists. split; [reflexivity|]. split; [reflexivity|]. split; [apply wf_tabulate|].
  intros idx Hidx. rewrite get_tabulate by exact Hidx.
  now rewrite (@bget_same_shape R _ t idx Hidx).
Qed.

Lemma shape_softmax (t : tensor R) : shape (softmax t) = shape t.
Proof. reflexivity. Qed.

Lemma wf_softmax (t : tensor R) : wf (softmax t).
Proof. apply wf_tabulate. Qed.

Lemma get_softmax (t : tensor R) (idx : list nat) :
  in_bounds (shape t) idx ->
  get (softmax t) idx
  = exp (get t idx) / sum_n (last (shape t) 1%nat) (fun j => exp (get t (set_last idx j))).
Proof. intros Hb. unfold softmax. now rewrite get_tabulate. Qed.

Lemma shape_div_scalar (t : tensor R) (c : R) : shape (div_scalar t c) = shape t.
Proof. reflexivity. Qed.

Lemma wf_tmap (A B : Type) (f : A -> B) (t : tensor A) : wf t -> wf (tmap f t).
Proof. unfold wf, tmap; simpl. now rewrite length_map. Qed.

Lemma shape_dropout (p : R) (training : bool) (t : tensor R) (g : Generator) :
  shape (fst (dropout p training t g)) = shape t.
Proof.
  unfold dropout.
  destruct (Req_dec_T p 0); [reflexivity|].
  destruct training; [|reflexivity]. cbn [negb].
  destruct (numel (shape t) =? 0)%nat; [reflexivity|].
  destruct (Req_dec_T p 1); reflexivity.
Qed.

(** Dropout is the identity, and draws nothing, when its probability is 0
    or the module is not in training mode. *)
Lemma dropout_inactive (p : R) (training : bool) (t : tensor R) (g : Generator) :
  p = 0 \/ training = false -> dropout p training t g = (t, g).
Proof.
  intros [->| ->]; unfold dropout.
  - destruct (Req_dec_T 0 0); [reflexivity|contradiction].
  - destruct (Req_dec_T p 0); reflexivity.
Qed.

(** The entry of dropped-out weights at an index: the entry of the
    argument, kept and rescaled or zeroed according to the sample drawn for
    its position in storage order. *)
Lemma get_dropout_active (p : R) (t : tensor R) (g : Generator) (idx : list nat) :
  wf t -> in_bounds (shape t) idx -> p <> 0 -> p <> 1 ->
  get (fst (dropout p true t g)) idx
  = get t idx
    * ((if Rlt_dec (sample g (cursor g + ravel (shape t) idx)) (1 - p) then 1 else 0)
       / (1 - p)).
Proof.
  intros Hwf Hb Hp0 Hp1. pose proof (ravel_lt Hb) as Hlt.
  unfold dropout.
  destruct (Req_dec_T p 0); [contradiction|]. cbn [negb].
  destruct (Nat.eqb_spec (numel (shape t)) 0); [lia|].
  destruct (Req_dec_T p 1); [contradiction|].
  cbn [fst]. unfold get. cbn [shape data].
  rewrite (@nth_map_in_range _ _ _ _ _ (0, 0%nat))
    by (rewrite length_combine, length_seq, Nat.min_id, Hwf; exact Hlt).
  rewrite combine_nth by now rewrite length_seq.
  rewrite seq_nth by (rewrite Hwf; exact Hlt).
  cbn [fst snd Nat.add]. reflexivity.
Qed.



End Operations.

(* ================================================================= *)
(** ** Running [MultiHeadAttention.forward]                           *)
(* ================================================================= *)

Section MultiHeadAttentionRun.

Lemma fill_mask_ok (mask : option (tensor R)) (S : tensor R) (s : list nat) :
  shape S = s -> wf S -> mask_fits s mask ->
  exists F, fill_mask mask S = Py.ret F
    /\ shape F = s /\ wf F
    /\ forall idx, in_bounds s idx ->
         get F idx = if masked_at mask idx then neg_fill else get S idx.
Proof.
  intros Hs Hwf Hm. destruct mask as [m|]; cbn [fill_mask mask_fits masked_at] in *.
  - destruct Hm as [Hwm Hbs].
    destruct (@masked_fill_ok S (eq_scalar m 0) neg_fill) as (F & HF & HsF & HwF & Hget).
    { rewrite Hs. exact Hbs. }
    exists F. split; [exact HF|]. split; [congruence|]. split; [exact HwF|].
    intros idx Hidx. rewrite Hget by now rewrite Hs.
    unfold eq_scalar.
    rewrite (@bget_tmap R bool _ _ _ m s idx Hwm Hidx Hbs).
    reflexivity.
  - exists S. split; [reflexivity|]. split; [exact Hs|]. split; [exact Hwf|].
    intros idx _. reflexivity.
Qed.

Lemma MultiHeadAttention_dims_of_init
  (d h : Z) (p : R) (w : MultiHeadAttention.InitValues) (self : MultiHeadAttention.t) :
  MultiHeadAttention.__init__ d h p w = Py.ret self -> (0 < h)%Z ->
  MultiHeadAttention_dims self (Z.to_nat d) (Z.to_nat h) (Z.to_nat (d / h)).
Proof.
  intros Hinit Hh.
  destruct (MultiHeadAttention_init_fields _ _ _ _ Hinit)
    as (_ & Hmod & Hd & _ & E1 & E2 & E3 & F1 & F2 & F3 & F4 & F5 & F6 & F7 & F8 & _).
  assert (Hdiv : d = (h * (d / h))%Z) by (pose proof (Z.div_mod d h); lia).
  assert (0 <= d / h)%Z by (apply Z.div_pos; lia).
  unfold MultiHeadAttention_dims.
  rewrite E1, E2, E3, !Z2Nat.id by lia.
  repeat split; try assumption; try reflexivity.
  rewrite <- Z2Nat.inj_mul by lia. now rewrite <- Hdiv.
Qed.

Lemma MultiHeadAttention_dims_eval (self : MultiHeadAttention.t) (D H dk : nat) :
  MultiHeadAttention_dims self D H dk ->
  MultiHeadAttention_dims (MultiHeadAttention.eval self) D H dk.
Proof. intros Hd. exact Hd. Qed.

(** In evaluation mode dropout is off, whatever its probability. *)
Lemma eval_dropout_off :
  (forall self : MultiHeadAttention.t,
      dropout_off (MultiHeadAttention.dropout_p (MultiHeadAttention.eval self))
        (MultiHeadAttention.training (MultiHeadAttention.eval self)))
  /\ (forall self : GroupedQueryAttention.t,
        dropout_off (GroupedQueryAttention.dropout_p (GroupedQueryAttention.eval self))
          (GroupedQueryAttention.training (GroupedQueryAttention.eval self)))
  /\ (forall self : CausalSelfAttention.t,
        dropout_off (CausalSelfAttention.dropout_p (CausalSelfAttention.eval self))
          (CausalSelfAttention.training (CausalSelfAttention.eval self))).
Proof. repeat split; intros self; right; reflexivity. Qed.

Lemma split_heads_ok (self : MultiHeadAttention.t) (D H dk B T : nat) (x : tensor R) :
  MultiHeadAttention_dims self D H dk -> (0 < B)%nat -> (0 < D)%nat ->
  shape x = [B; T; D] ->
  exists y, MultiHeadAttention.split_heads self x B = Py.ret y
    /\ shape y = [B; H; T; dk] /\ wf y
    /\ forall b h t c, (b < B)%nat -> (h < H)%nat -> (t < T)%nat -> (c < dk)%nat ->
         get y [b; h; t; c] = get (mk_tensor [B; T; H; dk] (data x)) [b; t; h; c].
Proof.
  intros (_ & EH & Ek & ED & _) HB HD Hs.
  unfold MultiHeadAttention.split_heads. rewrite EH, Ek.
  rewrite (@view_split_ok R x B T H dk).
  - cbn [Py.bind Py.ret].
    destruct (@permute_0213_ok R _ (mk_tensor [B; T; H; dk] (data x)) B T H dk eq_refl)
      as (y & Hy & Hsy & Hwy & Hget).
    exists y. repeat split; assumption.
  - rewrite Hs. cbn [numel fold_right]. subst D. lia.
  - exact HB.
  - subst D. exact HD.
Qed.

Lemma merge_heads_ok (self : MultiHeadAttention.t) (D H dk B T : nat) (c : tensor R) :
  MultiHeadAttention_dims self D H dk -> (0 < B)%nat -> (0 < D)%nat ->
  shape c = [B; H; T; dk] ->
  exists p, permute [0; 2; 1; 3]%nat c = Py.ret p
    /\ MultiHeadAttention.merge_heads self c B = Py.ret (mk_tensor [B; T; D] (data p))
    /\ shape p = [B; T; H; dk] /\ wf p
    /\ forall b t h e, (b < B)%nat -> (t < T)%nat -> (h < H)%nat -> (e < dk)%nat ->
         get p [b; t; h; e] = get c [b; h; t; e].
Proof.
  intros (EDm & _ & _ & ED & _) HB HD Hs.
  destruct (@permute_0213_ok R _ c B H T dk Hs) as (p & Hp & Hsp & Hwp & Hget).
  exists p. split; [exact Hp|].
  unfold MultiHeadAttention.merge_heads. rewrite Hp. cbn [Py.bind Py.ret]. unfold contiguous.
  rewrite EDm. split.
  - apply view_merge_ok; [|exact HB|exact HD].
    rewrite Hsp. cbn [numel fold_right]. subst D. lia.
  - repeat split; assumption.
Qed.

Lemma MultiHeadAttention_raw_scores_ok
  (self : MultiHeadAttention.t) (Q K : tensor R) (B H Tq Tk dk : nat) :
  shape Q = [B; H; Tq; dk] -> shape K = [B; H; Tk; dk] ->
  exists S, MultiHeadAttention.raw_scores self Q K = Py.ret S
    /\ shape S = [B; H; Tq; Tk] /\ wf S.
Proof.
  intros HQ HK. unfold MultiHeadAttention.raw_scores.
  destruct (@transpose_last2_rank4_ok R _ K B H Tk dk HK) as (Kt & -> & HsKt & _).
  cbn [Py.bind Py.ret].
  destruct (@matmul_rank4_ok Q Kt B H Tq dk Tk HQ HsKt) as (qk & -> & Hsqk & Hwqk & _).
  cbn [Py.bind Py.ret].
  eexists. split; [reflexivity|]. split; [exact Hsqk|].
  apply wf_tmap. exact Hwqk.
Qed.

(** On operands of matching shapes [forward] returns; its weights are the
    softmax of the masked scores, passed through dropout. *)
Lemma MultiHeadAttention_forward_run
  (self : MultiHeadAttention.t) (D H dk B Tq Tk : nat)
  (query key value : tensor R) (mask : option (tensor R)) (g : Generator) :
  MultiHeadAttention_dims self D H dk -> (0 < B)%nat -> (0 < D)%nat ->
  shape query = [B; Tq; D] -> shape key = [B; Tk; D] -> shape value = [B; Tk; D] ->
  mask_fits [B; H; Tq; Tk] mask ->
  exists S F out,
    MultiHeadAttention.pre_mask_scores self query key = Py.ret S
    /\ shape S = [B; H; Tq; Tk]
    /\ fill_mask mask S = Py.ret F
    /\ shape F = [B; H; Tq; Tk]
    /\ (forall idx, in_bounds [B; H; Tq; Tk] idx ->
          get F idx = if masked_at mask idx then neg_fill else get S idx)
    /\ MultiHeadAttention.forward self query key value mask g
       = Py.ret (out,
                 fst (dropout (MultiHeadAttention.dropout_p self)
                        (MultiHeadAttention.training self) (softmax F) g),
                 snd (dropout (MultiHeadAttention.dropout_p self)
                        (MultiHeadAttention.training self) (softmax F) g))
    /\ shape out = [B; Tq; D].
Proof.
  intros Hdims HB HD Hq Hk Hv Hm.
  pose proof Hdims as (_ & _ & _ & _ & Iq & Oq & Ik & Ok & Iv & Ov & Io & Oo).
  unfold MultiHeadAttention.forward, MultiHeadAttention.pre_mask_scores, size.
  rewrite Hq. cbn [nth_error Py.bind Py.ret].
  destruct (@linear_ok (MultiHeadAttention.query_proj self) query [B; Tq])
    as (q1 & -> & Hsq1 & _); [now rewrite Iq|].
  rewrite Oq in Hsq1. cbn [Py.bind Py.ret].
  destruct (@split_heads_ok self D H dk B Tq q1 Hdims HB HD Hsq1)
    as (Q & -> & HsQ & _). cbn [Py.bind Py.ret].
  destruct (@linear_ok (MultiHeadAttention.key_proj self) key [B; Tk])
    as (k1 & -> & Hsk1 & _); [now rewrite Ik|].
  rewrite Ok in Hsk1. cbn [Py.bind Py.ret].
  destruct (@split_heads_ok self D H dk B Tk k1 Hdims HB HD Hsk1)
    as (K & -> & HsK & _). cbn [Py.bind Py.ret].
  destruct (@linear_ok (MultiHeadAttention.value_proj self) value [B; Tk])
    as (v1 & -> & Hsv1 & _); [now rewrite Iv|].
  rewrite Ov in Hsv1. cbn [Py.bind Py.ret].
  destruct (@split_heads_ok self D H dk B Tk v1 Hdims HB HD Hsv1)
    as (V & -> & HsV & _). cbn [Py.bind Py.ret].
  destruct (@MultiHeadAttention_raw_scores_ok self Q K B H Tq Tk dk HsQ HsK)
    as (S & -> & HsS & HwS). cbn [Py.bind Py.ret].
  destruct (@fill_mask_ok mask S [B; H; Tq; Tk] HsS HwS Hm)
    as (F & HF & HsF & _ & HgF).
  rewrite HF. cbn [Py.bind Py.ret].
  pose proof (shape_dropout (MultiHeadAttention.dropout_p self)
                (MultiHeadAttention.training self) (softmax F) g) as HsW.
  destruct (dropout (MultiHeadAttention.dropout_p self)
              (MultiHeadAttention.training self) (softmax F) g) as [W g'] eqn:Hdrop.
  cbn [fst snd] in *. rewrite shape_softmax, HsF in HsW.
  destruct (@matmul_rank4_ok W V B H Tq Tk dk HsW HsV) as (c & -> & Hsc & _).
  cbn [Py.bind Py.ret].
  destruct (@merge_heads_ok self D H dk B Tq c Hdims HB HD Hsc) as (pc & _ & -> & _).
  cbn [Py.bind Py.ret].
  destruct (@linear_ok (MultiHeadAttention.output_proj self)
              (mk_tensor [B; Tq; D] (data pc)) [B; Tq])
    as (out & -> & Hsout & _); [cbn [shape]; now rewrite Io|].
  rewrite Oo in Hsout. cbn [Py.bind Py.ret].
  exists S, F, out. rewrite Hdrop. repeat split; try assumption; reflexivity.
Qed.

End MultiHeadAttentionRun.

(* ================================================================= *)
(** ** Running [GroupedQueryAttention.forward]                        *)
(* ================================================================= *)

Section GroupedQueryAttentionRun.

Lemma GroupedQueryAttention_dims_of_init
  (d nq nkv : Z) (p : R) (w : GroupedQueryAttention.InitValues)
  (self : GroupedQueryAttention.t) :
  GroupedQueryAttention.__init__ d nq nkv p w = Py.ret self ->
  (0 < nq)%Z -> (0 < nkv)%Z ->
  GroupedQueryAttention_dims self (Z.to_nat d) (Z.to_nat nq) (Z.to_nat nkv)
    (Z.to_nat (nq / nkv)) (Z.to_nat (d / nq)).
Proof.
  intros Hinit Hq Hk.
  destruct (GroupedQueryAttention_init_fields _ _ _ _ _ Hinit)
    as (_ & _ & M1 & _ & M3 & Hd & _ & _ & E1 & E2 & E3 & E4 & E5
        & F1 & F2 & F3 & F4 & F5 & F6 & F7 & F8 & _).
  assert (Hdq : d = (nq * (d / nq))%Z) by (pose proof (Z.div_mod d nq); lia).
  assert (Hqk : nq = (nkv * (nq / nkv))%Z) by (pose proof (Z.div_mod nq nkv); lia).
  assert (0 <= d / nq)%Z by (apply Z.div_pos; lia).
  assert (0 < nq / nkv)%Z by nia.
  unfold GroupedQueryAttention_dims.
  rewrite E1, E2, E3, E4, E5, F4, F6, !Z2Nat.id by lia.
  repeat split; try assumption; try reflexivity.
  - rewrite <- Z2Nat.inj_mul by lia. now rewrite <- Hdq.
  - rewrite <- Z2Nat.inj_mul by lia. now rewrite <- Hqk.
  - lia.
  - apply Z2Nat.inj_mul; lia.
  - apply Z2Nat.inj_mul; lia.
Qed.

Lemma GroupedQueryAttention_raw_scores_ok
  (self : GroupedQueryAttention.t) (D Hq Hkv G dk : nat) (q k : tensor R)
  (B Tq Tk : nat) :
  GroupedQueryAttention_dims self D Hq Hkv G dk ->
  shape q = [B; Hq; Tq; dk] -> shape k = [B; Hq; Tk; dk] ->
  exists S, GroupedQueryAttention.raw_scores self q k = Py.ret S
    /\ shape S = [B; Hq; Tq; Tk] /\ wf S.
Proof.
  intros (_ & _ & _ & _ & Edk & _) HQ HK. unfold GroupedQueryAttention.raw_scores.
  destruct (@transpose_last2_rank4_ok R _ k B Hq Tk dk HK) as (kt & -> & Hskt & _).
  cbn [Py.bind Py.ret].
  destruct (@matmul_rank4_ok q kt B Hq Tq dk Tk HQ Hskt) as (qk & -> & Hsqk & Hwqk & _).
  cbn [Py.bind Py.ret].
  unfold Py.math_sqrt. rewrite Edk.
  destruct (Z.ltb_spec (Z.of_nat dk) 0); [lia|]. cbn [Py.bind Py.ret].
  eexists. split; [reflexivity|]. split; [exact Hsqk|].
  apply wf_tmap. exact Hwqk.
Qed.

(** The reshaping of a projected tensor into heads:
    [x.view(B, T, heads, d_qk).transpose(1, 2)]. *)
Lemma view_heads_ok (x : tensor R) (B T Hn dk W : nat) :
  shape x = [B; T; W] -> W = (Hn * dk)%nat ->
  exists y1 y,
    view x [Z.of_nat B; Z.of_nat T; Z.of_nat Hn; Z.of_nat dk] = Py.ret y1
    /\ transpose 1 2 y1 = Py.ret y
    /\ shape y = [B; Hn; T; dk] /\ wf y.
Proof.
  intros Hs HW.
  exists (mk_tensor [B; T; Hn; dk] (data x)).
  destruct (@transpose_12_rank4_ok R _ (mk_tensor [B; T; Hn; dk] (data x)) B T Hn dk eq_refl)
    as (y & Hy & Hsy & Hwy & _).
  exists y. split; [|repeat split; assumption].
  apply view_exact4_ok. rewrite Hs. cbn [numel fold_right]. subst W. lia.
Qed.

Lemma GroupedQueryAttention_forward_run
  (self : GroupedQueryAttention.t) (D Hq Hkv G dk B Tq Tk : nat)
  (query key value : tensor R) (mask : option (tensor R)) (g : Generator) :
  GroupedQueryAttention_dims self D Hq Hkv G dk ->
  shape query = [B; Tq; D] -> shape key = [B; Tk; D] -> shape value = [B; Tk; D] ->
  mask_fits [B; Hq; Tq; Tk] mask ->
  exists S F out,
    GroupedQueryAttention.pre_mask_scores self query key = Py.ret S
    /\ shape S = [B; Hq; Tq; Tk]
    /\ fill_mask mask S = Py.ret F
    /\ shape F = [B; Hq; Tq; Tk]
    /\ (forall idx, in_bounds [B; Hq; Tq; Tk] idx ->
          get F idx = if masked_at mask idx then neg_fill else get S idx)
    /\ GroupedQueryAttention.forward self query key value mask g
       = Py.ret (out,
                 fst (dropout (GroupedQueryAttention.dropout_p self)
                        (GroupedQueryAttention.training self) (softmax F) g),
                 snd (dropout (GroupedQueryAttention.dropout_p self)
                        (GroupedQueryAttention.training self) (softmax F) g))
    /\ shape out = [B; Tq; D].
Proof.
  intros Hdims Xq Xk Xv Hm.
  pose proof Hdims as (EDm & EHq & EHkv & EG & Edk & ED & EHqG & HG
                       & Iq & Oq & Ik & Ok & Iv & Ov & Io & Oo).
  unfold GroupedQueryAttention.forward, GroupedQueryAttention.pre_mask_scores, size.
  rewrite Xq, Xk. cbn [nth_error Py.bind Py.ret].
  destruct (@linear_ok (GroupedQueryAttention.query_proj self) query [B; Tq])
    as (q1 & -> & Hsq1 & _); [now rewrite Iq|].
  rewrite Oq in Hsq1. cbn [Py.bind Py.ret].
  destruct (@linear_ok (GroupedQueryAttention.key_proj self) key [B; Tk])
    as (k1 & -> & Hsk1 & _); [now rewrite Ik|].
  rewrite Ok in Hsk1. cbn [Py.bind Py.ret].
  destruct (@linear_ok (GroupedQueryAttention.value_proj self) value [B; Tk])
    as (v1 & -> & Hsv1 & _); [now rewrite Iv|].
  rewrite Ov in Hsv1. cbn [Py.bind Py.ret].
  rewrite EHq, EHkv, Edk, EDm.
  destruct (@view_heads_ok q1 B Tq Hq dk D Hsq1 ED) as (q2 & q & -> & Hq3 & Hsq & _).
  cbn [Py.bind Py.ret]. rewrite Hq3. cbn [Py.bind Py.ret].
  destruct (@view_heads_ok k1 B Tk Hkv dk (dk * Hkv) Hsk1 (Nat.mul_comm _ _))
    as (k2 & k & -> & Hk3 & Hsk & Hwk).
  cbn [Py.bind Py.ret]. rewrite Hk3. cbn [Py.bind Py.ret].
  destruct (@view_heads_ok v1 B Tk Hkv dk (dk * Hkv) Hsv1 (Nat.mul_comm _ _))
    as (v2 & v & -> & Hv3 & Hsv & Hwv).
  cbn [Py.bind Py.ret]. rewrite Hv3. cbn [Py.bind Py.ret].
  unfold GroupedQueryAttention.expand_kv. rewrite EG.
  destruct (@repeat_interleave_dim1 R _ k B Hkv Tk dk G Hwk Hsk HG)
    as (ke & -> & Hske & _).
  cbn [Py.bind Py.ret].
  destruct (@repeat_interleave_dim1 R _ v B Hkv Tk dk G Hwv Hsv HG)
    as (ve & -> & Hsve & _).
  cbn [Py.bind Py.ret].
  rewrite <- EHqG in Hske, Hsve.
  destruct (@GroupedQueryAttention_raw_scores_ok self D Hq Hkv G dk q ke B Tq Tk
              Hdims Hsq Hske) as (S & -> & HsS & HwS).
  cbn [Py.bind Py.ret].
  destruct (@fill_mask_ok mask S [B; Hq; Tq; Tk] HsS HwS Hm)
    as (F & HF & HsF & _ & HgF).
  rewrite HF. cbn [Py.bind Py.ret].
  pose proof (shape_dropout (GroupedQueryAttention.dropout_p self)
                (GroupedQueryAttention.training self) (softmax F) g) as HsW.
  destruct (dropout (GroupedQueryAttention.dropout_p self)
              (GroupedQueryAttention.training self) (softmax F) g) as [W g'] eqn:Hdrop.
  cbn [fst snd] in *. rewrite shape_softmax, HsF in HsW.
  destruct (@matmul_rank4_ok W ve B Hq Tq Tk dk HsW Hsve) as (c & -> & Hsc & _).
  cbn [Py.bind Py.ret].
  destruct (@transpose_12_rank4_ok R _ c B Hq Tq dk Hsc) as (ct & -> & Hsct & _).
  cbn [Py.bind Py.ret]. unfold contiguous.
  rewrite (@view_exact3_ok R ct B Tq D)
    by (rewrite Hsct; cbn [numel fold_right]; subst D; lia).
  cbn [Py.bind Py.ret].
  destruct (@linear_ok (GroupedQueryAttention.output_proj self)
              (mk_tensor [B; Tq; D] (data ct)) [B; Tq])
    as (out & -> & Hsout & _); [cbn [shape]; now rewrite Io|].
  rewrite Oo in Hsout. cbn [Py.bind Py.ret].
  exists S, F, out. rewrite Hdrop. repeat split; try assumption; reflexivity.
Qed.

End GroupedQueryAttentionRun.

(* ================================================================= *)
(** ** Running [CausalSelfAttention.forward]                          *)
(* ================================================================= *)

Section CausalSelfAttentionRun.

Lemma CausalSelfAttention_dims_of_init
  (d : Z) (p : R) (w : CausalSelfAttention.InitValues) (self : CausalSelfAttention.t) :
  CausalSelfAttention.__init__ d p w = Py.ret self ->
  CausalSelfAttention_dims self (Z.to_nat d).
Proof.
  intros Hinit.
  destruct (CausalSelfAttention_init_fields _ _ _ Hinit)
    as (_ & _ & _ & _ & F1 & F2 & F3 & F4 & F5 & F6 & _).
  repeat split; assumption.
Qed.

(** The mask built by [forward]: 1 on and below the diagonal, 0 above. *)
Lemma get_causal_mask (T i j : nat) :
  (i < T)%nat -> (j < T)%nat ->
  get (CausalSelfAttention.causal_mask T) [i; j] = if (j <=? i)%nat then 1 else 0.
Proof.
  intros Hi Hj. unfold CausalSelfAttention.causal_mask, tril, ones.
  cbn [shape tabulate].
  rewrite get_tabulate by (unfold in_bounds; repeat constructor; assumption).
  cbn [nth]. destruct (j <=? i)%nat; [|reflexivity].
  rewrite get_tabulate by (unfold in_bounds; repeat constructor; assumption).
  reflexivity.
Qed.

Lemma broadcast_causal_mask (B T : nat) :
  broadcast_shapes [B; T; T] (shape (CausalSelfAttention.causal_mask T))
  = Py.ret [B; T; T].
Proof.
  unfold broadcast_shapes. cbn [CausalSelfAttention.causal_mask tril ones tabulate shape
    rev app broadcast_rev].
  rewrite !Nat.eqb_refl. reflexivity.
Qed.

(** Read at a position of the scores, the condition [causal_mask == 0]
    holds exactly above the diagonal. *)
Lemma bget_causal_condition (B T b i j : nat) :
  (b < B)%nat -> (i < T)%nat -> (j < T)%nat ->
  bget (eq_scalar (CausalSelfAttention.causal_mask T) 0) [b; i; j]
  = negb (j <=? i)%nat.
Proof.
  intros Hb Hi Hj. unfold eq_scalar.
  rewrite (@bget_tmap R bool _ _ _ (CausalSelfAttention.causal_mask T) [B; T; T] [b; i; j]).
  - assert (Hg : bget (CausalSelfAttention.causal_mask T) [b; i; j]
                 = get (CausalSelfAttention.causal_mask T) [i; j]).
    { unfold bget. cbn [CausalSelfAttention.causal_mask tril ones tabulate shape
        length Nat.sub skipn combine map fst snd].
      destruct (Nat.eqb_spec T 1) as [->|_]; [|reflexivity].
      replace i with 0%nat by lia. replace j with 0%nat by lia. reflexivity. }
    rewrite Hg, get_causal_mask by assumption.
    destruct (j <=? i)%nat; cbn [negb].
    + destruct (Req_dec_T 1 0); [lra|reflexivity].
    + destruct (Req_dec_T 0 0); [reflexivity|contradiction].
  - apply wf_tabulate.
  - unfold in_bounds; repeat constructor; assumption.
  - apply broadcast_causal_mask.
Qed.

Lemma CausalSelfAttention_raw_scores_ok
  (self : CausalSelfAttention.t) (q k : tensor R) (B T D : nat) :
  shape q = [B; T; D] -> shape k = [B; T; D] ->
  exists S, CausalSelfAttention.raw_scores self q k = Py.ret S
    /\ shape S = [B; T; T] /\ wf S.
Proof.
  intros Hq Hk. unfold CausalSelfAttention.raw_scores.
  destruct (@transpose_12_rank3_ok R _ k B T D Hk) as (kt & -> & Hskt & _).
  cbn [Py.bind Py.ret].
  destruct (@bmm_ok q kt B T D T Hq Hskt) as (qk & -> & Hsqk & Hwqk & _).
  cbn [Py.bind Py.ret].
  eexists. split; [reflexivity|]. split; [exact Hsqk|].
  apply wf_tmap. exact Hwqk.
Qed.

Lemma CausalSelfAttention_forward_run
  (self : CausalSelfAttention.t) (D B T : nat) (x : tensor R) (g : Generator) :
  CausalSelfAttention_dims self D -> shape x = [B; T; D] ->
  exists S F out,
    CausalSelfAttention.pre_mask_scores self x = Py.ret S
    /\ shape S = [B; T; T]
    /\ shape F = [B; T; T]
    /\ (forall b i j, (b < B)%nat -> (i < T)%nat -> (j < T)%nat ->
          get F [b; i; j] = if (j <=? i)%nat then get S [b; i; j] else neg_fill)
    /\ CausalSelfAttention.forward self x g
       = Py.ret (out,
                 fst (dropout (CausalSelfAttention.dropout_p self)
                        (CausalSelfAttention.training self) (softmax F) g),
                 snd (dropout (CausalSelfAttention.dropout_p self)
                        (CausalSelfAttention.training self) (softmax F) g))
    /\ shape out = [B; T; D].
Proof.
  intros (Iq & Oq & Ik & Ok & Iv & Ov) Hx.
  unfold CausalSelfAttention.forward, CausalSelfAttention.pre_mask_scores.
  rewrite Hx.
  destruct (@linear_ok (CausalSelfAttention.query self) x [B; T])
    as (q & -> & Hsq & _); [now rewrite Iq|].
  rewrite Oq in Hsq. cbn [Py.bind Py.ret].
  destruct (@linear_ok (CausalSelfAttention.key self) x [B; T])
    as (k & -> & Hsk & _); [now rewrite Ik|].
  rewrite Ok in Hsk. cbn [Py.bind Py.ret].
  destruct (@linear_ok (CausalSelfAttention.value self) x [B; T])
    as (v & -> & Hsv & _); [now rewrite Iv|].
  rewrite Ov in Hsv. cbn [Py.bind Py.ret].
  destruct (@CausalSelfAttention_raw_scores_ok self q k B T D Hsq Hsk)
    as (S & -> & HsS & HwS).
  cbn [Py.bind Py.ret].
  destruct (@masked_fill_ok S (eq_scalar (CausalSelfAttention.causal_mask T) 0) neg_fill)
    as (F & -> & HsF & _ & HgF).
  { rewrite HsS. apply broadcast_causal_mask. }
  rewrite HsS in HsF, HgF. cbn [Py.bind Py.ret].
  pose proof (shape_dropout (CausalSelfAttention.dropout_p self)
                (CausalSelfAttention.training self) (softmax F) g) as HsW.
  destruct (dropout (CausalSelfAttention.dropout_p self)
              (CausalSelfAttention.training self) (softmax F) g) as [W g'] eqn:Hdrop.
  cbn [fst snd] in *. rewrite shape_softmax, HsF in HsW.
  destruct (@bmm_ok W v B T T D HsW Hsv) as (out & -> & Hsout & _).
  cbn [Py.bind Py.ret].
  exists S, F, out. rewrite Hdrop. repeat split; try assumption; try reflexivity.
  intros b i j Hb Hi Hj.
  rewrite HgF by (unfold in_bounds; repeat constructor; assumption).
  rewrite (@bget_causal_condition B T b i j Hb Hi Hj).
  destruct (j <=? i)%nat; reflexivity.
Qed.

End CausalSelfAttentionRun.

(* ================================================================= *)
(** ** Finite sums and softmax rows                                   *)
(* ================================================================= *)

Section SoftmaxRows.

Lemma sum_n_0 (f : nat -> R) : sum_n 0 f = 0.
Proof. reflexivity. Qed.

Lemma sum_n_S (n : nat) (f : nat -> R) : sum_n (S n) f = sum_n n f + f n.
Proof.
  unfold sum_n. rewrite seq_S, map_app. simpl.
  induction (map f (seq 0 n)) as [|x l IH]; simpl; [lra|].
  rewrite IH. lra.
Qed.

Lemma sum_n_const (n : nat) (c : R) : sum_n n (fun _ => c) = INR n * c.
Proof.
  induction n as [|n IH]; [rewrite sum_n_0; simpl; lra|].
  rewrite sum_n_S, IH, S_INR. lra.
Qed.


Lemma sum_n_le (n : nat) (f g : nat -> R) :
  (forall j, (j < n)%nat -> f j <= g j) -> sum_n n f <= sum_n n g.
Proof.
  induction n as [|n IH]; intros Hfg; [rewrite !sum_n_0; lra|].
  rewrite !sum_n_S.
  assert (sum_n n f <= sum_n n g) by (apply IH; intros j Hj; apply Hfg; lia).
  assert (f n <= g n) by (apply Hfg; lia). lra.
Qed.

Lemma sum_n_nonneg (n : nat) (f : nat -> R) :
  (forall j, (j < n)%nat -> 0 <= f j) -> 0 <= sum_n n f.
Proof.
  intros Hf. rewrite <- (Rmult_0_r (INR n)), <- sum_n_const.
  now apply sum_n_le.
Qed.

Lemma sum_n_ge_term (n : nat) (f : nat -> R) (u : nat) :
  (forall j, (j < n)%nat -> 0 <= f j) -> (u < n)%nat -> f u <= sum_n n f.
Proof.
  induction n as [|n IH]; intros Hf Hu; [lia|].
  rewrite sum_n_S.
  assert (0 <= sum_n n f) by (apply sum_n_nonneg; intros j Hj; apply Hf; lia).
  assert (0 <= f n) by (apply Hf; lia).
  destruct (Nat.eq_dec u n) as [->|Hne]; [lra|].
  assert (f u <= sum_n n f) by (apply IH; [intros j Hj; apply Hf; lia|lia]).
  lra.
Qed.


(** The normaliser of a non-empty row is positive. *)
Lemma softmax_norm_pos (n : nat) (s : nat -> R) :
  (0 < n)%nat -> 0 < sum_n n (fun j => exp (s j)).
Proof.
  intros Hn.
  apply Rlt_le_trans with (exp (s 0%nat)); [apply exp_pos|].
  apply (@sum_n_ge_term n (fun j => exp (s j)) 0%nat); [|exact Hn].
  intros j _. left. apply exp_pos.
Qed.


(** The softmax of a constant row is uniform. *)
Lemma softmax_row_uniform (n : nat) (s : nat -> R) (c : R) (j : nat) :
  (forall k, (k < n)%nat -> s k = c) -> (j < n)%nat ->
  exp (s j) / sum_n n (fun k => exp (s k)) = 1 / INR n.
Proof.
  intros Hs Hj.
  rewrite (@sum_n_ext n (fun k => exp (s k)) (fun _ => exp c))
    by (intros k Hk; now rewrite Hs).
  rewrite sum_n_const, Hs by exact Hj.
  assert (0 < INR n) by (apply lt_0_INR; lia).
  pose proof (exp_pos c). field. split; lra.
Qed.



End SoftmaxRows.

(* ================================================================= *)
(** ** Shapes of the results of [MultiHeadAttention.forward]          *)
(* ================================================================= *)

Section Shapes.

(** C3. For a module constructed with [d_model = D] and [num_heads = H]
    (so [D % H = 0]), a query of shape (B, T_q, D) and key and value of
    shape (B, T_k, D) -- non-empty batch, positive width and head count, the
    mask absent or broadcastable to the scores -- [forward] returns an output
    of the query's shape (B, T_q, D) and weights of shape (B, H, T_q, T_k). *)
Theorem MultiHeadAttention_forward_shapes
  (d h : Z) (p : R) (w : MultiHeadAttention.InitValues) (self : MultiHeadAttention.t)
  (B Tq Tk : nat) (query key value : tensor R) (mask : option (tensor R))
  (g : Generator) :
  MultiHeadAttention.__init__ d h p w = Py.ret self ->
  (0 < h)%Z -> (0 < d)%Z -> (0 < B)%nat ->
  shape query = [B; Tq; Z.to_nat d] ->
  shape key = [B; Tk; Z.to_nat d] ->
  shape value = [B; Tk; Z.to_nat d] ->
  mask_fits [B; Z.to_nat h; Tq; Tk] mask ->
  exists out W g',
    MultiHeadAttention.forward self query key value mask g = Py.ret (out, W, g')
    /\ shape out = shape query
    /\ shape out = [B; Tq; Z.to_nat d]
    /\ shape W = [B; Z.to_nat h; Tq; Tk].
Proof.
  intros Hinit Hh Hd HB Hq Hk Hv Hm.
  pose proof (@MultiHeadAttention_dims_of_init d h p w self Hinit Hh) as Hdims.
  destruct (@MultiHeadAttention_forward_run self _ _ _ B Tq Tk query key value mask g
              Hdims HB ltac:(lia) Hq Hk Hv Hm)
    as (S & F & out & _ & _ & _ & HsF & _ & Hfw & Hsout).
  eexists _, _, _. split; [exact Hfw|].
  split; [congruence|]. split; [exact Hsout|].
  now rewrite shape_dropout, shape_softmax.
Qed.

Lemma MultiHeadAttention_forward_shapes_witness :
  exists self,
    MultiHeadAttention.__init__ 64 8 (1 / 10) mha_init0 = Py.ret self
    /\ exists out W g',
         MultiHeadAttention.forward self notebook_input notebook_input notebook_input
           (Some notebook_mask) gen_keep
         = Py.ret (out, W, g')
         /\ shape out = shape notebook_input
         /\ shape out = [2; 10; Z.to_nat 64]%nat
         /\ shape W = [2; Z.to_nat 8; 10; 10]%nat.
Proof.
  destruct (@MultiHeadAttention_init_succeeds 64 8 (1 / 10) mha_init0)
    as [self Hself]; try lia; try reflexivity; try lra.
  exists self. split; [exact Hself|].
  apply (@MultiHeadAttention_forward_shapes 64 8 (1 / 10) mha_init0 self 2 10 10
           notebook_input notebook_input notebook_input (Some notebook_mask) gen_keep);
    try exact Hself; try lia; try reflexivity.
  split; [apply wf_tabulate|reflexivity].
Defined.

End Shapes.

(* ================================================================= *)
(** ** The attention weights                                          *)
(* ================================================================= *)

Section Weights.

Lemma get_softmax_rank4 (F : tensor R) (B H Tq Tk b h i j : nat) :
  shape F = [B; H; Tq; Tk] ->
  (b < B)%nat -> (h < H)%nat -> (i < Tq)%nat -> (j < Tk)%nat ->
  get (softmax F) [b; h; i; j]
  = exp (get F [b; h; i; j]) / sum_n Tk (fun k => exp (get F [b; h; i; k])).
Proof.
  intros Hs Hb Hh Hi Hj.
  rewrite get_softmax
    by (rewrite Hs; unfold in_bounds; repeat constructor; assumption).
  rewrite Hs. reflexivity.
Qed.

Lemma get_softmax_rank3 (F : tensor R) (B T T' b i j : nat) :
  shape F = [B; T; T'] ->
  (b < B)%nat -> (i < T)%nat -> (j < T')%nat ->
  get (softmax F) [b; i; j]
  = exp (get F [b; i; j]) / sum_n T' (fun k => exp (get F [b; i; k])).
Proof.
  intros Hs Hb Hi Hj.
  rewrite get_softmax
    by (rewrite Hs; unfold in_bounds; repeat constructor; assumption).
  rewrite Hs. reflexivity.
Qed.

(** With dropout off, the weights [MultiHeadAttention.forward] returns are
    the softmax of the masked scores, and the generator is left untouched. *)
Lemma MultiHeadAttention_weights
  (self : MultiHeadAttention.t) (D H dk B Tq Tk : nat)
  (query key value : tensor R) (mask : option (tensor R)) (g : Generator)
  (out W : tensor R) (g' : Generator) :
  MultiHeadAttention_dims self D H dk -> (0 < B)%nat -> (0 < D)%nat ->
  shape query = [B; Tq; D] -> shape key = [B; Tk; D] -> shape value = [B; Tk; D] ->
  mask_fits [B; H; Tq; Tk] mask ->
  dropout_off (MultiHeadAttention.dropout_p self) (MultiHeadAttention.training self) ->
  MultiHeadAttention.forward self query key value mask g = Py.ret (out, W, g') ->
  exists S F,
    MultiHeadAttention.pre_mask_scores self query key = Py.ret S
    /\ shape F = [B; H; Tq; Tk]
    /\ (forall b h i j, (b < B)%nat -> (h < H)%nat -> (i < Tq)%nat -> (j < Tk)%nat ->
          get F [b; h; i; j]
          = if masked_at mask [b; h; i; j] then neg_fill else get S [b; h; i; j])
    /\ W = softmax F /\ g' = g.
Proof.
  intros Hdims HB HD Hq Hk Hv Hm Hoff Hfw.
  destruct (@MultiHeadAttention_forward_run self D H dk B Tq Tk query key value mask g
              Hdims HB HD Hq Hk Hv Hm)
    as (S & F & out0 & HS & _ & _ & HsF & HgF & Hrun & _).
  rewrite Hrun, (dropout_inactive _ _ Hoff) in Hfw. cbn [fst snd] in Hfw.
  injection Hfw as _ <- <-.
  exists S, F. repeat split; try assumption; try reflexivity.
  intros b h i j Hb Hh Hi Hj. apply HgF.
  unfold in_bounds; repeat constructor; assumption.
Qed.

Lemma GroupedQueryAttention_weights
  (self : GroupedQueryAttention.t) (D Hq Hkv G dk B Tq Tk : nat)
  (query key value : tensor R) (mask : option (tensor R)) (g : Generator)
  (out W : tensor R) (g' : Generator) :
  GroupedQueryAttention_dims self D Hq Hkv G dk ->
  shape query = [B; Tq; D] -> shape key = [B; Tk; D] -> shape value = [B; Tk; D] ->
  mask_fits [B; Hq; Tq; Tk] mask ->
  dropout_off (GroupedQueryAttention.dropout_p self)
    (GroupedQueryAttention.training self) ->
  GroupedQueryAttention.forward self query key value mask g = Py.ret (out, W, g') ->
  exists S F,
    GroupedQueryAttention.pre_mask_scores self query key = Py.ret S
    /\ shape F = [B; Hq; Tq; Tk]
    /\ (forall b h i j, (b < B)%nat -> (h < Hq)%nat -> (i < Tq)%nat -> (j < Tk)%nat ->
          get F [b; h; i; j]
          = if masked_at mask [b; h; i; j] then neg_fill else get S [b; h; i; j])
    /\ W = softmax F /\ g' = g.
Proof.
  intros Hdims Xq Xk Xv Hm Hoff Hfw.
  destruct (@GroupedQueryAttention_forward_run self D Hq Hkv G dk B Tq Tk
              query key value mask g Hdims Xq Xk Xv Hm)
    as (S & F & out0 & HS & _ & _ & HsF & HgF & Hrun & _).
  rewrite Hrun, (dropout_inactive _ _ Hoff) in Hfw. cbn [fst snd] in Hfw.
  injection Hfw as _ <- <-.
  exists S, F. repeat split; try assumption; try reflexivity.
  intros b h i j Hb Hh Hi Hj. apply HgF.
  unfold in_bounds; repeat constructor; assumption.
Qed.

Lemma CausalSelfAttention_weights
  (self : CausalSelfAttention.t) (D B T : nat) (x : tensor R) (g : Generator)
  (out W : tensor R) (g' : Generator) :
  CausalSelfAttention_dims self D -> shape x = [B; T; D] ->
  dropout_off (CausalSelfAttention.dropout_p self) (CausalSelfAttention.training self) ->
  CausalSelfAttention.forward self x g = Py.ret (out, W, g') ->
  exists S F,
    CausalSelfAttention.pre_mask_scores self x = Py.ret S
    /\ shape F = [B; T; T]
    /\ (forall b i j, (b < B)%nat -> (i < T)%nat -> (j < T)%nat ->
          get F [b; i; j] = if (j <=? i)%nat then get S [b; i; j] else neg_fill)
    /\ W = softmax F /\ g' = g.
Proof.
  intros Hdims Hx Hoff Hfw.
  destruct (@CausalSelfAttention_forward_run self D B T x g Hdims Hx)
    as (S & F & out0 & HS & _ & HsF & HgF & Hrun & _).
  rewrite Hrun, (dropout_inactive _ _ Hoff) in Hfw. cbn [fst snd] in Hfw.
  injection Hfw as _ <- <-.
  exists S, F. repeat split; try assumption; reflexivity.
Qed.

(** The softmax of a row filled entirely with one constant is uniform. *)
Lemma filled_row_uniform (F : tensor R) (B H Tq Tk b h i j : nat) (c : R) :
  shape F = [B; H; Tq; Tk] ->
  (b < B)%nat -> (h < H)%nat -> (i < Tq)%nat -> (j < Tk)%nat ->
  (forall k, (k < Tk)%nat -> get F [b; h; i; k] = c) ->
  get (softmax F) [b; h; i; j] = 1 / INR Tk.
Proof.
  intros Hs Hb Hh Hi Hj Hc.
  rewrite (@get_softmax_rank4 F B H Tq Tk b h i j Hs Hb Hh Hi Hj).
  exact (@softmax_row_uniform Tk (fun k => get F [b; h; i; k]) c j Hc Hj).
Qed.

(** C9. With dropout probability 0 and a mask whose entries for the query
    row (b, h, i) are all zero, [MultiHeadAttention.forward] and
    [GroupedQueryAttention.forward] return weights whose row (b, h, i) is
    uniform: every entry, masked as it is, equals [1 / T_k], which is
    positive. *)
Theorem fully_masked_row_is_uniform :
  (forall (d h : Z) (w : MultiHeadAttention.InitValues) (self : MultiHeadAttention.t)
          (B Tq Tk : nat) (query key value m : tensor R) (g : Generator)
          (b hd i : nat),
      MultiHeadAttention.__init__ d h 0 w = Py.ret self ->
      (0 < h)%Z -> (0 < d)%Z -> (0 < B)%nat ->
      shape query = [B; Tq; Z.to_nat d] ->
      shape key = [B; Tk; Z.to_nat d] ->
      shape value = [B; Tk; Z.to_nat d] ->
      mask_fits [B; Z.to_nat h; Tq; Tk] (Some m) ->
      (b < B)%nat -> (hd < Z.to_nat h)%nat -> (i < Tq)%nat ->
      (forall k, (k < Tk)%nat -> bget m [b; hd; i; k] = 0) ->
      exists out W g',
        MultiHeadAttention.forward self query key value (Some m) g
        = Py.ret (out, W, g')
        /\ forall j, (j < Tk)%nat ->
             get W [b; hd; i; j] = 1 / INR Tk /\ 0 < get W [b; hd; i; j])
  /\
  (forall (d nq nkv : Z) (w : GroupedQueryAttention.InitValues)
          (self : GroupedQueryAttention.t)
          (B Tq Tk : nat) (query key value m : tensor R) (g : Generator)
          (b hd i : nat),
      GroupedQueryAttention.__init__ d nq nkv 0 w = Py.ret self ->
      (0 < nq)%Z -> (0 < nkv)%Z ->
      shape query = [B; Tq; Z.to_nat d] ->
      shape key = [B; Tk; Z.to_nat d] ->
      shape value = [B; Tk; Z.to_nat d] ->
      mask_fits [B; Z.to_nat nq; Tq; Tk] (Some m) ->
      (b < B)%nat -> (hd < Z.to_nat nq)%nat -> (i < Tq)%nat ->
      (forall k, (k < Tk)%nat -> bget m [b; hd; i; k] = 0) ->
      exists out W g',
        GroupedQueryAttention.forward self query key value (Some m) g
        = Py.ret (out, W, g')
        /\ forall j, (j < Tk)%nat ->
             get W [b; hd; i; j] = 1 / INR Tk /\ 0 < get W [b; hd; i; j]).
Proof.
  assert (Hpos : forall n j : nat, (j < n)%nat -> 0 < 1 / INR n).
  { intros n j Hj. apply Rdiv_lt_0_compat; [lra|]. apply lt_0_INR. lia. }
  split.
  - intros d h w self B Tq Tk query key value m g b hd i
      Hinit Hh Hd HB Hq Hk Hv Hm Hb Hhd Hi Hrow.
    pose proof (@MultiHeadAttention_dims_of_init d h 0 w self Hinit Hh) as Hdims.
    destruct (@MultiHeadAttention_init_fields d h 0 w self Hinit)
      as (_ & _ & _ & _ & _ & _ & _ & _ & _ & _ & _ & _ & _ & _ & _ & Hp & _).
    destruct (@MultiHeadAttention_forward_run self _ _ _ B Tq Tk query key value
                (Some m) g Hdims HB ltac:(lia) Hq Hk Hv Hm)
      as (S0 & F0 & out & _ & _ & _ & _ & _ & Hfw & _).
    eexists out, _, _. split; [exact Hfw|].
    destruct (@MultiHeadAttention_weights self _ _ _ B Tq Tk query key value (Some m) g
                out _ _ Hdims HB ltac:(lia) Hq Hk Hv Hm (or_introl Hp) Hfw)
      as (S & F & _ & HsF & HgF & -> & _).
    intros j Hj.
    assert (E : get (softmax F) [b; hd; i; j] = 1 / INR Tk).
    { apply (@filled_row_uniform F B (Z.to_nat h) Tq Tk b hd i j neg_fill); try assumption.
      intros k Hk'. rewrite HgF by assumption. cbn [masked_at].
      rewrite (Hrow k Hk'). destruct (Req_dec_T 0 0); [reflexivity|contradiction]. }
    rewrite E. split; [reflexivity|]. now apply (Hpos Tk j).
  - intros d nq nkv w self B Tq Tk query key value m g b hd i
      Hinit Hnq Hnkv Hq Hk Hv Hm Hb Hhd Hi Hrow.
    pose proof (@GroupedQueryAttention_dims_of_init d nq nkv 0 w self Hinit Hnq Hnkv)
      as Hdims.
    destruct (@GroupedQueryAttention_init_fields d nq nkv 0 w self Hinit)
      as (_ & _ & _ & _ & _ & _ & _ & _ & _ & _ & _ & _ & _ & _ & _ & _ & _ & _ & _
          & _ & _ & Hp & _).
    destruct (@GroupedQueryAttention_forward_run self _ _ _ _ _ B Tq Tk query key value
                (Some m) g Hdims Hq Hk Hv Hm)
      as (S0 & F0 & out & _ & _ & _ & _ & _ & Hfw & _).
    eexists out, _, _. split; [exact Hfw|].
    destruct (@GroupedQueryAttention_weights self _ _ _ _ _ B Tq Tk query key value
                (Some m) g out _ _ Hdims Hq Hk Hv Hm (or_introl Hp) Hfw)
      as (S & F & _ & HsF & HgF & -> & _).
    intros j Hj.
    assert (E : get (softmax F) [b; hd; i; j] = 1 / INR Tk).
    { apply (@filled_row_uniform F B (Z.to_nat nq) Tq Tk b hd i j neg_fill); try assumption.
      intros k Hk'. rewrite HgF by assumption. cbn [masked_at].
      rewrite (Hrow k Hk'). destruct (Req_dec_T 0 0); [reflexivity|contradiction]. }
    rewrite E. split; [reflexivity|]. now apply (Hpos Tk j).
Qed.

End Weights.

(* ================================================================= *)
(** ** Row sums of the attention weights                              *)
(* ================================================================= *)

Section RowSums.

Lemma mask_first_row_closed_row (hd k : nat) :
  (k < 3)%nat -> bget mask_first_row_closed [0; hd; 0; k]%nat = 0.
Proof.
  intros Hk. destruct k as [|[|[|k]]]; try lia; reflexivity.
Qed.

Lemma fully_masked_row_is_uniform_witness :
  (exists self,
     MultiHeadAttention.__init__ 4 2 0 mha_init_varied = Py.ret self
     /\ exists out W g',
          MultiHeadAttention.forward self x_wide_pair x_wide_triple x_wide_triple
            (Some mask_first_row_closed) gen_keep = Py.ret (out, W, g')
          /\ forall j, (j < 3)%nat ->
               get W [0; 1; 0; j]%nat = 1 / INR 3 /\ 0 < get W [0; 1; 0; j]%nat)
  /\
  (exists self,
     GroupedQueryAttention.__init__ 4 4 2 0 gqa_init_varied = Py.ret self
     /\ exists out W g',
          GroupedQueryAttention.forward self x_wide_pair x_wide_triple x_wide_triple
            (Some mask_first_row_closed) gen_keep = Py.ret (out, W, g')
          /\ forall j, (j < 3)%nat ->
               get W [0; 3; 0; j]%nat = 1 / INR 3 /\ 0 < get W [0; 3; 0; j]%nat).
Proof.
  split.
  - destruct (@MultiHeadAttention_init_succeeds 4 2 0 mha_init_varied)
      as [self Hself]; try lia; try reflexivity; try lra.
    exists self. split; [exact Hself|].
    apply (proj1 fully_masked_row_is_uniform 4%Z 2%Z mha_init_varied self
             1%nat 2%nat 3%nat x_wide_pair x_wide_triple x_wide_triple
             mask_first_row_closed gen_keep 0%nat 1%nat 0%nat Hself);
      try lia; try reflexivity.
    + split; reflexivity.
    + apply mask_first_row_closed_row.
  - destruct (@GroupedQueryAttention_init_succeeds 4 4 2 0 gqa_init_varied)
      as [self Hself]; try lia; try reflexivity; try lra.
    exists self. split; [exact Hself|].
    apply (proj2 fully_masked_row_is_uniform 4%Z 4%Z 2%Z gqa_init_varied self
             1%nat 2%nat 3%nat x_wide_pair x_wide_triple x_wide_triple
             mask_first_row_closed gen_keep 0%nat 3%nat 0%nat Hself);
      try lia; try reflexivity.
    + split; reflexivity.
    + apply mask_first_row_closed_row.
Defined.



End RowSums.

Section RowSumExamples.



End RowSumExamples.

(* ================================================================= *)
(** ** Splitting and recombining the heads                            *)
(* ================================================================= *)

Section Heads.

(** Two tensors of one shape that agree at every index have the same
    storage. *)
Lemma data_ext (A : Type) `{Dflt A} (t1 t2 : tensor A) :
  wf t1 -> wf t2 -> shape t1 = shape t2 ->
  (forall idx, in_bounds (shape t1) idx -> get t1 idx = get t2 idx) ->
  data t1 = data t2.
Proof.
  intros H1 H2 Hs Hget. unfold wf in *.
  apply (nth_ext _ _ dflt dflt); [rewrite H1, H2; now rewrite Hs|].
  intros n Hn. rewrite H1 in Hn.
  specialize (Hget (unravel (shape t1) n) (@unravel_in_bounds (shape t1) n Hn)).
  unfold get in Hget. rewrite <- Hs in Hget.
  now rewrite ravel_unravel in Hget by exact Hn.
Qed.

Lemma in_bounds_rank4 (a b c d : nat) (idx : list nat) :
  in_bounds [a; b; c; d] idx ->
  exists i j k l, idx = [i; j; k; l]
    /\ (i < a)%nat /\ (j < b)%nat /\ (k < c)%nat /\ (l < d)%nat.
Proof.
  unfold in_bounds. intros Hb.
  inversion Hb as [|i ? idx1 ? Hi Hb1]; subst.
  inversion Hb1 as [|j ? idx2 ? Hj Hb2]; subst.
  inversion Hb2 as [|k ? idx3 ? Hk Hb3]; subst.
  inversion Hb3 as [|l ? idx4 ? Hl Hb4]; subst.
  inversion Hb4; subst.
  exists i, j, k, l. repeat split; assumption.
Qed.

(** C10. For a tensor [x] of shape (B, T, D), [D = num_heads * d_k], the
    recombination step of [forward] undoes [split_heads]: it returns [x]. *)
Theorem merge_heads_split_heads
  (d h : Z) (p : R) (w : MultiHeadAttention.InitValues) (self : MultiHeadAttention.t)
  (B T : nat) (x : tensor R) :
  MultiHeadAttention.__init__ d h p w = Py.ret self ->
  (0 < h)%Z -> (0 < d)%Z -> (0 < B)%nat ->
  wf x -> shape x = [B; T; Z.to_nat d] ->
  exists y,
    MultiHeadAttention.split_heads self x B = Py.ret y
    /\ shape y = [B; Z.to_nat h; T; Z.to_nat (d / h)]
    /\ MultiHeadAttention.merge_heads self y B = Py.ret x.
Proof.
  intros Hinit Hh Hd HB Hwf Hs.
  pose proof (@MultiHeadAttention_dims_of_init d h p w self Hinit Hh) as Hdims.
  set (D := Z.to_nat d) in *. set (H := Z.to_nat h) in *.
  set (dk := Z.to_nat (d / h)) in *.
  assert (HD : (0 < D)%nat) by (unfold D; lia).
  assert (ED : D = (H * dk)%nat) by (destruct Hdims as (_ & _ & _ & E & _); exact E).
  destruct (@split_heads_ok self D H dk B T x Hdims HB HD Hs)
    as (y & Hy & Hsy & Hwy & Hgy).
  exists y. split; [exact Hy|]. split; [exact Hsy|].
  destruct (@merge_heads_ok self D H dk B T y Hdims HB HD Hsy)
    as (q & _ & Hmerge & Hsq & Hwq & Hgq).
  rewrite Hmerge. f_equal.
  assert (Hdata : data q = data x).
  { apply (@data_ext R _ q (mk_tensor [B; T; H; dk] (data x))).
    - exact Hwq.
    - unfold wf in *. cbn [shape data numel fold_right].
      rewrite Hwf, Hs. cbn [numel fold_right]. rewrite ED. lia.
    - exact Hsq.
    - rewrite Hsq. intros idx Hidx.
      destruct (@in_bounds_rank4 B T H dk idx Hidx) as (b & t & hd & e & -> & Hb & Ht & Hhd & He).
      rewrite Hgq, Hgy by assumption. reflexivity. }
  rewrite Hdata. destruct x as [sx dx]. cbn [shape data] in *. now rewrite Hs.
Qed.

Lemma merge_heads_split_heads_witness :
  exists self,
    MultiHeadAttention.__init__ 4 2 0 mha_init_varied = Py.ret self
    /\ (exists y,
          MultiHeadAttention.split_heads self x_two_by_two 2 = Py.ret y
          /\ shape y = [2; Z.to_nat 2; 2; Z.to_nat (4 / 2)]%nat
          /\ MultiHeadAttention.merge_heads self y 2 = Py.ret x_two_by_two)
    /\ MultiHeadAttention.split_heads self x_two_by_two 2 = Py.ret x_two_by_two_heads.
Proof.
  destruct (@MultiHeadAttention_init_succeeds 4 2 0 mha_init_varied)
    as [self Hself]; try lia; try reflexivity; try lra.
  exists self. split; [exact Hself|]. split.
  - apply (@merge_heads_split_heads 4 2 0 mha_init_varied self 2 2 x_two_by_two Hself);
      try lia; reflexivity.
  - destruct (@MultiHeadAttention_init_fields 4 2 0 mha_init_varied self Hself)
      as (_ & _ & _ & _ & _ & EH & Ek & _).
    unfold MultiHeadAttention.split_heads. rewrite EH, Ek. reflexivity.
Defined.

End Heads.

(* ================================================================= *)
(** ** Dependence of [forward] on the random generator                *)
(* ================================================================= *)

Section Purity.



End Purity.

Section DropoutExamples.





End DropoutExamples.

(* ================================================================= *)
(** ** Causal self-attention                                          *)
(* ================================================================= *)

Section Causal.


End Causal.

Section CausalLarge.

(** In exact arithmetic a weight above the diagonal is never zero: it is
    positive, and at most [exp (-1e9 - s)] for the diagonal score [s] of its
    row, which is negligible unless that score is near or below -1e9. *)
Lemma causal_above_diagonal_weight
  (self : CausalSelfAttention.t) (D B T : nat) (x : tensor R) (g : Generator)
  (out W : tensor R) (g' : Generator) (S : tensor R) (b i j : nat) :
  CausalSelfAttention_dims self D -> shape x = [B; T; D] ->
  dropout_off (CausalSelfAttention.dropout_p self) (CausalSelfAttention.training self) ->
  CausalSelfAttention.forward self x g = Py.ret (out, W, g') ->
  CausalSelfAttention.pre_mask_scores self x = Py.ret S ->
  (b < B)%nat -> (i < j)%nat -> (j < T)%nat ->
  0 < get W [b; i; j] <= exp (neg_fill - get S [b; i; i]).
Proof.
  intros Hdims Hx Hoff Hfw HS Hb Hij Hj.
  assert (Hi : (i < T)%nat) by lia.
  destruct (@CausalSelfAttention_weights self D B T x g out W g' Hdims Hx Hoff Hfw)
    as (S0 & F & HS0 & HsF & HgF & -> & _).
  rewrite HS in HS0. injection HS0 as <-.
  rewrite (@get_softmax_rank3 F B T T b i j HsF Hb Hi Hj).
  set (z := sum_n T (fun k => exp (get F [b; i; k]))).
  assert (Hz : 0 < z) by (apply softmax_norm_pos; lia).
  assert (Hfj : get F [b; i; j] = neg_fill).
  { rewrite HgF by assumption. destruct (Nat.leb_spec j i); [lia|reflexivity]. }
  assert (Hfi : get F [b; i; i] = get S [b; i; i]).
  { rewrite HgF by assumption. now rewrite Nat.leb_refl. }
  assert (Hzi : exp (get S [b; i; i]) <= z).
  { rewrite <- Hfi.
    apply (@sum_n_ge_term T (fun k => exp (get F [b; i; k])) i); [|exact Hi].
    intros k _. left. apply exp_pos. }
  rewrite Hfj. pose proof (exp_pos neg_fill) as Hn.
  pose proof (exp_pos (get S [b; i; i])) as Hs.
  split; [apply Rdiv_lt_0_compat; assumption|].
  unfold Rminus. rewrite exp_plus, exp_Ropp. unfold Rdiv.
  apply Rmult_le_compat_l; [lra|]. apply Rinv_le_contravar; assumption.
Qed.

Lemma causal_large_scores :
  exists self,
    CausalSelfAttention.__init__ 1 0 causal_init_large = Py.ret self
    /\ exists S, CausalSelfAttention.pre_mask_scores self x_large = Py.ret S
         /\ get S [0; 0; 0]%nat = -250000000000.
Proof.
  unfold CausalSelfAttention.__init__, Py.math_sqrt, Linear_init, Dropout_init.
  cbn [Z.ltb Z.compare orb Py.bind Py.ret Py.raise].
  destruct (Rlt_dec 0 0); [lra|]. destruct (Rlt_dec 1 0); [lra|].
  cbn [Py.bind Py.ret].
  eexists. split; [reflexivity|].
  eexists. split.
  - cbv -[Rplus Rmult Rdiv Rinv Ropp Rminus exp sqrt IZR]. reflexivity.
  - cbv -[Rplus Rmult Rdiv Rinv Ropp Rminus exp sqrt IZR].
    rewrite sqrt_1. lra.
Qed.

(** C1 at an input with large activations.  The module has width 1, dropout
    probability 0, query weight 1/2 and key weight -1/2; the input holds two
    positions of value 10^6.  Every raw score is -2.5 * 10^11, below the fill
    constant -10^9, so in the first row the disallowed position (0, 1) has
    the largest score after masking and receives more than half of the
    weight: the entry above the diagonal is not zero. *)
Theorem causal_weight_above_diagonal_at_large_scores :
  exists self out W g',
    CausalSelfAttention.__init__ 1 0 causal_init_large = Py.ret self
    /\ CausalSelfAttention.forward self x_large gen_keep = Py.ret (out, W, g')
    /\ 1 / 2 < get W [0; 0; 1]%nat
    /\ get W [0; 0; 1]%nat <> 0.
Proof.
  destruct causal_large_scores as (self & Hself & S & HS & HS00).
  pose proof (@CausalSelfAttention_dims_of_init 1 0 causal_init_large self Hself)
    as Hdims.
  destruct (@CausalSelfAttention_init_fields 1 0 causal_init_large self Hself)
    as (_ & _ & _ & _ & _ & _ & _ & _ & _ & _ & Hp & _).
  destruct (@CausalSelfAttention_forward_run self _ 1 2 x_large gen_keep Hdims eq_refl)
    as (S0 & F & out & HS0 & _ & HsF & HgF & Hrun & _).
  rewrite HS in HS0. injection HS0 as <-.
  rewrite (dropout_inactive _ _ (or_introl Hp)) in Hrun. cbn [fst snd] in Hrun.
  exists self, out, (softmax F), gen_keep.
  split; [exact Hself|]. split; [exact Hrun|].
  assert (Hw : 1 / 2 < get (softmax F) [0; 0; 1]%nat).
  { rewrite (@get_softmax_rank3 F 1 2 2 0 0 1 HsF) by lia.
    unfold sum_n. cbn [seq map fold_right].
    rewrite !HgF by lia. cbn [Nat.leb]. rewrite HS00.
    assert (Hlt : exp (-250000000000) < exp neg_fill)
      by (apply exp_increasing; unfold neg_fill; lra).
    pose proof (exp_pos (-250000000000)) as H1.
    pose proof (exp_pos neg_fill) as H2.
    apply (Rmult_lt_reg_r (exp (-250000000000) + (exp neg_fill + 0))); [lra|].
    unfold Rdiv at 2. rewrite Rmult_assoc, Rinv_l by lra. lra. }
  split; [exact Hw|]. lra.
Qed.

End CausalLarge.

(* ================================================================= *)
(** ** Outcomes of the constructors                                   *)
(* ================================================================= *)

Section ConstructorOutcomes.

Local Ltac stuck := let E := fresh in intros E; cbn in E; discriminate E.

(** X1.  [MultiHeadAttention.__init__] returns a module exactly when the head
    count is not zero, divides the width, the width is not negative and the
    dropout probability lies in [0, 1].  A zero head count raises
    [ZeroDivisionError] (from [%], before the assertion is evaluated); a
    negative width that passes the assertion is refused by [nn.Linear]; a
    probability outside [0, 1] is refused by [nn.Dropout].  A module that is
    returned has [d_k * num_heads = d_model] and is in training mode. *)
Theorem MultiHeadAttention_init_outcome
  (d h : Z) (p : R) (w : MultiHeadAttention.InitValues) :
  (succeeds (MultiHeadAttention.__init__ d h p w)
   <-> (h <> 0 /\ d mod h = 0 /\ 0 <= d)%Z /\ 0 <= p <= 1)
  /\ (h = 0%Z -> MultiHeadAttention.__init__ d h p w = Py.raise Py.ZeroDivisionError)
  /\ (h <> 0%Z -> (d mod h = 0)%Z -> (d < 0)%Z ->
      exists msg, MultiHeadAttention.__init__ d h p w = Py.raise (Py.RuntimeError msg))
  /\ (h <> 0%Z -> (d mod h = 0)%Z -> (0 <= d)%Z -> ~ 0 <= p <= 1 ->
      exists msg, MultiHeadAttention.__init__ d h p w = Py.raise (Py.ValueError msg))
  /\ (forall self, MultiHeadAttention.__init__ d h p w = Py.ret self ->
      (MultiHeadAttention.d_k self * MultiHeadAttention.num_heads self
       = MultiHeadAttention.d_model self)%Z
      /\ MultiHeadAttention.training self = true).
Proof.
  split; [|split; [|split; [|split]]].
  - split.
    + intros [self Hself].
      destruct (@MultiHeadAttention_init_fields d h p w self Hself)
        as (Hh & Hm & Hd & Hp & _).
      repeat split; try assumption; apply Hp.
    + intros [(Hh & Hm & Hd) Hp]. now apply MultiHeadAttention_init_succeeds.
  - intros ->. reflexivity.
  - intros Hh Hm Hd.
    unfold MultiHeadAttention.__init__, Py.mod_, Py.floordiv, Py.assert_, Linear_init.
    destruct (Z.eqb_spec h 0); [contradiction|]. rewrite Hm. cbn.
    destruct (Z.ltb_spec d 0); [|lia]. cbn. eexists. reflexivity.
  - intros Hh Hm Hd Hp.
    unfold MultiHeadAttention.__init__, Py.mod_, Py.floordiv, Py.assert_, Linear_init,
      Dropout_init.
    destruct (Z.eqb_spec h 0); [contradiction|]. rewrite Hm. cbn.
    destruct (Z.ltb_spec d 0); [lia|]. cbn.
    destruct (Rlt_dec p 0); [eexists; reflexivity|].
    destruct (Rlt_dec 1 p); [eexists; reflexivity|].
    exfalso. apply Hp. lra.
  - intros self Hself.
    destruct (@MultiHeadAttention_init_fields d h p w self Hself)
      as (Hh & Hm & _ & _ & E1 & E2 & E3 & _ & _ & _ & _ & _ & _ & _ & _ & _ & Ht).
    split; [|exact Ht].
    rewrite E1, E2, E3. pose proof (Z.div_mod d h Hh). lia.
Qed.

(** X2.  [GroupedQueryAttention.__init__] returns a module exactly when both head
    counts are not zero, the three divisibility assertions hold, the width
    and the width of the key/value projection are not negative, and the
    dropout probability lies in [0, 1].  A zero query-head count, or a zero
    key/value-head count once the first assertion holds, raises
    [ZeroDivisionError].  A module that is returned has
    [d_qk * num_query_heads = d_model],
    [kv_groups * num_kv_heads = num_query_heads], and key and value
    projections of width [d_qk * num_kv_heads]. *)
Theorem GroupedQueryAttention_init_outcome
  (d nq nkv : Z) (p : R) (w : GroupedQueryAttention.InitValues) :
  (succeeds (GroupedQueryAttention.__init__ d nq nkv p w)
   <-> (nq <> 0 /\ nkv <> 0 /\ d mod nq = 0 /\ d mod nkv = 0 /\ nq mod nkv = 0
        /\ 0 <= d /\ 0 <= d / nq * nkv)%Z /\ 0 <= p <= 1)
  /\ (nq = 0%Z ->
      GroupedQueryAttention.__init__ d nq nkv p w = Py.raise Py.ZeroDivisionError)
  /\ (nq <> 0%Z -> (d mod nq = 0)%Z -> nkv = 0%Z ->
      GroupedQueryAttention.__init__ d nq nkv p w = Py.raise Py.ZeroDivisionError)
  /\ (forall self, GroupedQueryAttention.__init__ d nq nkv p w = Py.ret self ->
      (GroupedQueryAttention.d_qk self * GroupedQueryAttention.num_query_heads self
       = GroupedQueryAttention.d_model self)%Z
      /\ (GroupedQueryAttention.kv_groups self * GroupedQueryAttention.num_kv_heads self
          = GroupedQueryAttention.num_query_heads self)%Z
      /\ out_features (GroupedQueryAttention.key_proj self)
         = Z.to_nat (GroupedQueryAttention.d_qk self
                     * GroupedQueryAttention.num_kv_heads self)
      /\ out_features (GroupedQueryAttention.value_proj self)
         = Z.to_nat (GroupedQueryAttention.d_qk self
                     * GroupedQueryAttention.num_kv_heads self)
      /\ GroupedQueryAttention.training self = true).
Proof.
  split; [|split; [|split]].
  - split.
    + intros [self Hself].
      destruct (@GroupedQueryAttention_init_fields d nq nkv p w self Hself)
        as (H1 & H2 & H3 & H4 & H5 & H6 & H7 & H8 & _).
      repeat split; try assumption; apply H8.
    + intros [(Hq & Hk & E1 & E2 & E3 & Hd & Hkv) Hp].
      unfold GroupedQueryAttention.__init__, Py.mod_, Py.floordiv, Py.assert_,
        Linear_init, Dropout_init, Py.bind, Py.ret, Py.raise.
      destruct (Z.eqb_spec nq 0); [lia|].
      destruct (Z.eqb_spec nkv 0); [lia|].
      rewrite E1, E2, E3. cbn.
      destruct (Z.ltb_spec d 0); [lia|]. cbn.
      destruct (Z.ltb_spec (d / nq * nkv) 0); [lia|].
      destruct (Rlt_dec p 0); [lra|]. destruct (Rlt_dec 1 p); [lra|].
      eexists. reflexivity.
  - intros ->. reflexivity.
  - intros Hq Hm ->.
    unfold GroupedQueryAttention.__init__, Py.mod_, Py.assert_.
    destruct (Z.eqb_spec nq 0); [contradiction|]. rewrite Hm. reflexivity.
  - intros self Hself.
    destruct (@GroupedQueryAttention_init_fields d nq nkv p w self Hself)
      as (Hq & Hk & M1 & _ & M3 & _ & _ & _ & E1 & E2 & E3 & E4 & E5
          & _ & _ & _ & F4 & _ & F6 & _ & _ & _ & Ht).
    rewrite E1, E2, E3, E4, E5, F4, F6.
    pose proof (Z.div_mod d nq Hq). pose proof (Z.div_mod nq nkv Hk).
    repeat split; try reflexivity; try exact Ht; lia.
Qed.

(** X3.  For an [embedding_dim] that Python converts to a float (beyond
    [float_int_bound] in magnitude [math.sqrt] raises [OverflowError]),
    [CausalSelfAttention.__init__] returns a module exactly when the width is
    not negative and the dropout probability lies in [0, 1]; a negative width
    raises [ValueError] (from [math.sqrt]).  A module that is returned is in
    training mode and has [scale = sqrt embedding_dim], which is not
    negative and is zero exactly for width 0. *)
Theorem CausalSelfAttention_init_outcome
  (d : Z) (p : R) (w : CausalSelfAttention.InitValues) :
  (- float_int_bound < d < float_int_bound)%Z ->
  (succeeds (CausalSelfAttention.__init__ d p w) <-> (0 <= d)%Z /\ 0 <= p <= 1)
  /\ ((d < 0)%Z ->
      CausalSelfAttention.__init__ d p w
      = Py.raise (Py.ValueError "math domain error"))
  /\ (forall self, CausalSelfAttention.__init__ d p w = Py.ret self ->
      CausalSelfAttention.scale self = sqrt (IZR d)
      /\ 0 <= CausalSelfAttention.scale self
      /\ (CausalSelfAttention.scale self = 0 <-> d = 0%Z)
      /\ CausalSelfAttention.training self = true).
Proof.
  intros _. split; [|split].
  - split.
    + intros [self Hself].
      destruct (@CausalSelfAttention_init_fields d p w self Hself) as (Hd & Hp & _).
      split; assumption.
    + intros [Hd Hp]. now apply CausalSelfAttention_init_succeeds.
  - intros Hd. unfold CausalSelfAttention.__init__, Py.math_sqrt.
    destruct (Z.ltb_spec d 0); [reflexivity|lia].
  - intros self Hself.
    destruct (@CausalSelfAttention_init_fields d p w self Hself)
      as (Hd & _ & _ & Hs & _ & _ & _ & _ & _ & _ & _ & Ht).
    rewrite Hs. split; [reflexivity|]. split; [apply sqrt_pos|]. split; [|exact Ht].
    split.
    + intros E. apply sqrt_eq_0 in E; [|now apply IZR_le].
      now apply eq_IZR.
    + intros ->. apply sqrt_0.
Qed.

Lemma CausalSelfAttention_init_outcome_witness :
  (succeeds (CausalSelfAttention.__init__ 8 (1 / 10) causal_init_varied)
   <-> (0 <= 8)%Z /\ 0 <= 1 / 10 <= 1)
  /\ ((8 < 0)%Z ->
      CausalSelfAttention.__init__ 8 (1 / 10) causal_init_varied
      = Py.raise (Py.ValueError "math domain error"))
  /\ (forall self,
        CausalSelfAttention.__init__ 8 (1 / 10) causal_init_varied = Py.ret self ->
        CausalSelfAttention.scale self = sqrt (IZR 8)
        /\ 0 <= CausalSelfAttention.scale self
        /\ (CausalSelfAttention.scale self = 0 <-> 8%Z = 0%Z)
        /\ CausalSelfAttention.training self = true).
Proof.
  apply (@CausalSelfAttention_init_outcome 8 (1 / 10) causal_init_varied).
  split; reflexivity.
Defined.

End ConstructorOutcomes.

(* ================================================================= *)
(** ** Heads as slices of the projected width                         *)
(* ================================================================= *)

Section HeadSlices.

(** Element (b, t, h, c) of a storage viewed as (B, T, H, d) is element
    (b, t, h * d + c) of the same storage viewed as (B, T, H * d). *)
Lemma get_view_heads (A : Type) `{Dflt A} (x : tensor A) (B T Hn dk b t h c : nat) :
  shape x = [B; T; (Hn * dk)%nat] ->
  (h < Hn)%nat -> (c < dk)%nat ->
  get (mk_tensor [B; T; Hn; dk] (data x)) [b; t; h; c]
  = get x [b; t; (h * dk + c)%nat].
Proof.
  intros Hs Hh Hc. unfold get. cbn [shape data]. rewrite Hs.
  cbn [ravel numel fold_right]. f_equal. ring.
Qed.

Lemma get_div_scalar (t : tensor R) (c : R) (idx : list nat) :
  wf t -> in_bounds (shape t) idx -> get (div_scalar t c) idx = get t idx / c.
Proof.
  intros Hwf Hb. unfold div_scalar.
  exact (@get_tmap R R _ _ (fun x => x / c) t idx Hwf Hb).
Qed.

(** The index law of [split_heads]: head [h] of the result holds the
    features [h * d_k .. h * d_k + d_k - 1] of every position. *)
Lemma split_heads_get (self : MultiHeadAttention.t) (D H dk B T : nat) (x : tensor R) :
  MultiHeadAttention_dims self D H dk -> (0 < B)%nat -> (0 < D)%nat ->
  shape x = [B; T; D] ->
  exists y, MultiHeadAttention.split_heads self x B = Py.ret y
    /\ shape y = [B; H; T; dk] /\ wf y
    /\ forall b h t c, (b < B)%nat -> (h < H)%nat -> (t < T)%nat -> (c < dk)%nat ->
         get y [b; h; t; c] = get x [b; t; (h * dk + c)%nat].
Proof.
  intros Hdims HB HD Hs.
  destruct (@split_heads_ok self D H dk B T x Hdims HB HD Hs)
    as (y & Hy & Hsy & Hwy & Hget).
  exists y. repeat split; try assumption.
  intros b h t c Hb Hh Ht Hc. rewrite Hget by assumption.
  destruct Hdims as (_ & _ & _ & ED & _).
  apply get_view_heads; try assumption. now rewrite Hs, ED.
Qed.

(** The scores of one head: the scaled dot products of its query rows with
    its key rows. *)
Lemma MultiHeadAttention_raw_scores_get
  (self : MultiHeadAttention.t) (Q K : tensor R) (B H Tq Tk dk : nat) :
  shape Q = [B; H; Tq; dk] -> shape K = [B; H; Tk; dk] ->
  exists S, MultiHeadAttention.raw_scores self Q K = Py.ret S
    /\ shape S = [B; H; Tq; Tk] /\ wf S
    /\ forall b h i j, (b < B)%nat -> (h < H)%nat -> (i < Tq)%nat -> (j < Tk)%nat ->
         get S [b; h; i; j]
         = sum_n dk (fun c => get Q [b; h; i; c] * get K [b; h; j; c])
           / sqrt (IZR (MultiHeadAttention.d_k self)).
Proof.
  intros HQ HK. unfold MultiHeadAttention.raw_scores.
  destruct (@transpose_last2_rank4_ok R _ K B H Tk dk HK) as (Kt & -> & HsKt & _ & HgKt).
  cbn [Py.bind Py.ret].
  destruct (@matmul_rank4_ok Q Kt B H Tq dk Tk HQ HsKt) as (qk & -> & Hsqk & Hwqk & Hgqk).
  cbn [Py.bind Py.ret].
  eexists. split; [reflexivity|]. split; [exact Hsqk|].
  split; [apply wf_tmap; exact Hwqk|].
  intros b h i j Hb Hh Hi Hj.
  rewrite get_div_scalar;
    [|exact Hwqk|rewrite Hsqk; unfold in_bounds; repeat constructor; assumption].
  rewrite Hgqk by assumption. f_equal.
  apply sum_n_ext. intros c Hc. now rewrite HgKt.
Qed.

End HeadSlices.

(* ================================================================= *)
(** ** The stages of [MultiHeadAttention.forward]                     *)
(* ================================================================= *)

Section MultiHeadAttentionStages.

(** On operands of matching width (the value may have its own length
    [Tv]) the projections, the heads and the scores are computed without
    error, and [forward] is what remains to be done with them. *)
Lemma MultiHeadAttention_forward_stages
  (self : MultiHeadAttention.t) (D H dk B Tq Tk Tv : nat)
  (query key value : tensor R) :
  MultiHeadAttention_dims self D H dk -> (0 < B)%nat -> (0 < D)%nat ->
  shape query = [B; Tq; D] -> shape key = [B; Tk; D] -> shape value = [B; Tv; D] ->
  exists q k v S V,
    linear (MultiHeadAttention.query_proj self) query = Py.ret q
    /\ linear (MultiHeadAttention.key_proj self) key = Py.ret k
    /\ linear (MultiHeadAttention.value_proj self) value = Py.ret v
    /\ shape q = [B; Tq; D] /\ shape k = [B; Tk; D] /\ shape v = [B; Tv; D]
    /\ MultiHeadAttention.pre_mask_scores self query key = Py.ret S
    /\ shape S = [B; H; Tq; Tk] /\ wf S
    /\ (forall b h i j, (b < B)%nat -> (h < H)%nat -> (i < Tq)%nat -> (j < Tk)%nat ->
          get S [b; h; i; j]
          = sum_n dk (fun c => get q [b; i; (h * dk + c)%nat]
                               * get k [b; j; (h * dk + c)%nat])
            / sqrt (IZR (MultiHeadAttention.d_k self)))
    /\ shape V = [B; H; Tv; dk] /\ wf V
    /\ (forall b h t c, (b < B)%nat -> (h < H)%nat -> (t < Tv)%nat -> (c < dk)%nat ->
          get V [b; h; t; c] = get v [b; t; (h * dk + c)%nat])
    /\ forall mask g,
         MultiHeadAttention.forward self query key value mask g
         = MultiHeadAttention_finish self B S V mask g.
Proof.
  intros Hdims HB HD Hq Hk Hv.
  pose proof Hdims as (_ & _ & _ & _ & Iq & Oq & Ik & Ok & Iv & Ov & Io & Oo).
  unfold MultiHeadAttention.forward, MultiHeadAttention.pre_mask_scores, size.
  rewrite Hq. cbn [nth_error Py.bind Py.ret].
  destruct (@linear_ok (MultiHeadAttention.query_proj self) query [B; Tq])
    as (q1 & Eq1 & Hsq1 & _); [now rewrite Iq|].
  rewrite Eq1. rewrite Oq in Hsq1. cbn [Py.bind Py.ret app] in *.
  destruct (@split_heads_get self D H dk B Tq q1 Hdims HB HD Hsq1)
    as (Q & -> & HsQ & _ & HgQ). cbn [Py.bind Py.ret].
  destruct (@linear_ok (MultiHeadAttention.key_proj self) key [B; Tk])
    as (k1 & Ek1 & Hsk1 & _); [now rewrite Ik|].
  rewrite Ek1. rewrite Ok in Hsk1. cbn [Py.bind Py.ret app] in *.
  destruct (@split_heads_get self D H dk B Tk k1 Hdims HB HD Hsk1)
    as (K & -> & HsK & _ & HgK). cbn [Py.bind Py.ret].
  destruct (@linear_ok (MultiHeadAttention.value_proj self) value [B; Tv])
    as (v1 & Ev1 & Hsv1 & _); [now rewrite Iv|].
  rewrite Ev1. rewrite Ov in Hsv1. cbn [Py.bind Py.ret app] in *.
  destruct (@split_heads_get self D H dk B Tv v1 Hdims HB HD Hsv1)
    as (V & -> & HsV & HwV & HgV). cbn [Py.bind Py.ret].
  destruct (@MultiHeadAttention_raw_scores_get self Q K B H Tq Tk dk HsQ HsK)
    as (S & -> & HsS & HwS & HgS). cbn [Py.bind Py.ret].
  exists q1, k1, v1, S, V.
  repeat split; try assumption; try reflexivity.
  intros b h i j Hb Hh Hi Hj. rewrite HgS by assumption. f_equal.
  apply sum_n_ext. intros c Hc. now rewrite HgQ, HgK.
Qed.

(** X4.  [split_heads] splits the last axis into heads: element (b, h, t, c) of
    the result, of shape (B, num_heads, T, d_k), is element
    (b, t, h * d_k + c) of the argument. *)
Theorem split_heads_index_law
  (d h : Z) (p : R) (w : MultiHeadAttention.InitValues) (self : MultiHeadAttention.t)
  (B T : nat) (x : tensor R) :
  MultiHeadAttention.__init__ d h p w = Py.ret self ->
  (0 < h)%Z -> (0 < d)%Z -> (0 < B)%nat ->
  shape x = [B; T; Z.to_nat d] ->
  exists y,
    MultiHeadAttention.split_heads self x B = Py.ret y
    /\ shape y = [B; Z.to_nat h; T; Z.to_nat (d / h)]
    /\ forall b hd t c,
         (b < B)%nat -> (hd < Z.to_nat h)%nat -> (t < T)%nat ->
         (c < Z.to_nat (d / h))%nat ->
         get y [b; hd; t; c] = get x [b; t; (hd * Z.to_nat (d / h) + c)%nat].
Proof.
  intros Hinit Hh Hd HB Hs.
  pose proof (@MultiHeadAttention_dims_of_init d h p w self Hinit Hh) as Hdims.
  destruct (@split_heads_get self _ _ _ B T x Hdims HB ltac:(lia) Hs)
    as (y & Hy & Hsy & _ & Hget).
  exists y. repeat split; assumption.
Qed.

Lemma split_heads_index_law_witness :
  exists self,
    MultiHeadAttention.__init__ 4 2 0 mha_init0 = Py.ret self
    /\ exists y,
         MultiHeadAttention.split_heads self x_two_heads 1 = Py.ret y
         /\ shape y = [1; Z.to_nat 2; 2; Z.to_nat (4 / 2)]%nat
         /\ forall b hd t c,
              (b < 1)%nat -> (hd < Z.to_nat 2)%nat -> (t < 2)%nat ->
              (c < Z.to_nat (4 / 2))%nat ->
              get y [b; hd; t; c] = get x_two_heads [b; t; (hd * Z.to_nat (4 / 2) + c)%nat].
Proof.
  destruct (@MultiHeadAttention_init_succeeds 4 2 0 mha_init0)
    as [self Hself]; try lia; try reflexivity; try lra.
  exists self. split; [exact Hself|].
  apply (@split_heads_index_law 4 2 0 mha_init0 self 1 2 x_two_heads Hself);
    try lia; reflexivity.
Defined.

(** X5.  The scores of [MultiHeadAttention.forward] before masking: for head
    [h], query position [i] and key position [j], the dot product of the
    features [h * d_k ..] of the projected query row with the same features
    of the projected key row, divided by [sqrt d_k].  A head reads no
    feature of another head. *)
Theorem MultiHeadAttention_scores_formula
  (d h : Z) (p : R) (w : MultiHeadAttention.InitValues) (self : MultiHeadAttention.t)
  (B Tq Tk : nat) (query key : tensor R) :
  MultiHeadAttention.__init__ d h p w = Py.ret self ->
  (0 < h)%Z -> (0 < d)%Z -> (0 < B)%nat ->
  shape query = [B; Tq; Z.to_nat d] ->
  shape key = [B; Tk; Z.to_nat d] ->
  exists q k S,
    linear (MultiHeadAttention.query_proj self) query = Py.ret q
    /\ linear (MultiHeadAttention.key_proj self) key = Py.ret k
    /\ MultiHeadAttention.pre_mask_scores self query key = Py.ret S
    /\ shape S = [B; Z.to_nat h; Tq; Tk]
    /\ forall b hd i j,
         (b < B)%nat -> (hd < Z.to_nat h)%nat -> (i < Tq)%nat -> (j < Tk)%nat ->
         get S [b; hd; i; j]
         = sum_n (Z.to_nat (d / h))
             (fun c => get q [b; i; (hd * Z.to_nat (d / h) + c)%nat]
                       * get k [b; j; (hd * Z.to_nat (d / h) + c)%nat])
           / sqrt (IZR (d / h)).
Proof.
  intros Hinit Hh Hd HB Hq Hk.
  pose proof (@MultiHeadAttention_dims_of_init d h p w self Hinit Hh) as Hdims.
  destruct (@MultiHeadAttention_init_fields d h p w self Hinit)
    as (_ & _ & _ & _ & _ & _ & Edk & _).
  destruct (@MultiHeadAttention_forward_stages self _ _ _ B Tq Tk Tk query key key
              Hdims HB ltac:(lia) Hq Hk Hk)
    as (q & k & v & S & V & Eq & Ek & _ & _ & _ & _ & ES & HsS & _ & HgS & _).
  rewrite Edk in HgS. exists q, k, S. repeat split; assumption.
Qed.

Lemma MultiHeadAttention_scores_formula_witness :
  exists self,
    MultiHeadAttention.__init__ 4 2 0 mha_init0 = Py.ret self
    /\ exists q k S,
         linear (MultiHeadAttention.query_proj self) x_two_heads = Py.ret q
         /\ linear (MultiHeadAttention.key_proj self) x_two_heads = Py.ret k
         /\ MultiHeadAttention.pre_mask_scores self x_two_heads x_two_heads = Py.ret S
         /\ shape S = [1; Z.to_nat 2; 2; 2]%nat
         /\ forall b hd i j,
              (b < 1)%nat -> (hd < Z.to_nat 2)%nat -> (i < 2)%nat -> (j < 2)%nat ->
              get S [b; hd; i; j]
              = sum_n (Z.to_nat (4 / 2))
                  (fun c => get q [b; i; (hd * Z.to_nat (4 / 2) + c)%nat]
                            * get k [b; j; (hd * Z.to_nat (4 / 2) + c)%nat])
                / sqrt (IZR (4 / 2)).
Proof.
  destruct (@MultiHeadAttention_init_succeeds 4 2 0 mha_init0)
    as [self Hself]; try lia; try reflexivity; try lra.
  exists self. split; [exact Hself|].
  apply (@MultiHeadAttention_scores_formula 4 2 0 mha_init0 self 1 2 2
           x_two_heads x_two_heads Hself); try lia; reflexivity.
Defined.

End MultiHeadAttentionStages.

(* ================================================================= *)
(** ** Errors raised by [MultiHeadAttention.forward]                  *)
(* ================================================================= *)

Section MultiHeadAttentionErrors.

Lemma matmul_inner_mismatch (a b : tensor R) (B H n k B' H' k' m : nat) :
  shape a = [B; H; n; k] -> shape b = [B'; H'; k'; m] -> k <> k' ->
  matmul a b = Py.raise (Py.RuntimeError "mat1 and mat2 shapes cannot be multiplied").
Proof.
  intros Ha Hb Hk. unfold matmul. rewrite Ha, Hb. cbn [rev app].
  destruct (Nat.eqb_spec k k'); [contradiction|]. reflexivity.
Qed.

(** X6.  The key and the value must have the same length: the product of the
    weights (.., T_q, T_k) with the value heads (.., T_v, d_k) raises when
    [T_k <> T_v]; nothing is returned. *)
Theorem MultiHeadAttention_forward_value_length_mismatch
  (d h : Z) (p : R) (w : MultiHeadAttention.InitValues) (self : MultiHeadAttention.t)
  (B Tq Tk Tv : nat) (query key value : tensor R) (mask : option (tensor R))
  (g : Generator) :
  MultiHeadAttention.__init__ d h p w = Py.ret self ->
  (0 < h)%Z -> (0 < d)%Z -> (0 < B)%nat ->
  shape query = [B; Tq; Z.to_nat d] ->
  shape key = [B; Tk; Z.to_nat d] ->
  shape value = [B; Tv; Z.to_nat d] ->
  mask_fits [B; Z.to_nat h; Tq; Tk] mask ->
  Tk <> Tv ->
  MultiHeadAttention.forward self query key value mask g
  = Py.raise (Py.RuntimeError "mat1 and mat2 shapes cannot be multiplied").
Proof.
  intros Hinit Hh Hd HB Hq Hk Hv Hm Hne.
  pose proof (@MultiHeadAttention_dims_of_init d h p w self Hinit Hh) as Hdims.
  destruct (@MultiHeadAttention_forward_stages self _ _ _ B Tq Tk Tv query key value
              Hdims HB ltac:(lia) Hq Hk Hv)
    as (q & k & v & S & V & _ & _ & _ & _ & _ & _ & _ & HsS & HwS & _ & HsV & _ & _ & Hfw).
  rewrite Hfw. unfold MultiHeadAttention_finish.
  destruct (@fill_mask_ok mask S _ HsS HwS Hm) as (F & -> & HsF & _).
  cbn [Py.bind Py.ret].
  pose proof (shape_dropout (MultiHeadAttention.dropout_p self)
                (MultiHeadAttention.training self) (softmax F) g) as HsW.
  destruct (dropout (MultiHeadAttention.dropout_p self)
              (MultiHeadAttention.training self) (softmax F) g) as [W g'].
  cbn [fst] in HsW. rewrite shape_softmax, HsF in HsW.
  now rewrite (@matmul_inner_mismatch W V _ _ _ _ _ _ _ _ HsW HsV Hne).
Qed.

Lemma MultiHeadAttention_forward_value_length_mismatch_witness :
  exists self,
    MultiHeadAttention.__init__ 2 1 0 mha_init0 = Py.ret self
    /\ MultiHeadAttention.forward self x_example x_example v_two_positions None gen_keep
       = Py.raise (Py.RuntimeError "mat1 and mat2 shapes cannot be multiplied").
Proof.
  destruct (@MultiHeadAttention_init_succeeds 2 1 0 mha_init0)
    as [self Hself]; try lia; try reflexivity; try lra.
  exists self. split; [exact Hself|].
  apply (@MultiHeadAttention_forward_value_length_mismatch 2 1 0 mha_init0 self
           1 1 1 2 x_example x_example v_two_positions None gen_keep Hself);
    try lia; try reflexivity.
Defined.

(** X7.  A mask that cannot be broadcast against the scores (B, H, T_q, T_k)
    makes [forward] raise the broadcasting error; no weights are returned
    and the generator is not read. *)
Theorem MultiHeadAttention_forward_mask_mismatch
  (d h : Z) (p : R) (w : MultiHeadAttention.InitValues) (self : MultiHeadAttention.t)
  (B Tq Tk : nat) (query key value m : tensor R) (g : Generator) (e : Py.exn) :
  MultiHeadAttention.__init__ d h p w = Py.ret self ->
  (0 < h)%Z -> (0 < d)%Z -> (0 < B)%nat ->
  shape query = [B; Tq; Z.to_nat d] ->
  shape key = [B; Tk; Z.to_nat d] ->
  shape value = [B; Tk; Z.to_nat d] ->
  broadcast_shapes [B; Z.to_nat h; Tq; Tk] (shape m) = Py.raise e ->
  MultiHeadAttention.forward self query key value (Some m) g = Py.raise e.
Proof.
  intros Hinit Hh Hd HB Hq Hk Hv Hbs.
  pose proof (@MultiHeadAttention_dims_of_init d h p w self Hinit Hh) as Hdims.
  destruct (@MultiHeadAttention_forward_stages self _ _ _ B Tq Tk Tk query key value
              Hdims HB ltac:(lia) Hq Hk Hv)
    as (q & k & v & S & V & _ & _ & _ & _ & _ & _ & _ & HsS & _ & _ & _ & _ & _ & Hfw).
  rewrite Hfw. unfold MultiHeadAttention_finish, fill_mask, masked_fill.
  rewrite HsS. cbn [eq_scalar tmap shape]. rewrite Hbs. reflexivity.
Qed.

Lemma MultiHeadAttention_forward_mask_mismatch_witness :
  exists self,
    MultiHeadAttention.__init__ 2 1 0 mha_init0 = Py.ret self
    /\ MultiHeadAttention.forward self x_example v_two_positions v_two_positions
         (Some mask_wrong_length) gen_keep
       = Py.raise (Py.RuntimeError
                     "The size of tensor a must match the size of tensor b").
Proof.
  destruct (@MultiHeadAttention_init_succeeds 2 1 0 mha_init0)
    as [self Hself]; try lia; try reflexivity; try lra.
  exists self. split; [exact Hself|].
  apply (@MultiHeadAttention_forward_mask_mismatch 2 1 0 mha_init0 self
           1 1 2 x_example v_two_positions v_two_positions mask_wrong_length
           gen_keep _ Hself);
    try lia; reflexivity.
Defined.

Lemma view_split_empty (A : Type) (x : tensor A) (B Hn K : nat) :
  numel (shape x) = 0%nat -> (B * (Hn * K) = 0)%nat ->
  exists msg,
    view x [Z.of_nat B; (-1)%Z; Z.of_nat Hn; Z.of_nat K]
    = Py.raise (Py.RuntimeError msg).
Proof.
  intros Hn0 Hz. unfold view, infer_size. rewrite Hn0.
  cbn [existsb filter count_occ map].
  repeat match goal with
         | |- context [Z.ltb ?a ?b] => destruct (Z.ltb_spec a b); try lia
         | |- context [Z.eqb ?a ?b] => destruct (Z.eqb_spec a b); try lia
         | |- context [Z.eq_dec ?a ?b] => destruct (Z.eq_dec a b); try lia
         end.
  cbn [orb negb map numel fold_right Py.bind Py.ret].
  rewrite !Nat2Z.id.
  replace (B * (Hn * (K * 1)))%nat with 0%nat by lia.
  cbn. eexists. reflexivity.
Qed.

(** X8.  [forward] cannot handle an empty batch or a module of width 0: the
    [-1] of [view(batch_size, -1, num_heads, d_k)] in [split_heads] cannot be
    inferred on a tensor with no element, and [forward] raises. *)
Theorem MultiHeadAttention_forward_empty_raises
  (d h : Z) (p : R) (w : MultiHeadAttention.InitValues) (self : MultiHeadAttention.t)
  (B Tq : nat) (query key value : tensor R) (mask : option (tensor R))
  (g : Generator) :
  MultiHeadAttention.__init__ d h p w = Py.ret self ->
  (0 < h)%Z ->
  shape query = [B; Tq; Z.to_nat d] ->
  B = 0%nat \/ d = 0%Z ->
  exists msg,
    MultiHeadAttention.forward self query key value mask g
    = Py.raise (Py.RuntimeError msg).
Proof.
  intros Hinit Hh Hq Hempty.
  pose proof (@MultiHeadAttention_dims_of_init d h p w self Hinit Hh)
    as (_ & EH & Ek & ED & Iq & Oq & _).
  unfold MultiHeadAttention.forward, size.
  rewrite Hq. cbn [nth_error Py.bind Py.ret].
  destruct (@linear_ok (MultiHeadAttention.query_proj self) query [B; Tq])
    as (q1 & -> & Hsq1 & _); [now rewrite Iq|].
  rewrite Oq in Hsq1. cbn [Py.bind Py.ret app] in *.
  unfold MultiHeadAttention.split_heads. rewrite EH, Ek.
  assert (Hz : (B * Z.to_nat d = 0)%nat) by (destruct Hempty; subst; lia).
  destruct (@view_split_empty R q1 B (Z.to_nat h) (Z.to_nat (d / h)))
    as [msg ->].
  - rewrite Hsq1. cbn [numel fold_right]. nia.
  - rewrite <- ED. exact Hz.
  - exists msg. reflexivity.
Qed.

Lemma MultiHeadAttention_forward_empty_raises_witness :
  exists self,
    MultiHeadAttention.__init__ 2 1 0 mha_init0 = Py.ret self
    /\ exists msg,
         MultiHeadAttention.forward self x_empty_batch x_empty_batch x_empty_batch
           None gen_keep
         = Py.raise (Py.RuntimeError msg).
Proof.
  destruct (@MultiHeadAttention_init_succeeds 2 1 0 mha_init0)
    as [self Hself]; try lia; try reflexivity; try lra.
  exists self. split; [exact Hself|].
  apply (@MultiHeadAttention_forward_empty_raises 2 1 0 mha_init0 self 0 5
           x_empty_batch x_empty_batch x_empty_batch None gen_keep Hself);
    try lia; try reflexivity.
Defined.

End MultiHeadAttentionErrors.

(* ================================================================= *)
(** ** Inputs of the wrong width                                      *)
(* ================================================================= *)

Section WrongWidth.

Lemma linear_wrong_width (l : Linear) (x : tensor R) (pre : list nat) (dx : nat) :
  shape x = pre ++ [dx] -> dx <> in_features l ->
  linear l x = Py.raise (Py.RuntimeError "mat1 and mat2 shapes cannot be multiplied").
Proof.
  intros Hs Hne. unfold linear. rewrite Hs, rev_app_distr. cbn [rev app].
  destruct (Nat.eqb_spec dx (in_features l)); [contradiction|]. reflexivity.
Qed.

(** X9.  No default is substituted for an input whose last axis is not the
    width of the module: the first projection raises, in each of the three
    modules, whatever the other arguments are. *)
Theorem forward_rejects_wrong_width :
  (forall (d h : Z) (p : R) (w : MultiHeadAttention.InitValues)
          (self : MultiHeadAttention.t) (B Tq dx : nat)
          (query key value : tensor R) (mask : option (tensor R)) (g : Generator),
      MultiHeadAttention.__init__ d h p w = Py.ret self ->
      shape query = [B; Tq; dx] -> dx <> Z.to_nat d ->
      MultiHeadAttention.forward self query key value mask g
      = Py.raise (Py.RuntimeError "mat1 and mat2 shapes cannot be multiplied"))
  /\ (forall (d nq nkv : Z) (p : R) (w : GroupedQueryAttention.InitValues)
             (self : GroupedQueryAttention.t) (B Tq dx Bk Tk dk : nat)
             (query key value : tensor R) (mask : option (tensor R)) (g : Generator),
        GroupedQueryAttention.__init__ d nq nkv p w = Py.ret self ->
        shape query = [B; Tq; dx] -> shape key = [Bk; Tk; dk] -> dx <> Z.to_nat d ->
        GroupedQueryAttention.forward self query key value mask g
        = Py.raise (Py.RuntimeError "mat1 and mat2 shapes cannot be multiplied"))
  /\ (forall (d : Z) (p : R) (w : CausalSelfAttention.InitValues)
             (self : CausalSelfAttention.t) (B T dx : nat) (x : tensor R)
             (g : Generator),
        CausalSelfAttention.__init__ d p w = Py.ret self ->
        shape x = [B; T; dx] -> dx <> Z.to_nat d ->
        CausalSelfAttention.forward self x g
        = Py.raise (Py.RuntimeError "mat1 and mat2 shapes cannot be multiplied")).
Proof.
  split; [|split].
  - intros d h p w self B Tq dx query key value mask g Hinit Hq Hne.
    destruct (@MultiHeadAttention_init_fields d h p w self Hinit)
      as (_ & _ & _ & _ & _ & _ & _ & Iq & _).
    unfold MultiHeadAttention.forward, size. rewrite Hq. cbn [nth_error Py.bind Py.ret].
    rewrite (@linear_wrong_width _ query [B; Tq] dx Hq); [reflexivity|now rewrite Iq].
  - intros d nq nkv p w self B Tq dx Bk Tk dk query key value mask g Hinit Hq Hk Hne.
    destruct (@GroupedQueryAttention_init_fields d nq nkv p w self Hinit)
      as (_ & _ & _ & _ & _ & _ & _ & _ & _ & _ & _ & _ & _ & Iq & _).
    unfold GroupedQueryAttention.forward, size. rewrite Hq, Hk.
    cbn [nth_error Py.bind Py.ret].
    rewrite (@linear_wrong_width _ query [B; Tq] dx Hq); [reflexivity|now rewrite Iq].
  - intros d p w self B T dx x g Hinit Hx Hne.
    destruct (@CausalSelfAttention_init_fields d p w self Hinit)
      as (_ & _ & _ & _ & Iq & _).
    unfold CausalSelfAttention.forward. rewrite Hx.
    rewrite (@linear_wrong_width _ x [B; T] dx Hx); [reflexivity|now rewrite Iq].
Qed.

Lemma forward_rejects_wrong_width_witness :
  exists self,
    CausalSelfAttention.__init__ 2 0 causal_init0 = Py.ret self
    /\ CausalSelfAttention.forward self x_width_three gen_keep
       = Py.raise (Py.RuntimeError "mat1 and mat2 shapes cannot be multiplied").
Proof.
  destruct (@CausalSelfAttention_init_succeeds 2 0 causal_init0)
    as [self Hself]; try lia; try lra.
  exists self. split; [exact Hself|].
  apply (proj2 (proj2 forward_rejects_wrong_width) 2%Z 0 causal_init0 self
           1%nat 1%nat 3%nat x_width_three gen_keep Hself); [reflexivity|].
  cbn. lia.
Defined.

End WrongWidth.

(* ================================================================= *)
(** ** Outcome of [CausalSelfAttention.forward]                       *)
(* ================================================================= *)

Section CausalOutcome.

(** X10.  [CausalSelfAttention.forward] returns exactly on the inputs of rank
    three whose last axis has the width of the module; it then returns an
    output of the shape (B, T, D) of the input and weights of shape
    (B, T, T).  On every other input it raises. *)
Theorem CausalSelfAttention_forward_outcome
  (d : Z) (p : R) (w : CausalSelfAttention.InitValues) (self : CausalSelfAttention.t)
  (x : tensor R) (g : Generator) :
  CausalSelfAttention.__init__ d p w = Py.ret self ->
  (succeeds (CausalSelfAttention.forward self x g)
   <-> exists B T, shape x = [B; T; Z.to_nat d])
  /\ (forall out W g',
        CausalSelfAttention.forward self x g = Py.ret (out, W, g') ->
        exists B T, shape x = [B; T; Z.to_nat d]
                    /\ shape out = [B; T; Z.to_nat d] /\ shape W = [B; T; T]).
Proof.
  intros Hinit.
  pose proof (@CausalSelfAttention_dims_of_init d p w self Hinit) as Hdims.
  assert (Hshape : succeeds (CausalSelfAttention.forward self x g) ->
                   exists B T, shape x = [B; T; Z.to_nat d]).
  { intros [r Hr]. revert Hr. unfold CausalSelfAttention.forward.
    destruct (shape x) as [|B [|T [|dx [|? ?]]]] eqn:Hs; try discriminate.
    destruct (Nat.eq_dec dx (Z.to_nat d)) as [->|Hne]; [intros _; now exists B, T|].
    destruct Hdims as (Iq & _).
    rewrite (@linear_wrong_width _ x [B; T] dx Hs); [discriminate|now rewrite Iq]. }
  split; [split; [exact Hshape|]|].
  - intros (B & T & Hx).
    destruct (@CausalSelfAttention_forward_run self _ B T x g Hdims Hx)
      as (S & F & out & _ & _ & _ & _ & Hrun & _).
    eexists. exact Hrun.
  - intros out W g' Hfw.
    destruct (Hshape (ex_intro _ _ Hfw)) as (B & T & Hx).
    exists B, T. split; [exact Hx|].
    destruct (@CausalSelfAttention_forward_run self _ B T x g Hdims Hx)
      as (S & F & out0 & _ & _ & HsF & _ & Hrun & Hsout).
    rewrite Hrun in Hfw. injection Hfw as <- <- _.
    split; [exact Hsout|]. now rewrite shape_dropout, shape_softmax.
Qed.

Lemma CausalSelfAttention_forward_outcome_witness :
  exists self,
    CausalSelfAttention.__init__ 1 0 causal_init0 = Py.ret self
    /\ (succeeds (CausalSelfAttention.forward self x_single gen_keep)
        <-> exists B T, shape x_single = [B; T; Z.to_nat 1])
    /\ (forall out W g',
          CausalSelfAttention.forward self x_single gen_keep = Py.ret (out, W, g') ->
          exists B T, shape x_single = [B; T; Z.to_nat 1]
                      /\ shape out = [B; T; Z.to_nat 1] /\ shape W = [B; T; T]).
Proof.
  destruct (@CausalSelfAttention_init_succeeds 1 0 causal_init0)
    as [self Hself]; try lia; try lra.
  exists self. split; [exact Hself|].
  exact (@CausalSelfAttention_forward_outcome 1 0 causal_init0 self x_single gen_keep
           Hself).
Defined.

End CausalOutcome.

(* ================================================================= *)
(** ** The stages of [GroupedQueryAttention.forward]                  *)
(* ================================================================= *)

Section GroupedQueryAttentionStages.

Lemma view_heads_get (x : tensor R) (B T Hn dk : nat) :
  shape x = [B; T; (Hn * dk)%nat] ->
  exists y1 y,
    view x [Z.of_nat B; Z.of_nat T; Z.of_nat Hn; Z.of_nat dk] = Py.ret y1
    /\ transpose 1 2 y1 = Py.ret y
    /\ shape y = [B; Hn; T; dk] /\ wf y
    /\ forall b h t c, (b < B)%nat -> (h < Hn)%nat -> (t < T)%nat -> (c < dk)%nat ->
         get y [b; h; t; c] = get x [b; t; (h * dk + c)%nat].
Proof.
  intros Hs.
  exists (mk_tensor [B; T; Hn; dk] (data x)).
  destruct (@transpose_12_rank4_ok R _ (mk_tensor [B; T; Hn; dk] (data x)) B T Hn dk eq_refl)
    as (y & Hy & Hsy & Hwy & Hget).
  exists y. split; [|repeat split; try assumption].
  - apply view_exact4_ok. rewrite Hs. cbn [numel fold_right]. lia.
  - intros b h t c Hb Hh Ht Hc. rewrite Hget by assumption.
    now apply get_view_heads.
Qed.

Lemma length_concat_uniform (A : Type) (k : nat) (ls : list (list A)) :
  (forall x, In x ls -> length x = k) -> length (concat ls) = (length ls * k)%nat.
Proof.
  induction ls as [|x ls IH]; intros Hk; simpl; [reflexivity|].
  rewrite length_app, IH by (intros y Hy; apply Hk; now right).
  rewrite (Hk x) by now left. reflexivity.
Qed.

Lemma wf_repeat_interleave_dim1 (A : Type) (kv e : tensor A) (B Hkv T dq G : nat) :
  wf kv -> shape kv = [B; Hkv; T; dq] ->
  repeat_interleave kv (Z.of_nat G) 1 = Py.ret e -> wf e.
Proof.
  intros Hwf Hs. unfold repeat_interleave.
  destruct (Z.ltb_spec (Z.of_nat G) 0); [lia|].
  rewrite Hs, Nat2Z.id. cbn [nth_error firstn skipn app].
  intros E. injection E as <-. unfold wf in *. cbn [shape data].
  rewrite (@length_concat_uniform A (numel [T; dq])).
  - rewrite length_flat_map_repeat, length_chunks. cbn [numel fold_right]. ring.
  - intros x Hx. apply In_flat_map_repeat in Hx.
    apply (In_chunks_length (numel [T; dq]) (numel [B; Hkv]) (data kv)); [|exact Hx].
    rewrite Hwf, Hs. cbn [numel fold_right]. lia.
Qed.

Lemma GroupedQueryAttention_raw_scores_get
  (self : GroupedQueryAttention.t) (D Hq Hkv G dk : nat) (q k : tensor R)
  (B Tq Tk : nat) :
  GroupedQueryAttention_dims self D Hq Hkv G dk ->
  shape q = [B; Hq; Tq; dk] -> shape k = [B; Hq; Tk; dk] ->
  exists S, GroupedQueryAttention.raw_scores self q k = Py.ret S
    /\ shape S = [B; Hq; Tq; Tk] /\ wf S
    /\ forall b h i j, (b < B)%nat -> (h < Hq)%nat -> (i < Tq)%nat -> (j < Tk)%nat ->
         get S [b; h; i; j]
         = sum_n dk (fun c => get q [b; h; i; c] * get k [b; h; j; c])
           / sqrt (IZR (GroupedQueryAttention.d_qk self)).
Proof.
  intros (_ & _ & _ & _ & Edk & _) HQ HK. unfold GroupedQueryAttention.raw_scores.
  destruct (@transpose_last2_rank4_ok R _ k B Hq Tk dk HK) as (kt & -> & Hskt & _ & Hgkt).
  cbn [Py.bind Py.ret].
  destruct (@matmul_rank4_ok q kt B Hq Tq dk Tk HQ Hskt) as (qk & -> & Hsqk & Hwqk & Hgqk).
  cbn [Py.bind Py.ret].
  unfold Py.math_sqrt. rewrite Edk.
  destruct (Z.ltb_spec (Z.of_nat dk) 0); [lia|]. cbn [Py.bind Py.ret].
  eexists. split; [reflexivity|]. split; [exact Hsqk|].
  split; [apply wf_tmap; exact Hwqk|].
  intros b h i j Hb Hh Hi Hj.
  rewrite get_div_scalar;
    [|exact Hwqk|rewrite Hsqk; unfold in_bounds; repeat constructor; assumption].
  rewrite Hgqk by assumption. f_equal.
  apply sum_n_ext. intros c Hc. now rewrite Hgkt.
Qed.

(** On operands of the width of the module the projections, the heads,
    their expansion and the scores are computed without error, for every
    batch size, and [forward] is what remains to be done with them. *)
Lemma GroupedQueryAttention_forward_stages
  (self : GroupedQueryAttention.t) (D Hq Hkv G dk B Tq Tk : nat)
  (query key value : tensor R) :
  GroupedQueryAttention_dims self D Hq Hkv G dk ->
  shape query = [B; Tq; D] -> shape key = [B; Tk; D] -> shape value = [B; Tk; D] ->
  exists q k v S V,
    linear (GroupedQueryAttention.query_proj self) query = Py.ret q
    /\ linear (GroupedQueryAttention.key_proj self) key = Py.ret k
    /\ linear (GroupedQueryAttention.value_proj self) value = Py.ret v
    /\ shape q = [B; Tq; D]
    /\ shape k = [B; Tk; (Hkv * dk)%nat] /\ shape v = [B; Tk; (Hkv * dk)%nat]
    /\ GroupedQueryAttention.pre_mask_scores self query key = Py.ret S
    /\ shape S = [B; Hq; Tq; Tk] /\ wf S
    /\ (forall b h i j, (b < B)%nat -> (h < Hq)%nat -> (i < Tq)%nat -> (j < Tk)%nat ->
          get S [b; h; i; j]
          = sum_n dk (fun c => get q [b; i; (h * dk + c)%nat]
                               * get k [b; j; (h / G * dk + c)%nat])
            / sqrt (IZR (GroupedQueryAttention.d_qk self)))
    /\ shape V = [B; Hq; Tk; dk] /\ wf V
    /\ (forall b h t c, (b < B)%nat -> (h < Hq)%nat -> (t < Tk)%nat -> (c < dk)%nat ->
          get V [b; h; t; c] = get v [b; t; (h / G * dk + c)%nat])
    /\ forall mask g,
         GroupedQueryAttention.forward self query key value mask g
         = GroupedQueryAttention_finish self B Tq S V mask g.
Proof.
  intros Hdims Xq Xk Xv.
  pose proof Hdims as (EDm & EHq & EHkv & EG & Edk & ED & EHqG & HG
                       & Iq & Oq & Ik & Ok & Iv & Ov & Io & Oo).
  unfold GroupedQueryAttention.forward, GroupedQueryAttention.pre_mask_scores, size.
  rewrite Xq, Xk. cbn [nth_error Py.bind Py.ret].
  destruct (@linear_ok (GroupedQueryAttention.query_proj self) query [B; Tq])
    as (q1 & Eq1 & Hsq1 & _); [now rewrite Iq|].
  rewrite Eq1. rewrite Oq in Hsq1. cbn [Py.bind Py.ret app] in *.
  destruct (@linear_ok (GroupedQueryAttention.key_proj self) key [B; Tk])
    as (k1 & Ek1 & Hsk1 & _); [now rewrite Ik|].
  rewrite Ek1. rewrite Ok, (Nat.mul_comm dk Hkv) in Hsk1. cbn [Py.bind Py.ret app] in *.
  destruct (@linear_ok (GroupedQueryAttention.value_proj self) value [B; Tk])
    as (v1 & Ev1 & Hsv1 & _); [now rewrite Iv|].
  rewrite Ev1. rewrite Ov, (Nat.mul_comm dk Hkv) in Hsv1. cbn [Py.bind Py.ret app] in *.
  rewrite EHq, EHkv, Edk.
  assert (Hsq1' : shape q1 = [B; Tq; (Hq * dk)%nat]) by now rewrite Hsq1, ED.
  destruct (@view_heads_get q1 B Tq Hq dk Hsq1') as (q2 & q & -> & Hq3 & Hsq & _ & Hgq).
  cbn [Py.bind Py.ret]. rewrite Hq3. cbn [Py.bind Py.ret].
  destruct (@view_heads_get k1 B Tk Hkv dk Hsk1) as (k2 & k & -> & Hk3 & Hsk & Hwk & Hgk).
  cbn [Py.bind Py.ret]. rewrite Hk3. cbn [Py.bind Py.ret].
  destruct (@view_heads_get v1 B Tk Hkv dk Hsv1) as (v2 & v & -> & Hv3 & Hsv & Hwv & Hgv).
  cbn [Py.bind Py.ret]. rewrite Hv3. cbn [Py.bind Py.ret].
  unfold GroupedQueryAttention.expand_kv. rewrite EG.
  destruct (@repeat_interleave_dim1 R _ k B Hkv Tk dk G Hwk Hsk HG)
    as (ke & -> & Hske & Hgke).
  cbn [Py.bind Py.ret].
  destruct (@repeat_interleave_dim1 R _ v B Hkv Tk dk G Hwv Hsv HG)
    as (ve & Eve & Hsve & Hgve).
  pose proof (@wf_repeat_interleave_dim1 R v ve B Hkv Tk dk G Hwv Hsv Eve) as HwVe.
  rewrite Eve. cbn [Py.bind Py.ret].
  rewrite <- EHqG in Hske, Hsve, Hgke, Hgve.
  destruct (@GroupedQueryAttention_raw_scores_get self D Hq Hkv G dk q ke B Tq Tk
              Hdims Hsq Hske) as (S & -> & HsS & HwS & HgS).
  cbn [Py.bind Py.ret].
  assert (Hdiv : forall h, (h < Hq)%nat -> (h / G < Hkv)%nat).
  { intros h Hh. apply Nat.Div0.div_lt_upper_bound. rewrite EHqG in Hh. lia. }
  exists q1, k1, v1, S, ve.
  repeat split; try assumption; try reflexivity.
  - intros b h i j Hb Hh Hi Hj. rewrite HgS by assumption.
    f_equal; [|now rewrite Edk].
    apply sum_n_ext. intros c Hc.
    rewrite Hgq, Hgke by assumption. rewrite Hgk; auto.
  - intros b h t c Hb Hh Ht Hc. rewrite Hgve by assumption. apply Hgv; auto.
Qed.

End GroupedQueryAttentionStages.

Section GroupedQueryAttentionResults.

(** X11.  For a module constructed with [d_model = D], [num_query_heads = Hq]
    and [num_kv_heads = Hkv], a query of shape (B, T_q, D) and key and value
    of shape (B, T_k, D) -- any batch size, the empty batch included, the
    mask absent or broadcastable to the scores -- [forward] returns an output
    of the query's shape and weights of shape (B, Hq, T_q, T_k). *)
Theorem GroupedQueryAttention_forward_shapes
  (d nq nkv : Z) (p : R) (w : GroupedQueryAttention.InitValues)
  (self : GroupedQueryAttention.t)
  (B Tq Tk : nat) (query key value : tensor R) (mask : option (tensor R))
  (g : Generator) :
  GroupedQueryAttention.__init__ d nq nkv p w = Py.ret self ->
  (0 < nq)%Z -> (0 < nkv)%Z ->
  shape query = [B; Tq; Z.to_nat d] ->
  shape key = [B; Tk; Z.to_nat d] ->
  shape value = [B; Tk; Z.to_nat d] ->
  mask_fits [B; Z.to_nat nq; Tq; Tk] mask ->
  exists out W g',
    GroupedQueryAttention.forward self query key value mask g = Py.ret (out, W, g')
    /\ shape out = shape query
    /\ shape W = [B; Z.to_nat nq; Tq; Tk].
Proof.
  intros Hinit Hq Hkv Xq Xk Xv Hm.
  pose proof (@GroupedQueryAttention_dims_of_init d nq nkv p w self Hinit Hq Hkv) as Hdims.
  destruct (@GroupedQueryAttention_forward_run self _ _ _ _ _ B Tq Tk query key value
              mask g Hdims Xq Xk Xv Hm)
    as (S & F & out & _ & _ & _ & HsF & _ & Hfw & Hsout).
  eexists _, _, _. split; [exact Hfw|].
  split; [congruence|].
  now rewrite shape_dropout, shape_softmax.
Qed.

Lemma GroupedQueryAttention_forward_shapes_witness :
  exists self,
    GroupedQueryAttention.__init__ 2 2 1 0 gqa_init0 = Py.ret self
    /\ exists out W g',
         GroupedQueryAttention.forward self x_empty_batch x_empty_batch x_empty_batch
           None gen_keep
         = Py.ret (out, W, g')
         /\ shape out = shape x_empty_batch
         /\ shape W = [0; Z.to_nat 2; 5; 5]%nat.
Proof.
  destruct (@GroupedQueryAttention_init_succeeds 2 2 1 0 gqa_init0)
    as [self Hself]; try lia; try reflexivity; try lra.
  exists self. split; [exact Hself|].
  apply (@GroupedQueryAttention_forward_shapes 2 2 1 0 gqa_init0 self 0 5 5
           x_empty_batch x_empty_batch x_empty_batch None gen_keep);
    try exact Hself; try lia; try reflexivity.
Defined.

(** X12.  The scores of [GroupedQueryAttention.forward] before masking: query
    head [h] is scored against the key head [h / kv_groups].  The entry for
    head [h], query position [i] and key position [j] is the dot product of
    the features [h * d_qk ..] of the projected query row with the features
    [(h / kv_groups) * d_qk ..] of the projected key row, divided by
    [sqrt d_qk]. *)
Theorem GroupedQueryAttention_scores_formula
  (d nq nkv : Z) (p : R) (w : GroupedQueryAttention.InitValues)
  (self : GroupedQueryAttention.t)
  (B Tq Tk : nat) (query key : tensor R) :
  GroupedQueryAttention.__init__ d nq nkv p w = Py.ret self ->
  (0 < nq)%Z -> (0 < nkv)%Z ->
  shape query = [B; Tq; Z.to_nat d] ->
  shape key = [B; Tk; Z.to_nat d] ->
  exists q k S,
    linear (GroupedQueryAttention.query_proj self) query = Py.ret q
    /\ linear (GroupedQueryAttention.key_proj self) key = Py.ret k
    /\ shape k = [B; Tk; (Z.to_nat nkv * Z.to_nat (d / nq))%nat]
    /\ GroupedQueryAttention.pre_mask_scores self query key = Py.ret S
    /\ shape S = [B; Z.to_nat nq; Tq; Tk]
    /\ forall b h i j,
         (b < B)%nat -> (h < Z.to_nat nq)%nat -> (i < Tq)%nat -> (j < Tk)%nat ->
         get S [b; h; i; j]
         = sum_n (Z.to_nat (d / nq))
             (fun c => get q [b; i; (h * Z.to_nat (d / nq) + c)%nat]
                       * get k [b; j; (h / Z.to_nat (nq / nkv) * Z.to_nat (d / nq) + c)%nat])
           / sqrt (IZR (d / nq)).
Proof.
  intros Hinit Hq Hkv Xq Xk.
  pose proof (@GroupedQueryAttention_dims_of_init d nq nkv p w self Hinit Hq Hkv) as Hdims.
  destruct (@GroupedQueryAttention_init_fields d nq nkv p w self Hinit)
    as (_ & _ & _ & _ & _ & _ & _ & _ & _ & _ & _ & _ & Edk & _).
  destruct (@GroupedQueryAttention_forward_stages self _ _ _ _ _ B Tq Tk query key key
              Hdims Xq Xk Xk)
    as (q & k & v & S & V & Eq & Ek & _ & _ & Hsk & _ & ES & HsS & _ & HgS & _).
  rewrite Edk in HgS. exists q, k, S. repeat split; assumption.
Qed.

Lemma GroupedQueryAttention_scores_formula_witness :
  exists self,
    GroupedQueryAttention.__init__ 8 4 2 0 gqa_init_varied = Py.ret self
    /\ exists q k S,
         linear (GroupedQueryAttention.query_proj self) x_eight = Py.ret q
         /\ linear (GroupedQueryAttention.key_proj self) x_eight = Py.ret k
         /\ shape k = [1; 2; (Z.to_nat 2 * Z.to_nat (8 / 4))]%nat
         /\ GroupedQueryAttention.pre_mask_scores self x_eight x_eight = Py.ret S
         /\ shape S = [1; Z.to_nat 4; 2; 2]%nat
         /\ forall b h i j,
              (b < 1)%nat -> (h < Z.to_nat 4)%nat -> (i < 2)%nat -> (j < 2)%nat ->
              get S [b; h; i; j]
              = sum_n (Z.to_nat (8 / 4))
                  (fun c => get q [b; i; (h * Z.to_nat (8 / 4) + c)%nat]
                            * get k [b; j; (h / Z.to_nat (4 / 2) * Z.to_nat (8 / 4) + c)%nat])
                / sqrt (IZR (8 / 4)).
Proof.
  destruct (@GroupedQueryAttention_init_succeeds 8 4 2 0 gqa_init_varied)
    as [self Hself]; try lia; try reflexivity; try lra.
  exists self. split; [exact Hself|].
  apply (@GroupedQueryAttention_scores_formula 8 4 2 0 gqa_init_varied self 1 2 2
           x_eight x_eight Hself); try lia; reflexivity.
Defined.

End GroupedQueryAttentionResults.

(* ================================================================= *)
(** ** What [forward] reads of the mask                               *)
(* ================================================================= *)

Section MaskPattern.

Lemma tensor_ext (A : Type) `{Dflt A} (t1 t2 : tensor A) :
  wf t1 -> wf t2 -> shape t1 = shape t2 ->
  (forall idx, in_bounds (shape t1) idx -> get t1 idx = get t2 idx) ->
  t1 = t2.
Proof.
  intros H1 H2 Hs Hget.
  pose proof (@data_ext A _ t1 t2 H1 H2 Hs Hget) as Hd.
  destruct t1, t2. cbn [shape data] in *. now subst.
Qed.

Lemma fill_mask_pattern (mask1 mask2 : option (tensor R)) (S : tensor R) (s : list nat) :
  shape S = s -> wf S -> mask_fits s mask1 -> mask_fits s mask2 ->
  (forall idx, in_bounds s idx -> masked_at mask1 idx = masked_at mask2 idx) ->
  fill_mask mask1 S = fill_mask mask2 S.
Proof.
  intros Hs Hwf Hm1 Hm2 Hsame.
  destruct (@fill_mask_ok mask1 S s Hs Hwf Hm1) as (F1 & -> & HsF1 & HwF1 & Hg1).
  destruct (@fill_mask_ok mask2 S s Hs Hwf Hm2) as (F2 & -> & HsF2 & HwF2 & Hg2).
  f_equal. apply (@tensor_ext R _ F1 F2); try assumption; [congruence|].
  intros idx Hidx. rewrite HsF1 in Hidx.
  now rewrite Hg1, Hg2, Hsame by assumption.
Qed.

(** X13.  [MultiHeadAttention.forward] reads a mask only through the positions
    where it is zero: two masks that fit the scores and are zero at the same
    positions give the same result, and so does the absent mask when the
    mask is zero nowhere. *)
Theorem MultiHeadAttention_forward_mask_pattern
  (d h : Z) (p : R) (w : MultiHeadAttention.InitValues) (self : MultiHeadAttention.t)
  (B Tq Tk : nat) (query key value : tensor R) (mask1 mask2 : option (tensor R))
  (g : Generator) :
  MultiHeadAttention.__init__ d h p w = Py.ret self ->
  (0 < h)%Z -> (0 < d)%Z -> (0 < B)%nat ->
  shape query = [B; Tq; Z.to_nat d] ->
  shape key = [B; Tk; Z.to_nat d] ->
  shape value = [B; Tk; Z.to_nat d] ->
  mask_fits [B; Z.to_nat h; Tq; Tk] mask1 ->
  mask_fits [B; Z.to_nat h; Tq; Tk] mask2 ->
  (forall idx, in_bounds [B; Z.to_nat h; Tq; Tk] idx ->
     masked_at mask1 idx = masked_at mask2 idx) ->
  MultiHeadAttention.forward self query key value mask1 g
  = MultiHeadAttention.forward self query key value mask2 g.
Proof.
  intros Hinit Hh Hd HB Hq Hk Hv Hm1 Hm2 Hsame.
  pose proof (@MultiHeadAttention_dims_of_init d h p w self Hinit Hh) as Hdims.
  destruct (@MultiHeadAttention_forward_stages self _ _ _ B Tq Tk Tk query key value
              Hdims HB ltac:(lia) Hq Hk Hv)
    as (q & k & v & S & V & _ & _ & _ & _ & _ & _ & _ & HsS & HwS & _ & _ & _ & _ & Hfw).
  rewrite !Hfw. unfold MultiHeadAttention_finish.
  now rewrite (@fill_mask_pattern mask1 mask2 S _ HsS HwS Hm1 Hm2 Hsame).
Qed.

(** Two masks of different ranks and values that are zero at the same
    position, (0, 1), of every head. *)
Lemma mask_lower_two_pattern (H : nat) (idx : list nat) :
  in_bounds [1; H; 2; 2]%nat idx ->
  masked_at (Some mask_lower_two) idx = masked_at (Some mask_lower_two_other) idx.
Proof.
  intros Hidx.
  destruct (@in_bounds_rank4 _ _ _ _ idx Hidx) as (b & h & i & j & -> & Hb & Hh & Hi & Hj).
  assert (b = 0%nat) by lia. subst b.
  destruct i as [|[|i]]; try lia; destruct j as [|[|j]]; try lia;
    cbv [masked_at bget mask_lower_two mask_lower_two_other get shape data ravel
         rev combine map fold_right nth numel snd fst length skipn Nat.sub
         Nat.eqb Nat.mul Nat.add];
    repeat match goal with
           | |- context [Req_dec_T ?a ?c] => destruct (Req_dec_T a c); try lra
           end; reflexivity.
Qed.

Lemma MultiHeadAttention_forward_mask_pattern_witness :
  exists self,
    MultiHeadAttention.__init__ 4 2 0 mha_init_varied = Py.ret self
    /\ MultiHeadAttention.forward self x_wide_pair x_wide_pair x_wide_pair
         (Some mask_lower_two) gen_keep
       = MultiHeadAttention.forward self x_wide_pair x_wide_pair x_wide_pair
           (Some mask_lower_two_other) gen_keep.
Proof.
  destruct (@MultiHeadAttention_init_succeeds 4 2 0 mha_init_varied)
    as [self Hself]; try lia; try reflexivity; try lra.
  exists self. split; [exact Hself|].
  apply (@MultiHeadAttention_forward_mask_pattern 4 2 0 mha_init_varied self 1 2 2
           x_wide_pair x_wide_pair x_wide_pair
           (Some mask_lower_two) (Some mask_lower_two_other) gen_keep Hself);
    try lia; try reflexivity.
  - split; reflexivity.
  - split; reflexivity.
  - apply mask_lower_two_pattern.
Defined.

(** X14.  [GroupedQueryAttention.forward] reads a mask only through the positions
    where it is zero, for every batch size. *)
Theorem GroupedQueryAttention_forward_mask_pattern
  (d nq nkv : Z) (p : R) (w : GroupedQueryAttention.InitValues)
  (self : GroupedQueryAttention.t)
  (B Tq Tk : nat) (query key value : tensor R) (mask1 mask2 : option (tensor R))
  (g : Generator) :
  GroupedQueryAttention.__init__ d nq nkv p w = Py.ret self ->
  (0 < nq)%Z -> (0 < nkv)%Z ->
  shape query = [B; Tq; Z.to_nat d] ->
  shape key = [B; Tk; Z.to_nat d] ->
  shape value = [B; Tk; Z.to_nat d] ->
  mask_fits [B; Z.to_nat nq; Tq; Tk] mask1 ->
  mask_fits [B; Z.to_nat nq; Tq; Tk] mask2 ->
  (forall idx, in_bounds [B; Z.to_nat nq; Tq; Tk] idx ->
     masked_at mask1 idx = masked_at mask2 idx) ->
  GroupedQueryAttention.forward self query key value mask1 g
  = GroupedQueryAttention.forward self query key value mask2 g.
Proof.
  intros Hinit Hq Hkv Xq Xk Xv Hm1 Hm2 Hsame.
  pose proof (@GroupedQueryAttention_dims_of_init d nq nkv p w self Hinit Hq Hkv) as Hdims.
  destruct (@GroupedQueryAttention_forward_stages self _ _ _ _ _ B Tq Tk query key value
              Hdims Xq Xk Xv)
    as (q & k & v & S & V & _ & _ & _ & _ & _ & _ & _ & HsS & HwS & _ & _ & _ & _ & Hfw).
  rewrite !Hfw. unfold GroupedQueryAttention_finish.
  now rewrite (@fill_mask_pattern mask1 mask2 S _ HsS HwS Hm1 Hm2 Hsame).
Qed.

Lemma GroupedQueryAttention_forward_mask_pattern_witness :
  exists self,
    GroupedQueryAttention.__init__ 4 4 2 0 gqa_init_varied = Py.ret self
    /\ GroupedQueryAttention.forward self x_wide_pair x_wide_pair x_wide_pair
         (Some mask_lower_two) gen_keep
       = GroupedQueryAttention.forward self x_wide_pair x_wide_pair x_wide_pair
           (Some mask_lower_two_other) gen_keep.
Proof.
  destruct (@GroupedQueryAttention_init_succeeds 4 4 2 0 gqa_init_varied)
    as [self Hself]; try lia; try reflexivity; try lra.
  exists self. split; [exact Hself|].
  apply (@GroupedQueryAttention_forward_mask_pattern 4 4 2 0 gqa_init_varied self 1 2 2
           x_wide_pair x_wide_pair x_wide_pair
           (Some mask_lower_two) (Some mask_lower_two_other) gen_keep Hself);
    try lia; try reflexivity.
  - split; reflexivity.
  - split; reflexivity.
  - apply mask_lower_two_pattern.
Defined.

End MaskPattern.

(* ================================================================= *)
(** ** Grouped-query attention with one query head per key head       *)
(* ================================================================= *)

Section EqualHeadCounts.

Local Ltac stuck := let E := fresh in intros E; cbn in E; discriminate E.

Lemma equal_heads_same_fields
  (d h : Z) (p : R) (w : MultiHeadAttention.InitValues)
  (mha : MultiHeadAttention.t) (gqa : GroupedQueryAttention.t) :
  MultiHeadAttention.__init__ d h p w = Py.ret mha ->
  GroupedQueryAttention.__init__ d h h p (gqa_init_of w) = Py.ret gqa ->
  GroupedQueryAttention.query_proj gqa = MultiHeadAttention.query_proj mha
  /\ GroupedQueryAttention.key_proj gqa = MultiHeadAttention.key_proj mha
  /\ GroupedQueryAttention.value_proj gqa = MultiHeadAttention.value_proj mha
  /\ GroupedQueryAttention.output_proj gqa = MultiHeadAttention.output_proj mha
  /\ GroupedQueryAttention.dropout_p gqa = MultiHeadAttention.dropout_p mha
  /\ GroupedQueryAttention.training gqa = MultiHeadAttention.training mha
  /\ GroupedQueryAttention.d_model gqa = MultiHeadAttention.d_model mha
  /\ GroupedQueryAttention.d_qk gqa = MultiHeadAttention.d_k mha.
Proof.
  unfold MultiHeadAttention.__init__, GroupedQueryAttention.__init__, Py.mod_,
    Py.floordiv, Py.assert_, Linear_init, Dropout_init, Py.bind, Py.ret, Py.raise.
  destruct (Z.eqb_spec h 0) as [|Hh]; [stuck|].
  destruct (Z.eqb_spec (d mod h) 0) as [E1|]; [|stuck].
  rewrite Z_mod_same_full. cbn [Z.eqb].
  assert (Hdh : (d / h * h = d)%Z).
  { pose proof (Z.div_mod d h Hh). lia. }
  rewrite Hdh.
  destruct (Z.ltb_spec d 0) as [|Hd]; [stuck|].
  cbn [orb].
  destruct (Rlt_dec p 0) as [|Hp0]; [stuck|].
  destruct (Rlt_dec 1 p) as [|Hp1]; [stuck|].
  intros E E'. cbn in E, E'. injection E as <-. injection E' as <-. cbn.
  repeat split; reflexivity.
Qed.

Lemma transpose_12_is_permute (c : tensor R) (a b0 e f : nat) :
  shape c = [a; b0; e; f] -> transpose 1 2 c = permute [0; 2; 1; 3]%nat c.
Proof. intros Hs. unfold transpose. rewrite Hs. reflexivity. Qed.

(** X15.  With as many key/value heads as query heads, and the same parameters,
    [GroupedQueryAttention.forward] computes what [MultiHeadAttention.forward]
    computes: the same output, the same weights, the same use of the
    generator. *)
Theorem GroupedQueryAttention_with_equal_heads
  (d h : Z) (p : R) (w : MultiHeadAttention.InitValues)
  (mha : MultiHeadAttention.t) (gqa : GroupedQueryAttention.t)
  (B Tq Tk : nat) (query key value : tensor R) (mask : option (tensor R))
  (g : Generator) :
  MultiHeadAttention.__init__ d h p w = Py.ret mha ->
  GroupedQueryAttention.__init__ d h h p (gqa_init_of w) = Py.ret gqa ->
  (0 < h)%Z -> (0 < d)%Z -> (0 < B)%nat ->
  shape query = [B; Tq; Z.to_nat d] ->
  shape key = [B; Tk; Z.to_nat d] ->
  shape value = [B; Tk; Z.to_nat d] ->
  mask_fits [B; Z.to_nat h; Tq; Tk] mask ->
  GroupedQueryAttention.forward gqa query key value mask g
  = MultiHeadAttention.forward mha query key value mask g.
Proof.
  intros Hmha Hgqa Hh Hd HB Xq Xk Xv Hm.
  destruct (@equal_heads_same_fields d h p w mha gqa Hmha Hgqa)
    as (Pq & Pk & Pv & Po & Ep & Et & EDm & Edk).
  pose proof (@MultiHeadAttention_dims_of_init d h p w mha Hmha Hh) as Hdims.
  pose proof (@GroupedQueryAttention_dims_of_init d h h p _ gqa Hgqa Hh Hh) as Hdims'.
  rewrite Z.div_same in Hdims' by lia. change (Z.to_nat 1) with 1%nat in Hdims'.
  destruct (@MultiHeadAttention_forward_stages mha _ _ _ B Tq Tk Tk query key value
              Hdims HB ltac:(lia) Xq Xk Xv)
    as (q & k & v & S & V & Eq & Ek & Ev & _ & _ & _ & _ & HsS & HwS & HgS
        & HsV & HwV & HgV & Hfw).
  destruct (@GroupedQueryAttention_forward_stages gqa _ _ _ _ _ B Tq Tk query key value
              Hdims' Xq Xk Xv)
    as (q' & k' & v' & S' & V' & Eq' & Ek' & Ev' & _ & _ & _ & _ & HsS' & HwS' & HgS'
        & HsV' & HwV' & HgV' & Hfw').
  rewrite Hfw, Hfw'. clear Hfw Hfw'.
  rewrite Pq, Eq in Eq'. injection Eq' as <-.
  rewrite Pk, Ek in Ek'. injection Ek' as <-.
  rewrite Pv, Ev in Ev'. injection Ev' as <-.
  assert (ES : S' = S).
  { apply (@tensor_ext R _ S' S); try assumption; [congruence|].
    intros idx Hidx. rewrite HsS' in Hidx.
    destruct (@in_bounds_rank4 _ _ _ _ idx Hidx)
      as (b & hd & i & j & -> & Hb & Hhd & Hi & Hj).
    rewrite HgS, HgS' by assumption. rewrite Edk. f_equal.
    apply sum_n_ext. intros c Hc. now rewrite Nat.div_1_r. }
  assert (EV : V' = V).
  { apply (@tensor_ext R _ V' V); try assumption; [congruence|].
    intros idx Hidx. rewrite HsV' in Hidx.
    destruct (@in_bounds_rank4 _ _ _ _ idx Hidx)
      as (b & hd & t & c & -> & Hb & Hhd & Ht & Hc).
    rewrite HgV, HgV' by assumption. now rewrite Nat.div_1_r. }
  subst S' V'.
  unfold GroupedQueryAttention_finish, MultiHeadAttention_finish.
  destruct (@fill_mask_ok mask S _ HsS HwS Hm) as (F & -> & HsF & _ & _).
  cbn [Py.bind Py.ret]. rewrite Ep, Et.
  pose proof (shape_dropout (MultiHeadAttention.dropout_p mha)
                (MultiHeadAttention.training mha) (softmax F) g) as HsW.
  destruct (dropout (MultiHeadAttention.dropout_p mha)
              (MultiHeadAttention.training mha) (softmax F) g) as [W g'].
  cbn [fst snd] in HsW. rewrite shape_softmax, HsF in HsW.
  destruct (@matmul_rank4_ok W V B _ Tq Tk _ HsW HsV) as (c & -> & Hsc & _).
  cbn [Py.bind Py.ret].
  destruct (@merge_heads_ok mha _ _ _ B Tq c Hdims HB ltac:(lia) Hsc)
    as (pc & Hpc & -> & Hspc & _).
  rewrite (@transpose_12_is_permute c _ _ _ _ Hsc), Hpc.
  cbn [Py.bind Py.ret]. unfold contiguous.
  destruct Hdims as (EDm' & _ & _ & ED & _).
  rewrite EDm, EDm'.
  rewrite (@view_exact3_ok R pc B Tq (Z.to_nat d))
    by (rewrite Hspc; cbn [numel fold_right]; rewrite ED; lia).
  cbn [Py.bind Py.ret]. now rewrite Po.
Qed.

Lemma GroupedQueryAttention_with_equal_heads_witness :
  exists mha gqa,
    MultiHeadAttention.__init__ 4 2 0 mha_init0 = Py.ret mha
    /\ GroupedQueryAttention.__init__ 4 2 2 0 (gqa_init_of mha_init0) = Py.ret gqa
    /\ GroupedQueryAttention.forward gqa x_two_heads x_two_heads x_two_heads None gen_keep
       = MultiHeadAttention.forward mha x_two_heads x_two_heads x_two_heads None gen_keep.
Proof.
  destruct (@MultiHeadAttention_init_succeeds 4 2 0 mha_init0)
    as [mha Hmha]; try lia; try reflexivity; try lra.
  destruct (@GroupedQueryAttention_init_succeeds 4 2 2 0 (gqa_init_of mha_init0))
    as [gqa Hgqa]; try lia; try reflexivity; try lra.
  exists mha, gqa. split; [exact Hmha|]. split; [exact Hgqa|].
  apply (@GroupedQueryAttention_with_equal_heads 4 2 0 mha_init0 mha gqa 1 2 2
           x_two_heads x_two_heads x_two_heads None gen_keep Hmha Hgqa);
    try lia; try reflexivity.
Defined.

End EqualHeadCounts.

(* ================================================================= *)
(** ** The tests of the notebooks                                     *)
(* ================================================================= *)

Section NotebookTests.

Lemma get_unsqueeze0 (t : tensor R) (idx : list nat) :
  get (unsqueeze0 t) (0%nat :: idx) = get t idx.
Proof. unfold get, unsqueeze0. cbn [shape data ravel]. reflexivity. Qed.

Lemma wf_unsqueeze0 (A : Type) (t : tensor A) : wf t -> wf (unsqueeze0 t).
Proof.
  unfold wf, unsqueeze0. cbn [shape data]. intros Hw.
  change (numel (1%nat :: shape t)) with (1 * numel (shape t))%nat. lia.
Qed.

Lemma get_triu_ones (T i j : nat) :
  (i < T)%nat -> (j < T)%nat ->
  get (triu (ones [T; T]) 1) [i; j] = if (j <=? i)%nat then 0 else 1.
Proof.
  intros Hi Hj. unfold triu, ones. cbn [shape tabulate].
  rewrite get_tabulate by (unfold in_bounds; repeat constructor; assumption).
  cbn [nth].
  destruct (Z.leb_spec 1 (Z.of_nat j - Z.of_nat i));
    destruct (Nat.leb_spec j i); try lia; [|reflexivity].
  rewrite get_tabulate by (unfold in_bounds; repeat constructor; assumption).
  reflexivity.
Qed.

Lemma test_mask_ok (T : nat) :
  shape (test_mask T) = [1; 1; T; T]%nat /\ wf (test_mask T)
  /\ forall i j, (i < T)%nat -> (j < T)%nat ->
       get (test_mask T) [0; 0; i; j]%nat = if (j <=? i)%nat then 1 else 0.
Proof.
  assert (Hw : wf (unsqueeze0 (unsqueeze0 (triu (ones [T; T]) 1)))).
  { apply wf_unsqueeze0, wf_unsqueeze0. unfold triu. apply wf_tabulate. }
  split; [reflexivity|]. split.
  { unfold test_mask, to_bool, rsub_scalar. apply wf_tmap, wf_tmap, Hw. }
  intros i j Hi Hj. unfold test_mask, to_bool, rsub_scalar.
  assert (Hb : in_bounds [1; 1; T; T]%nat [0; 0; i; j]%nat)
    by (unfold in_bounds; repeat constructor; assumption).
  rewrite (@get_tmap R R _ _) by (try apply wf_tmap; assumption).
  rewrite (@get_tmap R R _ _) by assumption.
  rewrite !get_unsqueeze0, get_triu_ones by assumption.
  destruct (j <=? i)%nat.
  - destruct (Req_dec_T (1 - 0) 0) as [E|_]; [lra|reflexivity].
  - destruct (Req_dec_T (1 - 1) 0) as [_|E]; [reflexivity|lra].
Qed.

(** X16.  The mask the two tests pass to [forward] has shape (1, 1, T, T) and
    allows position (i, j) exactly when [j <= i]: it is, entry by entry, the
    mask [CausalSelfAttention.forward] builds with [tril]. *)
Theorem test_mask_is_causal_mask (T : nat) :
  shape (test_mask T) = [1; 1; T; T]%nat
  /\ forall i j, (i < T)%nat -> (j < T)%nat ->
       get (test_mask T) [0; 0; i; j]%nat = get (CausalSelfAttention.causal_mask T) [i; j]
       /\ (masked_at (Some (test_mask T)) [0; 0; i; j]%nat = true <-> (i < j)%nat).
Proof.
  destruct (test_mask_ok T) as (Hs & Hw & Hg).
  split; [exact Hs|]. intros i j Hi Hj.
  split; [now rewrite Hg, get_causal_mask by assumption|].
  assert (Hb : in_bounds [1; 1; T; T]%nat [0; 0; i; j]%nat)
    by (unfold in_bounds; repeat constructor; assumption).
  unfold masked_at.
  rewrite <- Hs in Hb. rewrite (@bget_same_shape R _ (test_mask T) _ Hb).
  rewrite Hg by assumption.
  destruct (Nat.leb_spec j i).
  - destruct (Req_dec_T 1 0) as [E|_]; [lra|]. split; [discriminate|lia].
  - destruct (Req_dec_T 0 0) as [_|E]; [|lra]. split; [intros _; assumption|reflexivity].
Qed.

Lemma test_mask_fits (B H : nat) : mask_fits [B; H; 10; 10]%nat (Some (test_mask 10)).
Proof.
  destruct (test_mask_ok 10) as (Hs & Hw & _).
  split; [exact Hw|]. rewrite Hs. unfold broadcast_shapes. cbn [rev app broadcast_rev].
  rewrite !Nat.eqb_refl. cbn [Py.bind Py.ret].
  destruct (H =? 1)%nat eqn:EH; destruct (B =? 1)%nat eqn:EB;
    cbn [Py.bind Py.ret rev app Nat.eqb]; try reflexivity.
Qed.

(** X17.  [test_multi_head_attention] returns, whatever values are drawn for the
    inputs, the parameters and dropout, an output of shape (2, 10, 64) and
    weights of shape (2, 8, 10, 10): the shapes its recorded run prints. *)
Theorem test_multi_head_attention_shapes
  (draw_query draw_key draw_value : list nat -> R)
  (w : MultiHeadAttention.InitValues) (g : Generator) :
  exists output attention,
    test_multi_head_attention draw_query draw_key draw_value w g
    = Py.ret (output, attention)
    /\ shape output = [2; 10; 64]%nat /\ shape attention = [2; 8; 10; 10]%nat.
Proof.
  unfold test_multi_head_attention. cbv zeta.
  destruct (@MultiHeadAttention_init_succeeds 64 8 (1 / 10) w)
    as [mha Hmha]; try lia; try reflexivity; try lra.
  rewrite Hmha. cbn [Py.bind Py.ret].
  pose proof (@MultiHeadAttention_dims_of_init 64 8 (1 / 10) w mha Hmha ltac:(lia))
    as Hdims.
  destruct (@MultiHeadAttention_forward_run mha _ _ _ 2 10 10
              (randn [2; 10; Z.to_nat 64]%nat draw_query)
              (randn [2; 10; Z.to_nat 64]%nat draw_key)
              (randn [2; 10; Z.to_nat 64]%nat draw_value)
              (Some (test_mask 10)) g Hdims ltac:(lia) ltac:(lia)
              eq_refl eq_refl eq_refl (test_mask_fits 2 (Z.to_nat 8)))
    as (S & F & out & _ & _ & _ & HsF & _ & Hfw & Hsout).
  rewrite Hfw. cbn [Py.bind Py.ret].
  eexists _, _. split; [reflexivity|]. split; [exact Hsout|].
  rewrite shape_dropout, shape_softmax. exact HsF.
Qed.

(** X18.  The assertion of [test_grouped_query_attention] never fails: whatever
    values are drawn, the test returns an output of the shape (2, 10, 512)
    of the query, and weights of shape (2, 8, 10, 10). *)
Theorem test_grouped_query_attention_passes
  (draw_query draw_key draw_value : list nat -> R)
  (w : GroupedQueryAttention.InitValues) (g : Generator) :
  exists output attention,
    test_grouped_query_attention draw_query draw_key draw_value w g
    = Py.ret (output, attention)
    /\ shape output = [2; 10; 512]%nat /\ shape attention = [2; 8; 10; 10]%nat.
Proof.
  unfold test_grouped_query_attention. cbv zeta.
  destruct (@GroupedQueryAttention_init_succeeds 512 8 2 (1 / 10) w)
    as [gqa Hgqa]; try lia; try reflexivity; try lra.
  rewrite Hgqa. cbn [Py.bind Py.ret].
  pose proof (@GroupedQueryAttention_dims_of_init 512 8 2 (1 / 10) w gqa Hgqa
                ltac:(lia) ltac:(lia)) as Hdims.
  destruct (@GroupedQueryAttention_forward_run gqa _ _ _ _ _ 2 10 10
              (randn [2; 10; Z.to_nat 512]%nat draw_query)
              (randn [2; 10; Z.to_nat 512]%nat draw_key)
              (randn [2; 10; Z.to_nat 512]%nat draw_value)
              (Some (test_mask 10)) g Hdims
              eq_refl eq_refl eq_refl (test_mask_fits 2 (Z.to_nat 8)))
    as (S & F & out & _ & _ & _ & HsF & _ & Hfw & Hsout).
  rewrite Hfw. cbn [Py.bind Py.ret].
  unfold shape_eqb. rewrite Hsout.
  destruct (list_eq_dec Nat.eq_dec [2; 10; Z.to_nat 512]%nat
              (shape (randn [2; 10; Z.to_nat 512]%nat draw_query))) as [_|Hne];
    [|exfalso; apply Hne; reflexivity].
  cbn [Py.assert_ Py.bind Py.ret].
  eexists _, _. split; [reflexivity|]. split; [exact Hsout|].
  rewrite shape_dropout, shape_softmax. exact HsF.
Qed.

(** X19.  [test_causal_attention] returns, whatever values are drawn, an output
    of shape (1, 4, 8) and weights of shape (1, 4, 4). *)
Theorem test_causal_attention_shapes
  (draw_x : list nat -> R) (w : CausalSelfAttention.InitValues) (g : Generator) :
  exists output attention,
    test_causal_attention draw_x w g = Py.ret (output, attention)
    /\ shape output = [1; 4; 8]%nat /\ shape attention = [1; 4; 4]%nat.
Proof.
  unfold test_causal_attention. cbv zeta.
  destruct (@CausalSelfAttention_init_succeeds 8 (1 / 10) w)
    as [self Hself]; try lia; try lra.
  rewrite Hself. cbn [Py.bind Py.ret].
  pose proof (@CausalSelfAttention_dims_of_init 8 (1 / 10) w self Hself) as Hdims.
  destruct (@CausalSelfAttention_forward_run self _ 1 4
              (randn [1; 4; Z.to_nat 8]%nat draw_x) g Hdims eq_refl)
    as (S & F & out & _ & _ & HsF & _ & Hfw & Hsout).
  rewrite Hfw. cbn [Py.bind Py.ret].
  eexists _, _. split; [reflexivity|]. split; [exact Hsout|].
  rewrite shape_dropout, shape_softmax. exact HsF.
Qed.

End NotebookTests.

(* ================================================================= *)
(** ** The stages of [CausalSelfAttention.forward]                    *)
(* ================================================================= *)

Section CausalSelfAttentionStages.

Lemma linear_get_rank3 (l : Linear) (x : tensor R) (B T : nat) :
  shape x = [B; T; in_features l] ->
  exists y, linear l x = Py.ret y
    /\ shape y = [B; T; out_features l] /\ wf y
    /\ forall b i o, (b < B)%nat -> (i < T)%nat -> (o < out_features l)%nat ->
         get y [b; i; o]
         = sum_n (in_features l) (fun c => get x [b; i; c] * get (weight l) [o; c])
           + get (bias l) [o].
Proof.
  intros Hs. unfold linear. rewrite Hs. cbn [rev app].
  rewrite Nat.eqb_refl.
  eexists. split; [reflexivity|]. split; [reflexivity|]. split; [apply wf_tabulate|].
  intros b i o Hb Hi Ho.
  rewrite get_tabulate by (unfold in_bounds; cbn [rev app]; repeat constructor; assumption).
  reflexivity.
Qed.


Lemma get_dropout_ext (p : R) (training : bool) (t t' : tensor R) (g : Generator)
  (idx : list nat) :
  wf t -> wf t' -> shape t = shape t' -> in_bounds (shape t) idx ->
  get t idx = get t' idx ->
  get (fst (dropout p training t g)) idx = get (fst (dropout p training t' g)) idx.
Proof.
  intros Hwf Hwf' Hs Hb Hget.
  destruct (Req_dec_T p 0) as [->|Hp0];
    [now rewrite !dropout_inactive by now left|].
  destruct training; [|now rewrite !dropout_inactive by now right].
  destruct (Req_dec_T p 1) as [->|Hp1].
  - pose proof (ravel_lt Hb) as Hlt.
    unfold dropout. rewrite <- Hs.
    destruct (Req_dec_T 1 0); [lra|]. cbn [negb].
    destruct (Nat.eqb_spec (numel (shape t)) 0); [lia|].
    destruct (Req_dec_T 1 1); [|contradiction]. cbn [fst].
    rewrite !(@get_tmap R R _ _) by (try assumption; now rewrite <- Hs).
    now rewrite Hget.
  - rewrite !get_dropout_active by (try assumption; now rewrite <- Hs).
    now rewrite Hget, Hs.
Qed.

Lemma CausalSelfAttention_raw_scores_get
  (self : CausalSelfAttention.t) (q k : tensor R) (B T D : nat) :
  shape q = [B; T; D] -> shape k = [B; T; D] ->
  exists S, CausalSelfAttention.raw_scores self q k = Py.ret S
    /\ shape S = [B; T; T] /\ wf S
    /\ forall b i j, (b < B)%nat -> (i < T)%nat -> (j < T)%nat ->
         get S [b; i; j]
         = sum_n D (fun c => get q [b; i; c] * get k [b; j; c])
           / CausalSelfAttention.scale self.
Proof.
  intros Hq Hk. unfold CausalSelfAttention.raw_scores.
  destruct (@transpose_12_rank3_ok R _ k B T D Hk) as (kt & -> & Hskt & _ & Hgkt).
  cbn [Py.bind Py.ret].
  destruct (@bmm_ok q kt B T D T Hq Hskt) as (qk & -> & Hsqk & Hwqk & Hgqk).
  cbn [Py.bind Py.ret].
  eexists. split; [reflexivity|]. split; [exact Hsqk|].
  split; [apply wf_tmap; exact Hwqk|].
  intros b i j Hb Hi Hj.
  rewrite get_div_scalar;
    [|exact Hwqk|rewrite Hsqk; unfold in_bounds; repeat constructor; assumption].
  rewrite Hgqk by assumption. f_equal.
  apply sum_n_ext. intros c Hc. now rewrite Hgkt.
Qed.

(** On an input of the width of the module every step of [forward]
    succeeds; the projections, the scores, the masked scores, the weights and
    the output are related entry by entry as the code computes them. *)
Lemma CausalSelfAttention_forward_stages
  (self : CausalSelfAttention.t) (D B T : nat) (x : tensor R) (g : Generator) :
  CausalSelfAttention_dims self D -> shape x = [B; T; D] ->
  exists q k v S F out,
    linear (CausalSelfAttention.query self) x = Py.ret q
    /\ linear (CausalSelfAttention.key self) x = Py.ret k
    /\ linear (CausalSelfAttention.value self) x = Py.ret v
    /\ CausalSelfAttention.pre_mask_scores self x = Py.ret S
    /\ shape S = [B; T; T]
    /\ (forall b i j, (b < B)%nat -> (i < T)%nat -> (j < T)%nat ->
          get S [b; i; j]
          = sum_n D (fun c => get q [b; i; c] * get k [b; j; c])
            / CausalSelfAttention.scale self)
    /\ shape F = [B; T; T]
    /\ (forall b i j, (b < B)%nat -> (i < T)%nat -> (j < T)%nat ->
          get F [b; i; j] = if (j <=? i)%nat then get S [b; i; j] else neg_fill)
    /\ CausalSelfAttention.forward self x g
       = Py.ret (out,
                 fst (dropout (CausalSelfAttention.dropout_p self)
                        (CausalSelfAttention.training self) (softmax F) g),
                 snd (dropout (CausalSelfAttention.dropout_p self)
                        (CausalSelfAttention.training self) (softmax F) g))
    /\ shape out = [B; T; D]
    /\ (forall b i c, (b < B)%nat -> (i < T)%nat -> (c < D)%nat ->
          get out [b; i; c]
          = sum_n T (fun j =>
                       get (fst (dropout (CausalSelfAttention.dropout_p self)
                                   (CausalSelfAttention.training self) (softmax F) g))
                         [b; i; j]
                       * get v [b; j; c])).
Proof.
  intros (Iq & Oq & Ik & Ok & Iv & Ov) Hx.
  unfold CausalSelfAttention.forward, CausalSelfAttention.pre_mask_scores.
  rewrite Hx.
  destruct (@linear_ok (CausalSelfAttention.query self) x [B; T])
    as (q & Eq & Hsq & _); [now rewrite Iq|].
  rewrite Eq. rewrite Oq in Hsq. cbn [Py.bind Py.ret].
  destruct (@linear_ok (CausalSelfAttention.key self) x [B; T])
    as (k & Ek & Hsk & _); [now rewrite Ik|].
  rewrite Ek. rewrite Ok in Hsk. cbn [Py.bind Py.ret].
  destruct (@linear_ok (CausalSelfAttention.value self) x [B; T])
    as (v & Ev & Hsv & _); [now rewrite Iv|].
  rewrite Ev. rewrite Ov in Hsv. cbn [Py.bind Py.ret].
  destruct (@CausalSelfAttention_raw_scores_get self q k B T D Hsq Hsk)
    as (S & -> & HsS & HwS & HgS).
  cbn [Py.bind Py.ret].
  destruct (@masked_fill_ok S (eq_scalar (CausalSelfAttention.causal_mask T) 0) neg_fill)
    as (F & -> & HsF & _ & HgF).
  { rewrite HsS. apply broadcast_causal_mask. }
  rewrite HsS in HsF, HgF. cbn [Py.bind Py.ret].
  pose proof (shape_dropout (CausalSelfAttention.dropout_p self)
                (CausalSelfAttention.training self) (softmax F) g) as HsW.
  destruct (dropout (CausalSelfAttention.dropout_p self)
              (CausalSelfAttention.training self) (softmax F) g) as [W g'] eqn:Hdrop.
  cbn [fst snd] in *. rewrite shape_softmax, HsF in HsW.
  destruct (@bmm_ok W v B T T D HsW Hsv) as (out & -> & Hsout & _ & Hgout).
  cbn [Py.bind Py.ret].
  exists q, k, v, S, F, out. rewrite Hdrop. cbn [fst snd].
  repeat split; try assumption; try reflexivity.
  intros b i j Hb Hi Hj.
  rewrite HgF by (unfold in_bounds; repeat constructor; assumption).
  rewrite (@bget_causal_condition B T b i j Hb Hi Hj).
  destruct (j <=? i)%nat; reflexivity.
Qed.

End CausalSelfAttentionStages.

(* ================================================================= *)
(** ** What [CausalSelfAttention.forward] computes                    *)
(* ================================================================= *)

Section CausalSelfAttentionResults.

(** X20.  The scores of [CausalSelfAttention.forward] before masking: the dot
    product of the projected query row [i] with the projected key row [j],
    over the whole width, divided by [self.scale = sqrt embedding_dim]. *)
Theorem CausalSelfAttention_scores_formula
  (d : Z) (p : R) (w : CausalSelfAttention.InitValues) (self : CausalSelfAttention.t)
  (B T : nat) (x : tensor R) :
  CausalSelfAttention.__init__ d p w = Py.ret self ->
  shape x = [B; T; Z.to_nat d] ->
  exists q k S,
    linear (CausalSelfAttention.query self) x = Py.ret q
    /\ linear (CausalSelfAttention.key self) x = Py.ret k
    /\ CausalSelfAttention.pre_mask_scores self x = Py.ret S
    /\ shape S = [B; T; T]
    /\ forall b i j, (b < B)%nat -> (i < T)%nat -> (j < T)%nat ->
         get S [b; i; j]
         = sum_n (Z.to_nat d) (fun c => get q [b; i; c] * get k [b; j; c])
           / sqrt (IZR d).
Proof.
  intros Hinit Hx.
  pose proof (@CausalSelfAttention_dims_of_init d p w self Hinit) as Hdims.
  destruct (@CausalSelfAttention_init_fields d p w self Hinit) as (_ & _ & _ & Esc & _).
  destruct (@CausalSelfAttention_forward_stages self _ B T x gen_keep Hdims Hx)
    as (q & k & v & S & F & out & Eq & Ek & _ & ES & HsS & HgS & _).
  rewrite Esc in HgS. exists q, k, S. repeat split; assumption.
Qed.

Lemma CausalSelfAttention_scores_formula_witness :
  exists self,
    CausalSelfAttention.__init__ 1 0 causal_init_large = Py.ret self
    /\ exists q k S,
         linear (CausalSelfAttention.query self) x_large = Py.ret q
         /\ linear (CausalSelfAttention.key self) x_large = Py.ret k
         /\ CausalSelfAttention.pre_mask_scores self x_large = Py.ret S
         /\ shape S = [1; 2; 2]%nat
         /\ forall b i j, (b < 1)%nat -> (i < 2)%nat -> (j < 2)%nat ->
              get S [b; i; j]
              = sum_n (Z.to_nat 1) (fun c => get q [b; i; c] * get k [b; j; c])
                / sqrt (IZR 1).
Proof.
  destruct (@CausalSelfAttention_init_succeeds 1 0 causal_init_large)
    as [self Hself]; try lia; try lra.
  exists self. split; [exact Hself|].
  exact (@CausalSelfAttention_scores_formula 1 0 causal_init_large self 1 2 x_large
           Hself eq_refl).
Defined.

(** X21.  The output of [CausalSelfAttention.forward] is, row by row, the sum of
    the projected value rows weighted by the returned weights: the weights
    after dropout, the very tensor [forward] returns beside the output. *)
Theorem CausalSelfAttention_output_formula
  (d : Z) (p : R) (w : CausalSelfAttention.InitValues) (self : CausalSelfAttention.t)
  (B T : nat) (x : tensor R) (g : Generator) :
  CausalSelfAttention.__init__ d p w = Py.ret self ->
  shape x = [B; T; Z.to_nat d] ->
  exists v out W g',
    linear (CausalSelfAttention.value self) x = Py.ret v
    /\ CausalSelfAttention.forward self x g = Py.ret (out, W, g')
    /\ forall b i c, (b < B)%nat -> (i < T)%nat -> (c < Z.to_nat d)%nat ->
         get out [b; i; c] = sum_n T (fun j => get W [b; i; j] * get v [b; j; c]).
Proof.
  intros Hinit Hx.
  pose proof (@CausalSelfAttention_dims_of_init d p w self Hinit) as Hdims.
  destruct (@CausalSelfAttention_forward_stages self _ B T x g Hdims Hx)
    as (q & k & v & S & F & out & _ & _ & Ev & _ & _ & _ & _ & _ & Hfw & _ & Hgout).
  exists v, out. eexists _, _. split; [exact Ev|]. split; [exact Hfw|]. exact Hgout.
Qed.

Lemma CausalSelfAttention_output_formula_witness :
  exists self,
    CausalSelfAttention.__init__ 1 (1 / 2) causal_init_large = Py.ret self
    /\ exists v out W g',
         linear (CausalSelfAttention.value self) x_large = Py.ret v
         /\ CausalSelfAttention.forward self x_large gen_keep_then_drop
            = Py.ret (out, W, g')
         /\ forall b i c, (b < 1)%nat -> (i < 2)%nat -> (c < Z.to_nat 1)%nat ->
              get out [b; i; c] = sum_n 2 (fun j => get W [b; i; j] * get v [b; j; c]).
Proof.
  destruct (@CausalSelfAttention_init_succeeds 1 (1 / 2) causal_init_large)
    as [self Hself]; try lia; try lra.
  exists self. split; [exact Hself|].
  exact (@CausalSelfAttention_output_formula 1 (1 / 2) causal_init_large self 1 2 x_large
           gen_keep_then_drop Hself eq_refl).
Defined.




(** X23.  After construction (training mode) with a positive width and a
    dropout probability strictly between 0 and 1, every weight [forward]
    returns is either 0 or the softmax weight of the masked scores divided by
    [1 - p]: the returned rows are not the softmax rows and need not sum to
    1. *)
Theorem CausalSelfAttention_training_weights
  (d : Z) (p : R) (w : CausalSelfAttention.InitValues) (self : CausalSelfAttention.t)
  (B T : nat) (x : tensor R) (g : Generator) :
  CausalSelfAttention.__init__ d p w = Py.ret self ->
  (0 < d)%Z -> 0 < p < 1 ->
  shape x = [B; T; Z.to_nat d] ->
  exists S F out W g',
    CausalSelfAttention.pre_mask_scores self x = Py.ret S
    /\ shape F = [B; T; T]
    /\ (forall b i j, (b < B)%nat -> (i < T)%nat -> (j < T)%nat ->
          get F [b; i; j] = if (j <=? i)%nat then get S [b; i; j] else neg_fill)
    /\ CausalSelfAttention.forward self x g = Py.ret (out, W, g')
    /\ (forall b i j, (b < B)%nat -> (i < T)%nat -> (j < T)%nat ->
          get W [b; i; j] = 0
          \/ get W [b; i; j] = get (softmax F) [b; i; j] / (1 - p)).
Proof.
  intros Hinit _ Hp Hx.
  pose proof (@CausalSelfAttention_dims_of_init d p w self Hinit) as Hdims.
  destruct (@CausalSelfAttention_init_fields d p w self Hinit)
    as (_ & _ & _ & _ & _ & _ & _ & _ & _ & _ & Ep & Et).
  destruct (@CausalSelfAttention_forward_stages self _ B T x g Hdims Hx)
    as (q & k & v & S & F & out & _ & _ & _ & ES & _ & _ & HsF & HgF & Hfw & _).
  rewrite Ep, Et in Hfw.
  exists S, F, out. eexists _, _.
  split; [exact ES|]. split; [exact HsF|]. split; [exact HgF|]. split; [exact Hfw|].
  intros b i j Hb Hi Hj.
  rewrite get_dropout_active;
    [|apply wf_softmax
     |rewrite shape_softmax, HsF; unfold in_bounds; repeat constructor; assumption
     |lra|lra].
  destruct (Rlt_dec _ _); [right|left]; unfold Rdiv; lra.
Qed.

Lemma CausalSelfAttention_training_weights_witness :
  exists self,
    CausalSelfAttention.__init__ 2 (1 / 10) causal_init_varied = Py.ret self
    /\ exists S F out W g',
         CausalSelfAttention.pre_mask_scores self x_triple = Py.ret S
         /\ shape F = [1; 3; 3]%nat
         /\ (forall b i j, (b < 1)%nat -> (i < 3)%nat -> (j < 3)%nat ->
               get F [b; i; j] = if (j <=? i)%nat then get S [b; i; j] else neg_fill)
         /\ CausalSelfAttention.forward self x_triple gen_keep_then_drop
            = Py.ret (out, W, g')
         /\ (forall b i j, (b < 1)%nat -> (i < 3)%nat -> (j < 3)%nat ->
               get W [b; i; j] = 0
               \/ get W [b; i; j] = get (softmax F) [b; i; j] / (1 - 1 / 10)).
Proof.
  destruct (@CausalSelfAttention_init_succeeds 2 (1 / 10) causal_init_varied)
    as [self Hself]; try lia; try lra.
  exists self. split; [exact Hself|].
  apply (@CausalSelfAttention_training_weights 2 (1 / 10) causal_init_varied self 1 3
           x_triple gen_keep_then_drop Hself); [lia|lra|reflexivity].
Defined.

(** X24.  The batch elements are computed independently: two inputs of one shape
    that agree on batch element [b] get the same output rows and the same
    weights for [b], whatever the other batch elements hold -- in training
    mode too, the samples being drawn by position. *)
Theorem CausalSelfAttention_batch_independence
  (self : CausalSelfAttention.t) (D B T : nat) (x x' : tensor R) (g : Generator)
  (b : nat) :
  CausalSelfAttention_dims self D ->
  shape x = [B; T; D] -> shape x' = [B; T; D] -> (b < B)%nat ->
  (forall i c, (i < T)%nat -> (c < D)%nat -> get x [b; i; c] = get x' [b; i; c]) ->
  exists out W g1 out' W' g1',
    CausalSelfAttention.forward self x g = Py.ret (out, W, g1)
    /\ CausalSelfAttention.forward self x' g = Py.ret (out', W', g1')
    /\ (forall i c, (i < T)%nat -> (c < D)%nat -> get out [b; i; c] = get out' [b; i; c])
    /\ (forall i j, (i < T)%nat -> (j < T)%nat -> get W [b; i; j] = get W' [b; i; j]).
Proof.
  intros Hdims Hx Hx' Hb Hsame.
  pose proof Hdims as (Iq & Oq & Ik & Ok & Iv & Ov).
  destruct (@CausalSelfAttention_forward_stages self D B T x g Hdims Hx)
    as (q & k & v & S & F & out & Eq & Ek & Ev & _ & _ & HgS & HsF & HgF & Hfw & _ & Hgout).
  destruct (@CausalSelfAttention_forward_stages self D B T x' g Hdims Hx')
    as (q' & k' & v' & S' & F' & out' & Eq' & Ek' & Ev' & _ & _ & HgS' & HsF' & HgF'
        & Hfw' & _ & Hgout').
  assert (Hlin : forall (l : Linear) y y',
             in_features l = D -> out_features l = D ->
             linear l x = Py.ret y -> linear l x' = Py.ret y' ->
             forall i c, (i < T)%nat -> (c < D)%nat -> get y [b; i; c] = get y' [b; i; c]).
  { intros l y y' Il Ol Ey Ey' i c Hi Hc.
    destruct (@linear_get_rank3 l x B T) as (y0 & Ey0 & _ & _ & Hgy);
      [now rewrite Il|].
    destruct (@linear_get_rank3 l x' B T) as (y0' & Ey0' & _ & _ & Hgy');
      [now rewrite Il|].
    rewrite Ey in Ey0. injection Ey0 as <-.
    rewrite Ey' in Ey0'. injection Ey0' as <-.
    rewrite Hgy, Hgy' by (try assumption; now rewrite Ol).
    f_equal. apply sum_n_ext. intros e He. rewrite Il in He. now rewrite Hsame. }
  pose proof (Hlin _ q q' Iq Oq Eq Eq') as Hq.
  pose proof (Hlin _ k k' Ik Ok Ek Ek') as Hk.
  pose proof (Hlin _ v v' Iv Ov Ev Ev') as Hv.
  assert (HF : forall i j, (i < T)%nat -> (j < T)%nat -> get F [b; i; j] = get F' [b; i; j]).
  { intros i j Hi Hj. rewrite HgF, HgF' by assumption.
    destruct (j <=? i)%nat; [|reflexivity].
    rewrite HgS, HgS' by assumption. f_equal.
    apply sum_n_ext. intros c Hc. now rewrite Hq, Hk. }
  assert (HW : forall i j, (i < T)%nat -> (j < T)%nat ->
             get (fst (dropout (CausalSelfAttention.dropout_p self)
                         (CausalSelfAttention.training self) (softmax F) g)) [b; i; j]
             = get (fst (dropout (CausalSelfAttention.dropout_p self)
                           (CausalSelfAttention.training self) (softmax F') g)) [b; i; j]).
  { intros i j Hi Hj. apply get_dropout_ext; try apply wf_softmax.
    - now rewrite !shape_softmax, HsF, HsF'.
    - rewrite shape_softmax, HsF. unfold in_bounds; repeat constructor; assumption.
    - rewrite (@get_softmax_rank3 F B T T b i j HsF Hb Hi Hj).
      rewrite (@get_softmax_rank3 F' B T T b i j HsF' Hb Hi Hj).
      rewrite HF by assumption. f_equal.
      apply sum_n_ext. intros e He. now rewrite HF. }
  exists out. eexists _, _. exists out'. eexists _, _.
  split; [exact Hfw|]. split; [exact Hfw'|]. split; [|exact HW].
  intros i c Hi Hc. rewrite Hgout, Hgout' by assumption.
  apply sum_n_ext. intros j Hj. now rewrite HW, Hv.
Qed.

Lemma CausalSelfAttention_batch_independence_witness :
  exists self,
    CausalSelfAttention.__init__ 1 (1 / 2) causal_init_large = Py.ret self
    /\ exists out W g1 out' W' g1',
         CausalSelfAttention.forward self x_two_batches gen_keep_then_drop
         = Py.ret (out, W, g1)
         /\ CausalSelfAttention.forward self x_two_batches_other gen_keep_then_drop
            = Py.ret (out', W', g1')
         /\ (forall i c, (i < 1)%nat -> (c < 1)%nat ->
               get out [0; i; c]%nat = get out' [0; i; c]%nat)
         /\ (forall i j, (i < 1)%nat -> (j < 1)%nat ->
               get W [0; i; j]%nat = get W' [0; i; j]%nat).
Proof.
  destruct (@CausalSelfAttention_init_succeeds 1 (1 / 2) causal_init_large)
    as [self Hself]; try lia; try lra.
  exists self. split; [exact Hself|].
  apply (@CausalSelfAttention_batch_independence self 1 2 1
           x_two_batches x_two_batches_other gen_keep_then_drop 0);
    try reflexivity; try lia.
  - exact (@CausalSelfAttention_dims_of_init 1 (1 / 2) causal_init_large self Hself).
  - intros i c Hi Hc. assert (i = 0%nat) by lia. assert (c = 0%nat) by lia.
    subst. reflexivity.
Defined.

End CausalSelfAttentionResults.

(* ================================================================= *)
(** ** The output of the multi-head modules                           *)
(* ================================================================= *)

Section MultiHeadOutputs.

(** The heads of a context of shape (B, H, T, d_k), moved behind the
    positions and merged: feature [h * d_k + c] of position [t] is feature
    [c] of head [h]. *)
Lemma get_merged (pc c : tensor R) (B H T dk b t h e : nat) :
  shape pc = [B; T; H; dk] ->
  (forall b t h e, (b < B)%nat -> (t < T)%nat -> (h < H)%nat -> (e < dk)%nat ->
     get pc [b; t; h; e] = get c [b; h; t; e]) ->
  (b < B)%nat -> (t < T)%nat -> (h < H)%nat -> (e < dk)%nat ->
  get (mk_tensor [B; T; (H * dk)%nat] (data pc)) [b; t; (h * dk + e)%nat]
  = get c [b; h; t; e].
Proof.
  intros Hs Hg Hb Ht Hh He.
  rewrite <- Hg by assumption.
  rewrite <- (@get_view_heads R _ (mk_tensor [B; T; (H * dk)%nat] (data pc))
                B T H dk b t h e eq_refl Hh He).
  cbn [data]. destruct pc as [s dt]. cbn [shape data] in *. now subst.
Qed.

(** X25.  The output of [MultiHeadAttention.forward]: the context of head [h] is
    the sum of the projected value rows, restricted to the features of that
    head, weighted by the returned weights of that head; the contexts of the
    heads are laid side by side, head [h] on the features
    [h * d_k .. h * d_k + d_k - 1], and sent through the output projection. *)
Theorem MultiHeadAttention_output_formula
  (d h : Z) (p : R) (w : MultiHeadAttention.InitValues) (self : MultiHeadAttention.t)
  (B Tq Tk : nat) (query key value : tensor R) (mask : option (tensor R))
  (g : Generator) :
  MultiHeadAttention.__init__ d h p w = Py.ret self ->
  (0 < h)%Z -> (0 < d)%Z -> (0 < B)%nat ->
  shape query = [B; Tq; Z.to_nat d] ->
  shape key = [B; Tk; Z.to_nat d] ->
  shape value = [B; Tk; Z.to_nat d] ->
  mask_fits [B; Z.to_nat h; Tq; Tk] mask ->
  exists v context out W g',
    linear (MultiHeadAttention.value_proj self) value = Py.ret v
    /\ MultiHeadAttention.forward self query key value mask g = Py.ret (out, W, g')
    /\ shape context = [B; Tq; Z.to_nat d]
    /\ (forall b i hd c,
          (b < B)%nat -> (i < Tq)%nat -> (hd < Z.to_nat h)%nat ->
          (c < Z.to_nat (d / h))%nat ->
          get context [b; i; (hd * Z.to_nat (d / h) + c)%nat]
          = sum_n Tk (fun j => get W [b; hd; i; j]
                               * get v [b; j; (hd * Z.to_nat (d / h) + c)%nat]))
    /\ (forall b i o, (b < B)%nat -> (i < Tq)%nat -> (o < Z.to_nat d)%nat ->
          get out [b; i; o]
          = sum_n (Z.to_nat d)
              (fun e => get context [b; i; e]
                        * get (weight (MultiHeadAttention.output_proj self)) [o; e])
            + get (bias (MultiHeadAttention.output_proj self)) [o]).
Proof.
  intros Hinit Hh Hd HB Xq Xk Xv Hm.
  pose proof (@MultiHeadAttention_dims_of_init d h p w self Hinit Hh) as Hdims.
  destruct (@MultiHeadAttention_forward_stages self _ _ _ B Tq Tk Tk query key value
              Hdims HB ltac:(lia) Xq Xk Xv)
    as (q & k & v & S & V & _ & _ & Ev & _ & _ & _ & _ & HsS & HwS & _
        & HsV & _ & HgV & Hfw).
  rewrite Hfw. clear Hfw. unfold MultiHeadAttention_finish.
  destruct (@fill_mask_ok mask S _ HsS HwS Hm) as (F & -> & HsF & _ & _).
  cbn [Py.bind Py.ret].
  pose proof (shape_dropout (MultiHeadAttention.dropout_p self)
                (MultiHeadAttention.training self) (softmax F) g) as HsW.
  destruct (dropout (MultiHeadAttention.dropout_p self)
              (MultiHeadAttention.training self) (softmax F) g) as [W g'].
  cbn [fst snd] in HsW. rewrite shape_softmax, HsF in HsW.
  destruct (@matmul_rank4_ok W V B _ Tq Tk _ HsW HsV) as (c & -> & Hsc & _ & Hgc).
  cbn [Py.bind Py.ret].
  destruct (@merge_heads_ok self _ _ _ B Tq c Hdims HB ltac:(lia) Hsc)
    as (pc & _ & -> & Hspc & _ & Hgpc).
  cbn [Py.bind Py.ret].
  pose proof Hdims as (_ & _ & _ & ED & _ & _ & _ & _ & _ & _ & Io & Oo).
  destruct (@linear_get_rank3 (MultiHeadAttention.output_proj self)
              (mk_tensor [B; Tq; Z.to_nat d] (data pc)) B Tq)
    as (out & -> & _ & _ & Hgout); [cbn [shape]; now rewrite Io|].
  cbn [Py.bind Py.ret]. rewrite Io, Oo in Hgout.
  exists v, (mk_tensor [B; Tq; Z.to_nat d] (data pc)), out, W, g'.
  split; [exact Ev|]. split; [reflexivity|]. split; [reflexivity|].
  split; [|exact Hgout].
  intros b i hd e Hb Hi Hhd He.
  rewrite ED at 1.
  rewrite (@get_merged pc c B _ Tq _ b i hd e Hspc Hgpc Hb Hi Hhd He).
  rewrite Hgc by assumption.
  apply sum_n_ext. intros j Hj. now rewrite HgV.
Qed.

Lemma MultiHeadAttention_output_formula_witness :
  exists self,
    MultiHeadAttention.__init__ 4 2 0 mha_init0 = Py.ret self
    /\ exists v context out W g',
         linear (MultiHeadAttention.value_proj self) x_two_heads = Py.ret v
         /\ MultiHeadAttention.forward self x_two_heads x_two_heads x_two_heads None
              gen_keep
            = Py.ret (out, W, g')
         /\ shape context = [1; 2; Z.to_nat 4]%nat
         /\ (forall b i hd c,
               (b < 1)%nat -> (i < 2)%nat -> (hd < Z.to_nat 2)%nat ->
               (c < Z.to_nat (4 / 2))%nat ->
               get context [b; i; (hd * Z.to_nat (4 / 2) + c)%nat]
               = sum_n 2 (fun j => get W [b; hd; i; j]
                                   * get v [b; j; (hd * Z.to_nat (4 / 2) + c)%nat]))
         /\ (forall b i o, (b < 1)%nat -> (i < 2)%nat -> (o < Z.to_nat 4)%nat ->
               get out [b; i; o]
               = sum_n (Z.to_nat 4)
                   (fun e => get context [b; i; e]
                             * get (weight (MultiHeadAttention.output_proj self)) [o; e])
                 + get (bias (MultiHeadAttention.output_proj self)) [o]).
Proof.
  destruct (@MultiHeadAttention_init_succeeds 4 2 0 mha_init0)
    as [self Hself]; try lia; try reflexivity; try lra.
  exists self. split; [exact Hself|].
  apply (@MultiHeadAttention_output_formula 4 2 0 mha_init0 self 1 2 2
           x_two_heads x_two_heads x_two_heads None gen_keep Hself);
    try lia; try reflexivity.
Defined.

(** X26.  The output of [GroupedQueryAttention.forward]: the context of query
    head [h] is the sum of the projected value rows, restricted to the
    features of the value head [h / kv_groups], weighted by the returned
    weights of head [h]; the contexts are laid side by side and sent through
    the output projection. *)
Theorem GroupedQueryAttention_output_formula
  (d nq nkv : Z) (p : R) (w : GroupedQueryAttention.InitValues)
  (self : GroupedQueryAttention.t)
  (B Tq Tk : nat) (query key value : tensor R) (mask : option (tensor R))
  (g : Generator) :
  GroupedQueryAttention.__init__ d nq nkv p w = Py.ret self ->
  (0 < nq)%Z -> (0 < nkv)%Z ->
  shape query = [B; Tq; Z.to_nat d] ->
  shape key = [B; Tk; Z.to_nat d] ->
  shape value = [B; Tk; Z.to_nat d] ->
  mask_fits [B; Z.to_nat nq; Tq; Tk] mask ->
  exists v context out W g',
    linear (GroupedQueryAttention.value_proj self) value = Py.ret v
    /\ shape v = [B; Tk; (Z.to_nat nkv * Z.to_nat (d / nq))%nat]
    /\ GroupedQueryAttention.forward self query key value mask g = Py.ret (out, W, g')
    /\ shape context = [B; Tq; Z.to_nat d]
    /\ (forall b i hd c,
          (b < B)%nat -> (i < Tq)%nat -> (hd < Z.to_nat nq)%nat ->
          (c < Z.to_nat (d / nq))%nat ->
          get context [b; i; (hd * Z.to_nat (d / nq) + c)%nat]
          = sum_n Tk
              (fun j => get W [b; hd; i; j]
                        * get v [b; j; (hd / Z.to_nat (nq / nkv) * Z.to_nat (d / nq)
                                        + c)%nat]))
    /\ (forall b i o, (b < B)%nat -> (i < Tq)%nat -> (o < Z.to_nat d)%nat ->
          get out [b; i; o]
          = sum_n (Z.to_nat d)
              (fun e => get context [b; i; e]
                        * get (weight (GroupedQueryAttention.output_proj self)) [o; e])
            + get (bias (GroupedQueryAttention.output_proj self)) [o]).
Proof.
  intros Hinit Hq Hkv Xq Xk Xv Hm.
  pose proof (@GroupedQueryAttention_dims_of_init d nq nkv p w self Hinit Hq Hkv) as Hdims.
  destruct (@GroupedQueryAttention_forward_stages self _ _ _ _ _ B Tq Tk query key value
              Hdims Xq Xk Xv)
    as (q & k & v & S & V & _ & _ & Ev & _ & _ & Hsv & _ & HsS & HwS & _
        & HsV & _ & HgV & Hfw).
  rewrite Hfw. clear Hfw. unfold GroupedQueryAttention_finish.
  destruct (@fill_mask_ok mask S _ HsS HwS Hm) as (F & -> & HsF & _ & _).
  cbn [Py.bind Py.ret].
  pose proof (shape_dropout (GroupedQueryAttention.dropout_p self)
                (GroupedQueryAttention.training self) (softmax F) g) as HsW.
  destruct (dropout (GroupedQueryAttention.dropout_p self)
              (GroupedQueryAttention.training self) (softmax F) g) as [W g'].
  cbn [fst snd] in HsW. rewrite shape_softmax, HsF in HsW.
  destruct (@matmul_rank4_ok W V B _ Tq Tk _ HsW HsV) as (c & -> & Hsc & _ & Hgc).
  cbn [Py.bind Py.ret].
  destruct (@transpose_12_rank4_ok R _ c B _ Tq _ Hsc) as (pc & -> & Hspc & _ & Hgpc).
  cbn [Py.bind Py.ret]. unfold contiguous.
  pose proof Hdims as (EDm & _ & _ & _ & _ & ED & _ & _ & _ & _ & _ & _ & _ & _ & Io & Oo).
  rewrite EDm.
  rewrite (@view_exact3_ok R pc B Tq (Z.to_nat d))
    by (rewrite Hspc; cbn [numel fold_right]; rewrite ED; lia).
  cbn [Py.bind Py.ret].
  destruct (@linear_get_rank3 (GroupedQueryAttention.output_proj self)
              (mk_tensor [B; Tq; Z.to_nat d] (data pc)) B Tq)
    as (out & -> & _ & _ & Hgout); [cbn [shape]; now rewrite Io|].
  cbn [Py.bind Py.ret]. rewrite Io, Oo in Hgout.
  exists v, (mk_tensor [B; Tq; Z.to_nat d] (data pc)), out, W, g'.
  split; [exact Ev|]. split; [exact Hsv|]. split; [reflexivity|]. split; [reflexivity|].
  split; [|exact Hgout].
  intros b i hd e Hb Hi Hhd He.
  rewrite ED at 1.
  rewrite (@get_merged pc c B _ Tq _ b i hd e Hspc Hgpc Hb Hi Hhd He).
  rewrite Hgc by assumption.
  apply sum_n_ext. intros j Hj. now rewrite HgV.
Qed.

Lemma GroupedQueryAttention_output_formula_witness :
  exists self,
    GroupedQueryAttention.__init__ 8 4 2 0 gqa_init_varied = Py.ret self
    /\ exists v context out W g',
         linear (GroupedQueryAttention.value_proj self) x_eight = Py.ret v
         /\ shape v = [1; 2; (Z.to_nat 2 * Z.to_nat (8 / 4))]%nat
         /\ GroupedQueryAttention.forward self x_eight x_eight x_eight
              (Some mask_lower_two) gen_keep
            = Py.ret (out, W, g')
         /\ shape context = [1; 2; Z.to_nat 8]%nat
         /\ (forall b i hd c,
               (b < 1)%nat -> (i < 2)%nat -> (hd < Z.to_nat 4)%nat ->
               (c < Z.to_nat (8 / 4))%nat ->
               get context [b; i; (hd * Z.to_nat (8 / 4) + c)%nat]
               = sum_n 2
                   (fun j => get W [b; hd; i; j]
                             * get v [b; j; (hd / Z.to_nat (4 / 2) * Z.to_nat (8 / 4)
                                             + c)%nat]))
         /\ (forall b i o, (b < 1)%nat -> (i < 2)%nat -> (o < Z.to_nat 8)%nat ->
               get out [b; i; o]
               = sum_n (Z.to_nat 8)
                   (fun e => get context [b; i; e]
                             * get (weight (GroupedQueryAttention.output_proj self)) [o; e])
                 + get (bias (GroupedQueryAttention.output_proj self)) [o]).
Proof.
  destruct (@GroupedQueryAttention_init_succeeds 8 4 2 0 gqa_init_varied)
    as [self Hself]; try lia; try reflexivity; try lra.
  exists self. split; [exact Hself|].
  apply (@GroupedQueryAttention_output_formula 8 4 2 0 gqa_init_varied self 1 2 2
           x_eight x_eight x_eight (Some mask_lower_two) gen_keep Hself);
    try lia; try reflexivity.
  split; reflexivity.
Defined.

End MultiHeadOutputs.

(* ================================================================= *)
(** ** Errors raised by [GroupedQueryAttention.forward]               *)
(* ================================================================= *)

Section GroupedQueryAttentionErrors.

Lemma view_exact4_mismatch (A : Type) (x : tensor A) (B T H K : nat) :
  numel (shape x) <> (B * (T * (H * K)))%nat ->
  view x [Z.of_nat B; Z.of_nat T; Z.of_nat H; Z.of_nat K]
  = Py.raise (Py.RuntimeError "shape is invalid for input size").
Proof.
  intros Hn. unfold view, infer_size.
  cbn [existsb filter count_occ map].
  destruct (Z.ltb_spec (Z.of_nat B) (-1)); [lia|].
  destruct (Z.ltb_spec (Z.of_nat T) (-1)); [lia|].
  destruct (Z.ltb_spec (Z.of_nat H) (-1)); [lia|].
  destruct (Z.ltb_spec (Z.of_nat K) (-1)); [lia|].
  destruct (Z.eqb_spec (Z.of_nat B) (-1)); [lia|].
  destruct (Z.eqb_spec (Z.of_nat T) (-1)); [lia|].
  destruct (Z.eqb_spec (Z.of_nat H) (-1)); [lia|].
  destruct (Z.eqb_spec (Z.of_nat K) (-1)); [lia|].
  destruct (Z.eq_dec (Z.of_nat B) (-1)); [lia|].
  destruct (Z.eq_dec (Z.of_nat T) (-1)); [lia|].
  destruct (Z.eq_dec (Z.of_nat H) (-1)); [lia|].
  destruct (Z.eq_dec (Z.of_nat K) (-1)); [lia|].
  cbn [orb negb map numel fold_right filter Py.bind Py.ret].
  rewrite !Nat2Z.id.
  destruct (Nat.eqb_spec (numel (shape x)) (B * (T * (H * (K * 1))))%nat)
    as [E|_]; [|reflexivity].
  exfalso. apply Hn. rewrite E. lia.
Qed.

(** X27.  In [GroupedQueryAttention.forward] the value is reshaped with the
    length of the key: a value of another length stops [forward] at that
    [view], before any score is computed. *)
Theorem GroupedQueryAttention_forward_value_length_mismatch
  (d nq nkv : Z) (p : R) (w : GroupedQueryAttention.InitValues)
  (self : GroupedQueryAttention.t)
  (B Tq Tk Tv : nat) (query key value : tensor R) (mask : option (tensor R))
  (g : Generator) :
  GroupedQueryAttention.__init__ d nq nkv p w = Py.ret self ->
  (0 < nq)%Z -> (0 < nkv)%Z -> (0 < d)%Z -> (0 < B)%nat ->
  shape query = [B; Tq; Z.to_nat d] ->
  shape key = [B; Tk; Z.to_nat d] ->
  shape value = [B; Tv; Z.to_nat d] ->
  Tv <> Tk ->
  GroupedQueryAttention.forward self query key value mask g
  = Py.raise (Py.RuntimeError "shape is invalid for input size").
Proof.
  intros Hinit Hq Hkv Hd HB Xq Xk Xv Hne.
  pose proof (@GroupedQueryAttention_dims_of_init d nq nkv p w self Hinit Hq Hkv)
    as (EDm & EHq & EHkv & EG & Edk & ED & EHqG & HG
        & Iq & Oq & Ik & Ok & Iv & Ov & Io & Oo).
  unfold GroupedQueryAttention.forward, size.
  rewrite Xq, Xk. cbn [nth_error Py.bind Py.ret].
  destruct (@linear_ok (GroupedQueryAttention.query_proj self) query [B; Tq])
    as (q1 & -> & Hsq1 & _); [now rewrite Iq|].
  rewrite Oq in Hsq1. cbn [Py.bind Py.ret app] in *.
  destruct (@linear_ok (GroupedQueryAttention.key_proj self) key [B; Tk])
    as (k1 & -> & Hsk1 & _); [now rewrite Ik|].
  rewrite Ok in Hsk1. cbn [Py.bind Py.ret app] in *.
  destruct (@linear_ok (GroupedQueryAttention.value_proj self) value [B; Tv])
    as (v1 & -> & Hsv1 & _); [now rewrite Iv|].
  rewrite Ov in Hsv1. cbn [Py.bind Py.ret app] in *.
  rewrite EHq, EHkv, Edk.
  destruct (@view_heads_ok q1 B Tq _ _ _ Hsq1 ED) as (q2 & q & -> & Hq3 & _).
  cbn [Py.bind Py.ret]. rewrite Hq3. cbn [Py.bind Py.ret].
  destruct (@view_heads_ok k1 B Tk _ _ _ Hsk1 (Nat.mul_comm _ _))
    as (k2 & k & -> & Hk3 & _).
  cbn [Py.bind Py.ret]. rewrite Hk3. cbn [Py.bind Py.ret].
  rewrite view_exact4_mismatch; [reflexivity|].
  rewrite Hsv1. cbn [numel fold_right].
  assert (0 < Z.to_nat d)%nat by lia.
  assert (0 < Z.to_nat (d / nq))%nat by nia.
  assert (0 < Z.to_nat nkv)%nat by lia.
  intros E. apply Hne.
  apply Nat.mul_cancel_l in E; [|lia].
  replace (Z.to_nat (d / nq) * Z.to_nat nkv * 1)%nat
    with (Z.to_nat nkv * Z.to_nat (d / nq))%nat in E by lia.
  apply Nat.mul_cancel_r in E; [exact E|nia].
Qed.

Lemma GroupedQueryAttention_forward_value_length_mismatch_witness :
  exists self,
    GroupedQueryAttention.__init__ 2 2 1 0 gqa_init0 = Py.ret self
    /\ GroupedQueryAttention.forward self x_two_features x_two_features x_example
         None gen_keep
       = Py.raise (Py.RuntimeError "shape is invalid for input size").
Proof.
  destruct (@GroupedQueryAttention_init_succeeds 2 2 1 0 gqa_init0)
    as [self Hself]; try lia; try reflexivity; try lra.
  exists self. split; [exact Hself|].
  apply (@GroupedQueryAttention_forward_value_length_mismatch 2 2 1 0 gqa_init0 self
           1 2 2 1 x_two_features x_two_features x_example None gen_keep Hself);
    try lia; try reflexivity.
Defined.

End GroupedQueryAttentionErrors.

(* ================================================================= *)
(** ** A mask with more query rows than the query                     *)
(* ================================================================= *)

Section OversizedMask.

Lemma fill_mask_shape (m S : tensor R) (s s' : list nat) :
  shape S = s -> broadcast_shapes s (shape m) = Py.ret s' ->
  exists F, fill_mask (Some m) S = Py.ret F /\ shape F = s'.
Proof.
  intros Hs Hbs. unfold fill_mask, masked_fill.
  rewrite Hs. cbn [eq_scalar tmap shape]. rewrite Hbs. cbn [Py.bind Py.ret].
  eexists. split; reflexivity.
Qed.

Lemma view_exact3_mismatch (A : Type) (x : tensor A) (B T D : nat) :
  numel (shape x) <> (B * (T * D))%nat ->
  view x [Z.of_nat B; Z.of_nat T; Z.of_nat D]
  = Py.raise (Py.RuntimeError "shape is invalid for input size").
Proof.
  intros Hn. unfold view, infer_size.
  cbn [existsb filter count_occ map].
  destruct (Z.ltb_spec (Z.of_nat B) (-1)); [lia|].
  destruct (Z.ltb_spec (Z.of_nat T) (-1)); [lia|].
  destruct (Z.ltb_spec (Z.of_nat D) (-1)); [lia|].
  destruct (Z.eqb_spec (Z.of_nat B) (-1)); [lia|].
  destruct (Z.eqb_spec (Z.of_nat T) (-1)); [lia|].
  destruct (Z.eqb_spec (Z.of_nat D) (-1)); [lia|].
  destruct (Z.eq_dec (Z.of_nat B) (-1)); [lia|].
  destruct (Z.eq_dec (Z.of_nat T) (-1)); [lia|].
  destruct (Z.eq_dec (Z.of_nat D) (-1)); [lia|].
  cbn [orb negb map numel fold_right filter Py.bind Py.ret].
  rewrite !Nat2Z.id.
  destruct (Nat.eqb_spec (numel (shape x)) (B * (T * (D * 1)))%nat)
    as [E|_]; [|reflexivity].
  exfalso. apply Hn. rewrite E. lia.
Qed.

(** X28.  The scores are broadcast against the mask: a mask with [Tm] query rows
    for a query that broadcasts to them (a single position) makes
    [MultiHeadAttention.forward] return [Tm] rows of weights and [Tm] output
    rows; the output then has not the shape of the query. *)
Theorem MultiHeadAttention_forward_mask_rows
  (d h : Z) (p : R) (w : MultiHeadAttention.InitValues) (self : MultiHeadAttention.t)
  (B Tq Tk Tm : nat) (query key value m : tensor R) (g : Generator) :
  MultiHeadAttention.__init__ d h p w = Py.ret self ->
  (0 < h)%Z -> (0 < d)%Z -> (0 < B)%nat ->
  shape query = [B; Tq; Z.to_nat d] ->
  shape key = [B; Tk; Z.to_nat d] ->
  shape value = [B; Tk; Z.to_nat d] ->
  broadcast_shapes [B; Z.to_nat h; Tq; Tk] (shape m) = Py.ret [B; Z.to_nat h; Tm; Tk] ->
  exists out W g',
    MultiHeadAttention.forward self query key value (Some m) g = Py.ret (out, W, g')
    /\ shape out = [B; Tm; Z.to_nat d]
    /\ shape W = [B; Z.to_nat h; Tm; Tk].
Proof.
  intros Hinit Hh Hd HB Xq Xk Xv Hbs.
  pose proof (@MultiHeadAttention_dims_of_init d h p w self Hinit Hh) as Hdims.
  destruct (@MultiHeadAttention_forward_stages self _ _ _ B Tq Tk Tk query key value
              Hdims HB ltac:(lia) Xq Xk Xv)
    as (q & k & v & S & V & _ & _ & _ & _ & _ & _ & _ & HsS & _ & _ & HsV & _ & _ & Hfw).
  rewrite Hfw. clear Hfw. unfold MultiHeadAttention_finish.
  destruct (@fill_mask_shape m S _ _ HsS Hbs) as (F & -> & HsF).
  cbn [Py.bind Py.ret].
  pose proof (shape_dropout (MultiHeadAttention.dropout_p self)
                (MultiHeadAttention.training self) (softmax F) g) as HsW.
  destruct (dropout (MultiHeadAttention.dropout_p self)
              (MultiHeadAttention.training self) (softmax F) g) as [W g'].
  cbn [fst snd] in HsW. rewrite shape_softmax, HsF in HsW.
  destruct (@matmul_rank4_ok W V B _ Tm Tk _ HsW HsV) as (c & -> & Hsc & _).
  cbn [Py.bind Py.ret].
  destruct (@merge_heads_ok self _ _ _ B Tm c Hdims HB ltac:(lia) Hsc)
    as (pc & _ & -> & _).
  cbn [Py.bind Py.ret].
  destruct Hdims as (_ & _ & _ & _ & _ & _ & _ & _ & _ & _ & Io & Oo).
  destruct (@linear_ok (MultiHeadAttention.output_proj self)
              (mk_tensor [B; Tm; Z.to_nat d] (data pc)) [B; Tm])
    as (out & -> & Hsout & _); [cbn [shape app]; now rewrite Io|].
  rewrite Oo in Hsout. cbn [Py.bind Py.ret].
  exists out, W, g'. repeat split; assumption.
Qed.

Lemma MultiHeadAttention_forward_mask_rows_witness :
  exists self,
    MultiHeadAttention.__init__ 2 1 0 mha_init0 = Py.ret self
    /\ exists out W g',
         MultiHeadAttention.forward self x_example v_two_positions v_two_positions
           (Some mask_three_rows) gen_keep
         = Py.ret (out, W, g')
         /\ shape out = [1; 3; Z.to_nat 2]%nat
         /\ shape W = [1; Z.to_nat 1; 3; 2]%nat.
Proof.
  destruct (@MultiHeadAttention_init_succeeds 2 1 0 mha_init0)
    as [self Hself]; try lia; try reflexivity; try lra.
  exists self. split; [exact Hself|].
  apply (@MultiHeadAttention_forward_mask_rows 2 1 0 mha_init0 self 1 1 2 3
           x_example v_two_positions v_two_positions mask_three_rows gen_keep Hself);
    try lia; reflexivity.
Defined.

(** X29.  [GroupedQueryAttention.forward] names the query length in its last
    [view]: the same mask, with more rows than the query, makes it raise
    there instead of returning more rows. *)
Theorem GroupedQueryAttention_forward_mask_rows
  (d nq nkv : Z) (p : R) (w : GroupedQueryAttention.InitValues)
  (self : GroupedQueryAttention.t)
  (B Tq Tk Tm : nat) (query key value m : tensor R) (g : Generator) :
  GroupedQueryAttention.__init__ d nq nkv p w = Py.ret self ->
  (0 < nq)%Z -> (0 < nkv)%Z -> (0 < d)%Z -> (0 < B)%nat ->
  shape query = [B; Tq; Z.to_nat d] ->
  shape key = [B; Tk; Z.to_nat d] ->
  shape value = [B; Tk; Z.to_nat d] ->
  broadcast_shapes [B; Z.to_nat nq; Tq; Tk] (shape m) = Py.ret [B; Z.to_nat nq; Tm; Tk] ->
  Tm <> Tq ->
  GroupedQueryAttention.forward self query key value (Some m) g
  = Py.raise (Py.RuntimeError "shape is invalid for input size").
Proof.
  intros Hinit Hq Hkv Hd HB Xq Xk Xv Hbs Hne.
  pose proof (@GroupedQueryAttention_dims_of_init d nq nkv p w self Hinit Hq Hkv) as Hdims.
  destruct (@GroupedQueryAttention_forward_stages self _ _ _ _ _ B Tq Tk query key value
              Hdims Xq Xk Xv)
    as (q & k & v & S & V & _ & _ & _ & _ & _ & _ & _ & HsS & _ & _ & HsV & _ & _ & Hfw).
  rewrite Hfw. clear Hfw. unfold GroupedQueryAttention_finish.
  destruct (@fill_mask_shape m S _ _ HsS Hbs) as (F & -> & HsF).
  cbn [Py.bind Py.ret].
  pose proof (shape_dropout (GroupedQueryAttention.dropout_p self)
                (GroupedQueryAttention.training self) (softmax F) g) as HsW.
  destruct (dropout (GroupedQueryAttention.dropout_p self)
              (GroupedQueryAttention.training self) (softmax F) g) as [W g'].
  cbn [fst snd] in HsW. rewrite shape_softmax, HsF in HsW.
  destruct (@matmul_rank4_ok W V B _ Tm Tk _ HsW HsV) as (c & -> & Hsc & _).
  cbn [Py.bind Py.ret].
  destruct (@transpose_12_rank4_ok R _ c B _ Tm _ Hsc) as (pc & -> & Hspc & _).
  cbn [Py.bind Py.ret]. unfold contiguous.
  destruct Hdims as (EDm & _ & _ & _ & _ & ED & _).
  rewrite EDm, view_exact3_mismatch; [reflexivity|].
  rewrite Hspc. cbn [numel fold_right].
  replace (Z.to_nat nq * (Z.to_nat (d / nq) * 1))%nat with (Z.to_nat d) by lia.
  intros E. apply Hne.
  apply Nat.mul_cancel_l in E; [|lia].
  apply Nat.mul_cancel_r in E; [exact E|lia].
Qed.

Lemma GroupedQueryAttention_forward_mask_rows_witness :
  exists self,
    GroupedQueryAttention.__init__ 2 1 1 0 gqa_init0 = Py.ret self
    /\ GroupedQueryAttention.forward self x_example v_two_positions v_two_positions
         (Some mask_three_rows) gen_keep
       = Py.raise (Py.RuntimeError "shape is invalid for input size").
Proof.
  destruct (@GroupedQueryAttention_init_succeeds 2 1 1 0 gqa_init0)
    as [self Hself]; try lia; try reflexivity; try lra.
  exists self. split; [exact Hself|].
  apply (@GroupedQueryAttention_forward_mask_rows 2 1 1 0 gqa_init0 self 1 1 2 3
           x_example v_two_positions v_two_positions mask_three_rows gen_keep Hself);
    try lia; reflexivity.
Defined.

End OversizedMask.

(* ================================================================= *)
(** ** Independence of the batch elements                             *)
(* ================================================================= *)

Section BatchIndependence.

Lemma linear_batch_agree (l : Linear) (x x' y y' : tensor R) (B T b : nat) :
  shape x = [B; T; in_features l] -> shape x' = [B; T; in_features l] ->
  (b < B)%nat ->
  (forall i c, (i < T)%nat -> (c < in_features l)%nat ->
     get x [b; i; c] = get x' [b; i; c]) ->
  linear l x = Py.ret y -> linear l x' = Py.ret y' ->
  forall i o, (i < T)%nat -> (o < out_features l)%nat ->
    get y [b; i; o] = get y' [b; i; o].
Proof.
  intros Hs Hs' Hb Hsame Ey Ey' i o Hi Ho.
  destruct (@linear_get_rank3 l x B T Hs) as (y0 & Ey0 & _ & _ & Hgy).
  destruct (@linear_get_rank3 l x' B T Hs') as (y0' & Ey0' & _ & _ & Hgy').
  rewrite Ey in Ey0. injection Ey0 as <-.
  rewrite Ey' in Ey0'. injection Ey0' as <-.
  rewrite Hgy, Hgy' by assumption.
  f_equal. apply sum_n_ext. intros e He. now rewrite Hsame.
Qed.

(** What [MultiHeadAttention.forward] does with the scores and the value
    heads, entry by entry. *)
Lemma MultiHeadAttention_finish_get
  (self : MultiHeadAttention.t) (D H dk B Tq Tk : nat) (S V : tensor R)
  (mask : option (tensor R)) (g : Generator) :
  MultiHeadAttention_dims self D H dk -> (0 < B)%nat -> (0 < D)%nat ->
  shape S = [B; H; Tq; Tk] -> wf S -> shape V = [B; H; Tk; dk] ->
  mask_fits [B; H; Tq; Tk] mask ->
  exists F context out,
    shape F = [B; H; Tq; Tk]
    /\ (forall idx, in_bounds [B; H; Tq; Tk] idx ->
          get F idx = if masked_at mask idx then neg_fill else get S idx)
    /\ MultiHeadAttention_finish self B S V mask g
       = Py.ret (out,
                 fst (dropout (MultiHeadAttention.dropout_p self)
                        (MultiHeadAttention.training self) (softmax F) g),
                 snd (dropout (MultiHeadAttention.dropout_p self)
                        (MultiHeadAttention.training self) (softmax F) g))
    /\ (forall b i hd c, (b < B)%nat -> (i < Tq)%nat -> (hd < H)%nat -> (c < dk)%nat ->
          get context [b; i; (hd * dk + c)%nat]
          = sum_n Tk
              (fun j => get (fst (dropout (MultiHeadAttention.dropout_p self)
                                    (MultiHeadAttention.training self) (softmax F) g))
                          [b; hd; i; j]
                        * get V [b; hd; j; c]))
    /\ (forall b i o, (b < B)%nat -> (i < Tq)%nat -> (o < D)%nat ->
          get out [b; i; o]
          = sum_n D
              (fun e => get context [b; i; e]
                        * get (weight (MultiHeadAttention.output_proj self)) [o; e])
            + get (bias (MultiHeadAttention.output_proj self)) [o]).
Proof.
  intros Hdims HB HD HsS HwS HsV Hm.
  unfold MultiHeadAttention_finish.
  destruct (@fill_mask_ok mask S _ HsS HwS Hm) as (F & -> & HsF & _ & HgF).
  cbn [Py.bind Py.ret].
  pose proof (shape_dropout (MultiHeadAttention.dropout_p self)
                (MultiHeadAttention.training self) (softmax F) g) as HsW.
  destruct (dropout (MultiHeadAttention.dropout_p self)
              (MultiHeadAttention.training self) (softmax F) g) as [W g'] eqn:Hdrop.
  cbn [fst snd] in HsW. rewrite shape_softmax, HsF in HsW.
  destruct (@matmul_rank4_ok W V B _ Tq Tk _ HsW HsV) as (c & -> & Hsc & _ & Hgc).
  cbn [Py.bind Py.ret].
  destruct (@merge_heads_ok self _ _ _ B Tq c Hdims HB HD Hsc)
    as (pc & _ & -> & Hspc & _ & Hgpc).
  cbn [Py.bind Py.ret].
  pose proof Hdims as (_ & _ & _ & ED & _ & _ & _ & _ & _ & _ & Io & Oo).
  destruct (@linear_get_rank3 (MultiHeadAttention.output_proj self)
              (mk_tensor [B; Tq; D] (data pc)) B Tq)
    as (out & -> & _ & _ & Hgout); [cbn [shape]; now rewrite Io|].
  cbn [Py.bind Py.ret]. rewrite Io, Oo in Hgout.
  exists F, (mk_tensor [B; Tq; D] (data pc)), out. rewrite Hdrop. cbn [fst snd].
  split; [exact HsF|]. split; [exact HgF|]. split; [reflexivity|].
  split; [|exact Hgout].
  intros b i hd e Hb Hi Hhd He.
  rewrite ED at 1.
  rewrite (@get_merged pc c B _ Tq _ b i hd e Hspc Hgpc Hb Hi Hhd He).
  now rewrite Hgc by assumption.
Qed.

(** X30.  The batch elements are computed independently by
    [MultiHeadAttention.forward]: operands that agree on batch element [b]
    get the same output rows and the same weights for [b], whatever the
    other batch elements hold -- in training mode too, the samples being
    drawn by position. *)
Theorem MultiHeadAttention_batch_independence
  (self : MultiHeadAttention.t) (D H dk B Tq Tk : nat)
  (query key value query' key' value' : tensor R) (mask : option (tensor R))
  (g : Generator) (b : nat) :
  MultiHeadAttention_dims self D H dk -> (0 < B)%nat -> (0 < D)%nat ->
  shape query = [B; Tq; D] -> shape key = [B; Tk; D] -> shape value = [B; Tk; D] ->
  shape query' = [B; Tq; D] -> shape key' = [B; Tk; D] -> shape value' = [B; Tk; D] ->
  mask_fits [B; H; Tq; Tk] mask ->
  (b < B)%nat ->
  (forall i c, (i < Tq)%nat -> (c < D)%nat -> get query [b; i; c] = get query' [b; i; c]) ->
  (forall i c, (i < Tk)%nat -> (c < D)%nat -> get key [b; i; c] = get key' [b; i; c]) ->
  (forall i c, (i < Tk)%nat -> (c < D)%nat -> get value [b; i; c] = get value' [b; i; c]) ->
  exists out W g1 out' W' g1',
    MultiHeadAttention.forward self query key value mask g = Py.ret (out, W, g1)
    /\ MultiHeadAttention.forward self query' key' value' mask g = Py.ret (out', W', g1')
    /\ (forall i o, (i < Tq)%nat -> (o < D)%nat -> get out [b; i; o] = get out' [b; i; o])
    /\ (forall hd i j, (hd < H)%nat -> (i < Tq)%nat -> (j < Tk)%nat ->
          get W [b; hd; i; j] = get W' [b; hd; i; j]).
Proof.
  intros Hdims HB HD Xq Xk Xv Xq' Xk' Xv' Hm Hb Aq Ak Av.
  pose proof Hdims as (_ & _ & _ & ED & Iq & Oq & Ik & Ok & Iv & Ov & _).
  destruct (@MultiHeadAttention_forward_stages self D H dk B Tq Tk Tk query key value
              Hdims HB HD Xq Xk Xv)
    as (q & k & v & S & V & Eq & Ek & Ev & _ & _ & _ & _ & HsS & HwS & HgS
        & HsV & _ & HgV & Hfw).
  destruct (@MultiHeadAttention_forward_stages self D H dk B Tq Tk Tk query' key' value'
              Hdims HB HD Xq' Xk' Xv')
    as (q' & k' & v' & S' & V' & Eq' & Ek' & Ev' & _ & _ & _ & _ & HsS' & HwS' & HgS'
        & HsV' & _ & HgV' & Hfw').
  rewrite Hfw, Hfw'. clear Hfw Hfw'.
  assert (Hq : forall i o, (i < Tq)%nat -> (o < D)%nat -> get q [b; i; o] = get q' [b; i; o]).
  { intros i o Hi Ho.
    apply (@linear_batch_agree (MultiHeadAttention.query_proj self) query query' q q'
             B Tq b); try assumption; rewrite ?Iq, ?Oq; assumption. }
  assert (Hk : forall i o, (i < Tk)%nat -> (o < D)%nat -> get k [b; i; o] = get k' [b; i; o]).
  { intros i o Hi Ho.
    apply (@linear_batch_agree (MultiHeadAttention.key_proj self) key key' k k'
             B Tk b); try assumption; rewrite ?Ik, ?Ok; assumption. }
  assert (Hv : forall i o, (i < Tk)%nat -> (o < D)%nat -> get v [b; i; o] = get v' [b; i; o]).
  { intros i o Hi Ho.
    apply (@linear_batch_agree (MultiHeadAttention.value_proj self) value value' v v'
             B Tk b); try assumption; rewrite ?Iv, ?Ov; assumption. }
  destruct (@MultiHeadAttention_finish_get self D H dk B Tq Tk S V mask g
              Hdims HB HD HsS HwS HsV Hm)
    as (F & ctx & out & HsF & HgF & -> & Hgctx & Hgout).
  destruct (@MultiHeadAttention_finish_get self D H dk B Tq Tk S' V' mask g
              Hdims HB HD HsS' HwS' HsV' Hm)
    as (F' & ctx' & out' & HsF' & HgF' & -> & Hgctx' & Hgout').
  assert (Hfeat : forall hd c, (hd < H)%nat -> (c < dk)%nat -> (hd * dk + c < D)%nat)
    by (intros hd c Hhd Hc; rewrite ED; nia).
  assert (HF : forall hd i j, (hd < H)%nat -> (i < Tq)%nat -> (j < Tk)%nat ->
             get F [b; hd; i; j] = get F' [b; hd; i; j]).
  { intros hd i j Hhd Hi Hj.
    rewrite HgF, HgF' by (unfold in_bounds; repeat constructor; assumption).
    destruct (masked_at mask [b; hd; i; j]); [reflexivity|].
    rewrite HgS, HgS' by assumption. f_equal.
    apply sum_n_ext. intros c Hc. rewrite Hq, Hk by auto. reflexivity. }
  assert (HW : forall hd i j, (hd < H)%nat -> (i < Tq)%nat -> (j < Tk)%nat ->
             get (fst (dropout (MultiHeadAttention.dropout_p self)
                         (MultiHeadAttention.training self) (softmax F) g)) [b; hd; i; j]
             = get (fst (dropout (MultiHeadAttention.dropout_p self)
                           (MultiHeadAttention.training self) (softmax F') g))
                 [b; hd; i; j]).
  { intros hd i j Hhd Hi Hj. apply get_dropout_ext; try apply wf_softmax.
    - now rewrite !shape_softmax, HsF, HsF'.
    - rewrite shape_softmax, HsF. unfold in_bounds; repeat constructor; assumption.
    - rewrite (@get_softmax_rank4 F B H Tq Tk b hd i j HsF Hb Hhd Hi Hj).
      rewrite (@get_softmax_rank4 F' B H Tq Tk b hd i j HsF' Hb Hhd Hi Hj).
      rewrite HF by assumption. f_equal.
      apply sum_n_ext. intros e He. now rewrite HF. }
  eexists out, _, _, out', _, _.
  split; [reflexivity|]. split; [reflexivity|]. split; [|exact HW].
  intros i o Hi Ho. rewrite Hgout, Hgout' by assumption.
  f_equal. apply sum_n_ext. intros e He. f_equal.
  assert (Hdk : dk <> 0%nat) by (intros ->; lia).
  assert (Ee : e = (e / dk * dk + e mod dk)%nat)
    by (pose proof (Nat.div_mod_eq e dk); lia).
  assert (Hhd : (e / dk < H)%nat)
    by (apply Nat.Div0.div_lt_upper_bound; rewrite ED in He; lia).
  assert (Hc : (e mod dk < dk)%nat) by (apply Nat.mod_upper_bound; exact Hdk).
  rewrite Ee, Hgctx, Hgctx' by assumption.
  apply sum_n_ext. intros j Hj.
  rewrite HW, HgV, HgV' by assumption. now rewrite Hv by auto.
Qed.

Lemma MultiHeadAttention_batch_independence_witness :
  exists self,
    MultiHeadAttention.__init__ 1 1 (1 / 2) mha_init0 = Py.ret self
    /\ exists out W g1 out' W' g1',
         MultiHeadAttention.forward self x_two_batches x_two_batches x_two_batches None
           gen_keep_then_drop
         = Py.ret (out, W, g1)
         /\ MultiHeadAttention.forward self x_two_batches_other x_two_batches_other
              x_two_batches_other None gen_keep_then_drop
            = Py.ret (out', W', g1')
         /\ (forall i o, (i < 1)%nat -> (o < 1)%nat ->
               get out [0; i; o]%nat = get out' [0; i; o]%nat)
         /\ (forall hd i j, (hd < 1)%nat -> (i < 1)%nat -> (j < 1)%nat ->
               get W [0; hd; i; j]%nat = get W' [0; hd; i; j]%nat).
Proof.
  destruct (@MultiHeadAttention_init_succeeds 1 1 (1 / 2) mha_init0)
    as [self Hself]; try lia; try reflexivity; try lra.
  exists self. split; [exact Hself|].
  assert (Hsame : forall i c, (i < 1)%nat -> (c < 1)%nat ->
            get x_two_batches [0; i; c]%nat = get x_two_batches_other [0; i; c]%nat).
  { intros i c Hi Hc. assert (i = 0%nat) by lia. assert (c = 0%nat) by lia.
    subst. reflexivity. }
  apply (@MultiHeadAttention_batch_independence self 1 1 1 2 1 1
           x_two_batches x_two_batches x_two_batches
           x_two_batches_other x_two_batches_other x_two_batches_other
           None gen_keep_then_drop 0);
    try reflexivity; try lia; try exact Hsame; try exact I.
  exact (@MultiHeadAttention_dims_of_init 1 1 (1 / 2) mha_init0 self Hself ltac:(lia)).
Defined.

End BatchIndependence.

(* ================================================================= *)
(** ** Worked runs within the range of the float type                 *)
(* ================================================================= *)

Section WorkedRuns.










End WorkedRuns.

Section CausalWorkedRuns.


End CausalWorkedRuns.
